(** * Battelligence: the battery-cell dashboard of [src/Battelligence.py]

    A shallow embedding of the program's logic: the chemistry table
    [CELL_CONFIGS], the status classifier [get_cell_status], the mock
    telemetry generator [generate_mock_data], the handlers that create and
    mutate the cell registry [st.session_state.cells_data], the figures the
    pages derive from it and the CSV export.

    Numbers.  Every number of the program is a Python [float] (or an [int]
    used as one).  They are embedded as exact rationals [Q]: a literal such
    as [2.8] is the rational 28/10, [+], [*] and [/] are exact, and
    [round(x, n)] rounds the exact value half-to-even at [n] decimals.  This
    is the reading "for every real voltage" of the specification; IEEE
    rounding error, infinities and NaN are outside the embedding, except in
    module [IEEE], which restates the classifier on binary64 values.  Where
    the exact value lies halfway between two neighbours at [n] decimals,
    Python rounds the binary64 value, which lies a little above or below the
    tie, and may store the other neighbour: [round(3.7 * 0.05, 2)] is 0.19 in
    Python, as the binary product is 0.18500000000000003, and 0.18 here.  The
    statements about a rounded value say what holds of both neighbours.
    Arithmetic facts are stated with [==] (equality of rationals), frame
    facts with [=].

    Strings are byte strings; [str.lower] is modelled on the ASCII letters.

    Effects.  The random generator and the clock are a world that the
    computations of [Py.M] read and advance; a [KeyError] or a
    [ZeroDivisionError] is [None].  Widget readings are arguments.

    Pages.  Each page of the script is a function of the session and of what
    its widgets return; a run of the script is [run_page], and a session is a
    sequence of runs.

    Sharing.  [dict.copy()] is shallow: the pages mutate the record objects
    the session registry holds, so the registry a handler returns here is
    the registry the session sees afterwards. *)

From Stdlib Require Import QArith Qround Qabs ZArith List String Ascii Bool Lia Lqa.
From Stdlib Require Import DecimalString DecimalNat Floats.
Import ListNotations.

Local Open Scope string_scope.
Local Open Scope Q_scope.

Set Warnings "-inexact-float".

(** ** Python: numbers, dictionaries, the random generator and the clock *)

Module Py.

(** [x < y] on floats. [Qle_bool] is the library's [<=]. *)
Definition Qlt_bool (x y : Q) : bool := negb (Qle_bool y x).

(** [str.lower()], on the ASCII range: ['A'..'Z'] are codes 65..90. *)
Definition lower_ascii (a : ascii) : ascii :=
  let n := nat_of_ascii a in
  if (65 <=? n)%nat && (n <=? 90)%nat then ascii_of_nat (n + 32) else a.

Fixpoint lower (s : string) : string :=
  match s with
  | EmptyString => EmptyString
  | String a s' => String (lower_ascii a) (lower s')
  end.

(** [dict.get(key)] on a dictionary kept as an association list in insertion
    order; [None] is the absent key ([KeyError] for [d[key]]). *)
Fixpoint dict_get {V : Type} (d : list (string * V)) (key : string) : option V :=
  match d with
  | [] => None
  | (k, v) :: d' => if String.eqb k key then Some v else dict_get d' key
  end.

(** [dict.get(key, default)]. *)
Definition dict_get_default {V : Type} (d : list (string * V)) (key : string) (default : V) : V :=
  match dict_get d key with
  | Some v => v
  | None => default
  end.

(** [x / y]: true division, which raises [ZeroDivisionError] ([None]) on a
    zero divisor. *)
Definition div (x y : Q) : option Q :=
  if Qeq_bool y 0 then None else Some (x / y).

(** The integer nearest to [x], a tie going to the even neighbour. *)
Definition round_half_even (x : Q) : Z :=
  let f := Qfloor x in
  match Qcompare (x - inject_Z f) (1 # 2) with
  | Lt => f
  | Gt => (f + 1)%Z
  | Eq => if Z.even f then f else (f + 1)%Z
  end.

Definition pow10 (ndigits : nat) : Q := inject_Z (10 ^ Z.of_nat ndigits).

(** [round(x, ndigits)] for [ndigits >= 0], on the exact value: at a tie it
    gives the even neighbour, where Python, which rounds the binary64 value,
    gives either neighbour. *)
Definition round (x : Q) (ndigits : nat) : Q :=
  inject_Z (round_half_even (x * pow10 ndigits)) / pow10 ndigits.

(** [l[-n:]] for [n > 0]: the last [n] elements, the whole list when it is
    shorter. *)
Definition last_n {A : Type} (n : nat) (l : list A) : list A :=
  skipn (List.length l - n) l.

(** *** The outside world: the random generator and the clock

    [random.random()] and [datetime.now()] read the world and advance it: the
    [n]-th call of each returns the [n]-th element of its stream.  A
    computation may also raise ([None]), which ends the script run. *)
Record World : Type := mkWorld {
  rng : nat -> Q;
  rng_pos : nat;
  clock : nat -> Z;
  clock_pos : nat
}.

Definition M (A : Type) : Type := World -> option (A * World).

Definition ret {A : Type} (a : A) : M A := fun w => Some (a, w).

Definition bind {A B : Type} (c : M A) (k : A -> M B) : M B :=
  fun w => match c w with
           | Some (a, w') => k a w'
           | None => None
           end.

Definition raise {A : Type} : M A := fun _ => None.

(** [d[key]] inside a computation. *)
Definition lift {A : Type} (o : option A) : M A :=
  match o with
  | Some a => ret a
  | None => raise
  end.

(** [random.random()], a float of [[0, 1)]. *)
Definition random : M Q :=
  fun w => Some (rng w (rng_pos w),
                 mkWorld (rng w) (S (rng_pos w)) (clock w) (clock_pos w)).

(** [random.uniform(a, b)] is [a + (b - a) * random()]. *)
Definition uniform (a b : Q) : M Q :=
  bind random (fun r => ret (a + (b - a) * r)).

(** [datetime.now()]. *)
Definition datetime_now : M Z :=
  fun w => Some (clock w (clock_pos w),
                 mkWorld (rng w) (rng_pos w) (clock w) (S (clock_pos w))).

(** [for x in items: ...] collecting one result per element, in order. *)
Fixpoint for_each {A B : Type} (body : A -> M B) (items : list A) : M (list B) :=
  match items with
  | [] => ret []
  | x :: rest =>
      bind (body x) (fun y => bind (for_each body rest) (fun ys => ret (y :: ys)))
  end.

(** The generator only ever returns floats of [[0, 1)]. *)
Definition rng_ok (w : World) : Prop := forall n, 0 <= rng w n /\ rng w n < 1.

(** [str.upper()], on the ASCII range: ['a'..'z'] are codes 97..122. *)
Definition upper_ascii (a : ascii) : ascii :=
  let n := nat_of_ascii a in
  if (97 <=? n)%nat && (n <=? 122)%nat then ascii_of_nat (n - 32) else a.

Fixpoint upper (s : string) : string :=
  match s with
  | EmptyString => EmptyString
  | String a s' => String (upper_ascii a) (upper s')
  end.

(** [needle in hay] on strings. *)
Fixpoint is_substring (needle hay : string) : bool :=
  String.prefix needle hay ||
  match hay with
  | EmptyString => false
  | String _ hay' => is_substring needle hay'
  end.

(** [min(a, b)]: the first of the smallest. *)
Definition min (a b : Q) : Q := if Qlt_bool b a then b else a.

(** [sum(xs)]: from 0, left to right. *)
Definition sum (xs : list Q) : Q := fold_left Qplus xs 0.

End Py.

Notation "x <- c ;; k" := (Py.bind c (fun x => k))
  (at level 61, c at next level, right associativity).

(** ** The [csv] writer

    What [to_csv] hands its rows to: fields joined by commas, one line per
    row, a field quoted only when it holds a delimiter, a quote or a line
    break. *)

Module Csv.

Definition comma : ascii := ","%char.
Definition newline : ascii := ascii_of_nat 10.
Definition carriage_return : ascii := ascii_of_nat 13.
Definition quotechar : ascii := ascii_of_nat 34.

Fixpoint contains (c : ascii) (s : string) : bool :=
  match s with
  | EmptyString => false
  | String a s' => Ascii.eqb a c || contains c s'
  end.

(** A field the writer emits as it is: no delimiter, no quote, no line
    break. *)
Definition plain (s : string) : bool :=
  negb (contains comma s) && negb (contains quotechar s)
  && negb (contains newline s) && negb (contains carriage_return s).

Fixpoint double_quotes (s : string) : string :=
  match s with
  | EmptyString => EmptyString
  | String a s' =>
      if Ascii.eqb a quotechar
      then String quotechar (String quotechar (double_quotes s'))
      else String a (double_quotes s')
  end.

(** Minimal quoting: only a field that needs it is quoted, its quotes
    doubled. *)
Definition field (s : string) : string :=
  if plain s then s
  else String quotechar (double_quotes s ++ String quotechar EmptyString).

(** [sep.join(fields)]. *)
Fixpoint join (sep : ascii) (fields : list string) : string :=
  match fields with
  | [] => EmptyString
  | [f] => f
  | f :: rest => f ++ String sep (join sep rest)
  end.

(** The pieces of a text put one after the other. *)
Definition cat (pieces : list string) : string :=
  fold_right String.append EmptyString pieces.

(** One line of the file. *)
Definition line (fields : list string) : string :=
  join comma (map field fields) ++ String newline EmptyString.

(** [s.split(sep)]. *)
Fixpoint split (sep : ascii) (s : string) : list string :=
  match s with
  | EmptyString => [EmptyString]
  | String a s' =>
      if Ascii.eqb a sep then EmptyString :: split sep s'
      else match split sep s' with
           | [] => [String a EmptyString]
           | f :: rest => String a f :: rest
           end
  end.

End Csv.

(** ** pandas data frames

    As much of [pd.DataFrame] and [to_csv] as the export uses.  How pandas
    prints a float ([repr], the shortest decimal that reads back as the same
    float) and a timestamp is a parameter of the writer; module [Decimal]
    below is the notation the round trip is stated for. *)

(** A cell of the data frame. *)
Inductive Value : Type :=
  | VStr (s : string)
  | VFloat (x : Q)
  | VTime (t : Z)
  | VNaN.

(** A data frame: its column labels and, per row, one value per column. *)
Record Frame : Type := mkFrame {
  columns : list string;
  values : list (list Value)
}.

(** The labels a further dictionary adds: its keys not seen so far. *)
Definition add_keys (cols : list string) (row : list (string * Value)) : list string :=
  (cols ++ filter (fun k => negb (existsb (String.eqb k) cols)) (map fst row))%list.

(** The row of the frame a dictionary gives: a key it lacks is NaN. *)
Definition frame_row (cols : list string) (row : list (string * Value)) : list Value :=
  map (fun c => match Py.dict_get row c with
                | Some v => v
                | None => VNaN
                end) cols.

(** [pd.DataFrame(records)] on a list of dictionaries: the columns are the
    keys in order of first appearance. *)
Definition DataFrame (records : list (list (string * Value))) : Frame :=
  let cols := fold_left add_keys records [] in
  {| columns := cols; values := map (frame_row cols) records |}.

Section Writer.

(** How a float and a timestamp are printed. *)
Variable float_repr : Q -> string.
Variable time_repr : Z -> string.

Definition render (v : Value) : string :=
  match v with
  | VStr s => s
  | VFloat x => float_repr x
  | VTime t => time_repr t
  | VNaN => EmptyString
  end.

(** [df.to_csv(index=False)]: the header line, then one line per row. *)
Definition to_csv (df : Frame) : string :=
  Csv.line (columns df) ++ Csv.cat (map (fun row => Csv.line (map render row)) (values df)).

End Writer.

(** ** Chemistry table *)

Record CellConfig : Type := mkCellConfig {
  nominal : Q;
  cfg_min : Q;
  cfg_max : Q;
  color : string
}.

Definition lfp_config : CellConfig := mkCellConfig 3.2 2.8 3.6 "#28a745".
Definition nmc_config : CellConfig := mkCellConfig 3.6 3.2 4.0 "#007bff".
Definition lto_config : CellConfig := mkCellConfig 2.4 1.5 2.8 "#ffc107".
Definition lco_config : CellConfig := mkCellConfig 3.7 3.0 4.2 "#dc3545".

Definition CELL_CONFIGS : list (string * CellConfig) :=
  [ ("lfp", lfp_config); ("nmc", nmc_config); ("lto", lto_config); ("lco", lco_config) ].

(** The profile the classifier uses for a chemistry identifier:
    [CELL_CONFIGS.get(cell_type.lower(), CELL_CONFIGS["lfp"])]. *)
Definition config_for (cell_type : string) : CellConfig :=
  Py.dict_get_default CELL_CONFIGS (Py.lower cell_type) lfp_config.

(** ** Status classifier *)

Definition status_critical : string * string := ("🔴 Critical", "status-danger").
Definition status_overcharged : string * string := ("⚠️ Overcharged", "status-warning").
Definition status_normal : string * string := ("✅ Normal", "status-good").
Definition status_warning : string * string := ("⚠️ Warning", "status-warning").

Definition get_cell_status (voltage : Q) (cell_type : string) : string * string :=
  let config := config_for cell_type in
  if Py.Qlt_bool voltage (cfg_min config) then status_critical
  else if Py.Qlt_bool (cfg_max config) voltage then status_overcharged
  else if Qle_bool (cfg_min config) voltage && Qle_bool voltage (cfg_max config)
       then status_normal
  else status_warning.

(** ** The classifier on IEEE doubles

    The same function with the voltage and the thresholds as binary64
    values, comparisons as the processor does them: every comparison with a
    NaN is false. *)

Module IEEE.

Record CellConfig : Type := mkCellConfig {
  nominal : float;
  cfg_min : float;
  cfg_max : float;
  color : string
}.

Definition CELL_CONFIGS : list (string * CellConfig) :=
  [ ("lfp", mkCellConfig 3.2 2.8 3.6 "#28a745");
    ("nmc", mkCellConfig 3.6 3.2 4.0 "#007bff");
    ("lto", mkCellConfig 2.4 1.5 2.8 "#ffc107");
    ("lco", mkCellConfig 3.7 3.0 4.2 "#dc3545") ]%float.

Definition config_for (cell_type : string) : CellConfig :=
  Py.dict_get_default CELL_CONFIGS (Py.lower cell_type)
    (mkCellConfig 3.2 2.8 3.6 "#28a745")%float.

Definition get_cell_status (voltage : float) (cell_type : string) : string * string :=
  let config := config_for cell_type in
  if (voltage <? cfg_min config)%float then status_critical
  else if (cfg_max config <? voltage)%float then status_overcharged
  else if (cfg_min config <=? voltage)%float && (voltage <=? cfg_max config)%float
       then status_normal
  else status_warning.

End IEEE.

(** ** Mock telemetry *)

(** The dictionary [generate_mock_data] returns. *)
Record MockData : Type := mkMockData {
  mock_voltage : Q;
  mock_current : Q;
  mock_temp : Q;
  mock_timestamp : Z
}.

Definition generate_mock_data (cell_type : string) (base_voltage base_current : Q)
  : Py.M MockData :=
  jv <- Py.uniform (-0.1) 0.1 ;;
  jc <- Py.uniform (-0.5) 0.5 ;;
  t <- Py.uniform 25 45 ;;
  now <- Py.datetime_now ;;
  Py.ret {| mock_voltage := Py.round (base_voltage + jv) 2;
            mock_current := Py.round (base_current + jc) 2;
            mock_temp := Py.round t 1;
            mock_timestamp := now |}.

(** ** Cell records and the registry *)

(** A cell record is a dictionary with the seven keys the configuration page
    gives it; ["timestamp"] appears once mock telemetry has been merged in. *)
Record CellRecord : Type := mkCellRecord {
  voltage : Q;
  current : Q;
  temp : Q;
  capacity : Q;
  min_voltage : Q;
  max_voltage : Q;
  cell_type : string;
  timestamp : option Z
}.

(** [st.session_state.cells_data]: cell key to record, in insertion order. *)
Definition Registry : Type := list (string * CellRecord).

(** [data.update(mock)]: the four keys of [mock] overwrite or extend [data]. *)
Definition update (data : CellRecord) (mock : MockData) : CellRecord :=
  {| voltage := mock_voltage mock;
     current := mock_current mock;
     temp := mock_temp mock;
     capacity := capacity data;
     min_voltage := min_voltage data;
     max_voltage := max_voltage data;
     cell_type := cell_type data;
     timestamp := Some (mock_timestamp mock) |}.

(** [cells_data[key] = record]. *)
Fixpoint dict_set (d : Registry) (key : string) (record : CellRecord) : Registry :=
  match d with
  | [] => [(key, record)]
  | (k, r) :: d' =>
      if String.eqb k key then (k, record) :: d' else (k, r) :: dict_set d' key record
  end.

(** ** Configuration page *)

(** What the widgets of one cell slot return. *)
Record SlotInput : Type := mkSlotInput {
  slot_cell_type : string;
  slot_current : Q
}.

(** [f"cell_{i+1}_{cell_type}"]. *)
Definition cell_key (i : nat) (cell_type : string) : string :=
  "cell_" ++ NilZero.string_of_uint (Nat.to_uint (i + 1)) ++ "_" ++ cell_type.

(** The body of [for i in range(num_cells)], on the dictionary built so far. *)
Definition configure_cell (cells_data : Registry) (i : nat) (slot : SlotInput)
  : Py.M Registry :=
  let cell_type := slot_cell_type slot in
  let current := slot_current slot in
  config <- Py.lift (Py.dict_get CELL_CONFIGS cell_type) ;;
  let voltage := nominal config in
  let capacity := Py.round (voltage * current) 2 in
  t <- Py.uniform 25 40 ;;
  let temp := Py.round t 1 in
  Py.ret (dict_set cells_data (cell_key i cell_type)
            {| voltage := voltage;
               current := current;
               temp := temp;
               capacity := capacity;
               min_voltage := cfg_min config;
               max_voltage := cfg_max config;
               cell_type := cell_type;
               timestamp := None |}).

Fixpoint configure_from (cells_data : Registry) (i : nat) (slots : list SlotInput)
  : Py.M Registry :=
  match slots with
  | [] => Py.ret cells_data
  | slot :: rest =>
      cells_data' <- configure_cell cells_data i slot ;;
      configure_from cells_data' (S i) rest
  end.

(** The registry that "Save Configuration" stores: slot [i] of [slots] is
    cell [i+1]. *)
Definition configure (slots : list SlotInput) : Py.M Registry :=
  configure_from [] 0 slots.

(** ** Pages

    How a run of a page ends: [st.stop()] after the "configure first"
    warning, [st.rerun()], or the page run to its end with the values it
    computes for display.  An exception raised by the script's own
    expressions is the [None] of [option] and [Py.M].  The calls that draw
    (metrics, tables, plotly charts) and the widget calls are taken to
    return: what Streamlit and plotly do with the values handed to them, such
    as refusing a slider value outside the slider's range, is outside the
    embedding. *)
Inductive Outcome (View : Type) : Type :=
  | Stopped
  | Rerun
  | Rendered (view : View).

Arguments Stopped {View}.
Arguments Rerun {View}.
Arguments Rendered {View} view.

(** [st.success], [st.warning] and [st.error] with their message. *)
Inductive Level : Type := success | warning | error.

(** ** Dashboard *)

(** [np.mean(xs)]: the sum over the length.  Of an empty list numpy makes a
    NaN, which the embedding does not have: [None]. *)
Definition mean (xs : list Q) : option Q :=
  Py.div (fold_right Qplus 0 xs) (inject_Z (Z.of_nat (List.length xs))).

Definition avg_voltage (cells_data : Registry) : option Q :=
  mean (map (fun entry => voltage (snd entry)) cells_data).

(** [sum([cell["current"] for cell in cells_data.values()])]. *)
Definition total_current (cells_data : Registry) : Q :=
  fold_left Qplus (map (fun entry => current (snd entry)) cells_data) 0.

Definition avg_temp (cells_data : Registry) : option Q :=
  mean (map (fun entry => temp (snd entry)) cells_data).

(** One row of [display_data]. *)
Record DisplayRow : Type := mkDisplayRow {
  display_cell : string;
  display_type : string;
  display_voltage : Q;
  display_current : Q;
  display_temp : Q;
  display_capacity : Q;
  display_status : string
}.

Definition display_row (entry : string * CellRecord) : DisplayRow :=
  let (cell_name, data) := entry in
  let (status, status_class) := get_cell_status (voltage data) (cell_type data) in
  {| display_cell := cell_name;
     display_type := Py.upper (cell_type data);
     display_voltage := voltage data;
     display_current := current data;
     display_temp := temp data;
     display_capacity := capacity data;
     display_status := status |}.

Definition display_data (cells_data : Registry) : list DisplayRow :=
  map display_row cells_data.

(** What the dashboard shows: the four metrics and the table. *)
Record DashboardView : Type := mkDashboardView {
  shown_total_cells : nat;
  shown_avg_voltage : Q;
  shown_total_current : Q;
  shown_avg_temp : Q;
  shown_table : list DisplayRow
}.

(** The Dashboard page on the session's registry. *)
Definition dashboard (cells_data : Registry) : option (Outcome DashboardView) :=
  match cells_data with
  | [] => Some Stopped
  | _ :: _ =>
      match avg_voltage cells_data, avg_temp cells_data with
      | Some v, Some t =>
          Some (Rendered {| shown_total_cells := List.length cells_data;
                            shown_avg_voltage := v;
                            shown_total_current := total_current cells_data;
                            shown_avg_temp := t;
                            shown_table := display_data cells_data |})
      | _, _ => None
      end
  end.

(** ** Control panel *)

(** The three slider readings of one cell. *)
Record SliderInput : Type := mkSliderInput {
  new_voltage : Q;
  new_current : Q;
  new_temp : Q
}.

(** The "Update values" block for one cell. *)
Definition control_update_cell (sliders : string -> SliderInput)
  (entry : string * CellRecord) : string * CellRecord :=
  let (cell_name, data) := entry in
  let s := sliders cell_name in
  (cell_name,
   {| voltage := new_voltage s;
      current := new_current s;
      temp := new_temp s;
      capacity := Py.round (new_voltage s * new_current s) 2;
      min_voltage := min_voltage data;
      max_voltage := max_voltage data;
      cell_type := cell_type data;
      timestamp := timestamp data |}).

(** The loop over [cells_data.items()]: keys are unique, so
    [cells_data[cell_name]] is the record being visited.  The records are
    those of the session registry, which therefore holds the slider values
    whether or not "Apply Changes" is pressed. *)
Definition control_update (sliders : string -> SliderInput) (cells_data : Registry)
  : Registry :=
  map (control_update_cell sliders) cells_data.

(** "Randomize Values". *)
Definition randomize_cell (entry : string * CellRecord) : Py.M (string * CellRecord) :=
  let (cell_name, data) := entry in
  config <- Py.lift (Py.dict_get CELL_CONFIGS (cell_type data)) ;;
  mock <- generate_mock_data (cell_type data) (nominal config) (current data) ;;
  Py.ret (cell_name, update data mock).

Definition randomize_values (cells_data : Registry) : Py.M Registry :=
  Py.for_each randomize_cell cells_data.

(** "Emergency Stop". *)
Definition emergency_stop_cell (entry : string * CellRecord) : string * CellRecord :=
  let (cell_name, data) := entry in
  (cell_name,
   {| voltage := voltage data;
      current := 0.0;
      temp := temp data;
      capacity := 0.0;
      min_voltage := min_voltage data;
      max_voltage := max_voltage data;
      cell_type := cell_type data;
      timestamp := timestamp data |}).

Definition emergency_stop (cells_data : Registry) : Registry :=
  map emergency_stop_cell cells_data.

(** System health. *)
Definition is_normal (cell : CellRecord) : bool :=
  String.eqb (fst (get_cell_status (voltage cell) (cell_type cell))) "✅ Normal".

Definition healthy_cells (cells_data : Registry) : nat :=
  list_sum (map (fun _ => 1%nat) (filter (fun entry => is_normal (snd entry)) cells_data)).

Definition health_percentage (cells_data : Registry) : option Q :=
  match Py.div (inject_Z (Z.of_nat (healthy_cells cells_data)))
               (inject_Z (Z.of_nat (List.length cells_data))) with
  | Some ratio => Some (ratio * 100)
  | None => None
  end.

(** "Total Power". *)
Definition total_power (cells_data : Registry) : Q :=
  Py.sum (map (fun entry => capacity (snd entry)) cells_data).

(** The system health indicator under the metric. *)
Definition health_banner (health_percentage : Q) : Level * string :=
  if Qle_bool 80 health_percentage then (success, "🟢 System Running Optimally")
  else if Qle_bool 60 health_percentage then (warning, "🟡 System Needs Attention")
  else (error, "🔴 Critical System Issues").

(** What the "System Status" column shows. *)
Record ControlView : Type := mkControlView {
  shown_cells : Registry;
  shown_emergency : bool;
  shown_total_power : Q;
  shown_health : Q;
  shown_banner : Level * string
}.

(** The Control Panel page: the registry of the session after the run, and
    how the run ends.  [apply_changes], [randomize] and [emergency_stop_pressed]
    are the three buttons.  "Apply Changes" stores the dictionary whose
    records the update loop has already written, so it changes nothing. *)
Definition control_panel (sliders : string -> SliderInput)
  (apply_changes randomize emergency_stop_pressed : bool) (session : Registry)
  : Py.M (Registry * Outcome ControlView) :=
  match session with
  | [] => Py.ret (session, Stopped)
  | _ :: _ =>
      let cells_data := control_update sliders session in
      if randomize then
        cells_data <- randomize_values cells_data ;;
        Py.ret (cells_data, Rerun)
      else
        let cells_data :=
          if emergency_stop_pressed then emergency_stop cells_data else cells_data in
        health <- Py.lift (health_percentage cells_data) ;;
        Py.ret (cells_data,
                Rendered {| shown_cells := cells_data;
                            shown_emergency := emergency_stop_pressed;
                            shown_total_power := total_power cells_data;
                            shown_health := health;
                            shown_banner := health_banner health |})
  end.

(** ** Analysis page *)

Definition power_density (data : CellRecord) : option Q :=
  if Py.Qlt_bool 0 (temp data) then Py.div (capacity data) (temp data) else Some 0.

(** The items of a record dictionary, in the order of its keys. *)
Definition record_items (data : CellRecord) : list (string * Value) :=
  [ ("voltage", VFloat (voltage data));
    ("current", VFloat (current data));
    ("temp", VFloat (temp data));
    ("capacity", VFloat (capacity data));
    ("min_voltage", VFloat (min_voltage data));
    ("max_voltage", VFloat (max_voltage data));
    ("cell_type", VStr (cell_type data)) ]
  ++ match timestamp data with
     | Some t => [("timestamp", VTime t)]
     | None => []
     end.

(** [{"Cell": cell_name, "Type": data["cell_type"], **data}]. *)
Definition export_row (entry : string * CellRecord) : list (string * Value) :=
  let (cell_name, data) := entry in
  ("Cell", VStr cell_name) :: ("Type", VStr (cell_type data)) :: record_items data.

(** The "Generate CSV" handler. *)
Definition generate_csv (float_repr : Q -> string) (time_repr : Z -> string)
  (cells_data : Registry) : string :=
  to_csv float_repr time_repr (DataFrame (map export_row cells_data)).

(** [(data["voltage"] / CELL_CONFIGS[data["cell_type"]]["max"]) * 100]. *)
Definition efficiency (data : CellRecord) : option Q :=
  match Py.dict_get CELL_CONFIGS (cell_type data) with
  | Some config =>
      match Py.div (voltage data) (cfg_max config) with
      | Some ratio => Some (ratio * 100)
      | None => None
      end
  | None => None
  end.

(** One row of [perf_data]. *)
Record PerfRow : Type := mkPerfRow {
  perf_cell : string;
  perf_efficiency : Q;
  perf_power_density : Q;
  perf_energy_output : Q;
  perf_temperature_factor : Q
}.

Definition perf_row (entry : string * CellRecord) : option PerfRow :=
  let (cell_name, data) := entry in
  match efficiency data, power_density data with
  | Some e, Some p =>
      Some {| perf_cell := cell_name;
              perf_efficiency := Py.round e 1;
              perf_power_density := Py.round p 3;
              perf_energy_output := capacity data;
              perf_temperature_factor := temp data |}
  | _, _ => None
  end.

Fixpoint perf_data (cells_data : Registry) : option (list PerfRow) :=
  match cells_data with
  | [] => Some []
  | entry :: rest =>
      match perf_row entry with
      | Some row =>
          match perf_data rest with
          | Some rows => Some (row :: rows)
          | None => None
          end
      | None => None
      end
  end.

(** The four normalised values of the radar chart, drawn on an axis from 0
    to 100. *)
Definition radar_values (data : CellRecord) : option (list Q) :=
  match Py.dict_get CELL_CONFIGS (cell_type data) with
  | Some config =>
      match Py.div (voltage data) (cfg_max config) with
      | Some ratio =>
          Some [ ratio * 100;
                 Py.min ((current data + 10) / 20 * 100) 100;
                 (temp data / 60) * 100;
                 Py.min ((capacity data + 10) / 20 * 100) 100 ]
      | None => None
      end
  | None => None
  end.

(** [values + [values[0]]]: the polygon closed on its first corner. *)
Definition closed_polygon (values : list Q) : list Q :=
  match values with
  | [] => []
  | first :: _ => (values ++ [first])%list
  end.

(** The traces of the radar chart, one per selected cell. *)
Fixpoint radar_traces (cells_data : Registry) (selected_cells : list string)
  : option (list (string * list Q)) :=
  match selected_cells with
  | [] => Some []
  | cell_name :: rest =>
      match Py.dict_get cells_data cell_name with
      | Some data =>
          match radar_values data, radar_traces cells_data rest with
          | Some values, Some traces => Some ((cell_name, closed_polygon values) :: traces)
          | _, _ => None
          end
      | None => None
      end
  end.

(** The numbers of [report_data], before they are formatted. *)
Record Report : Type := mkReport {
  report_total_cells : nat;
  report_generated : Z;
  report_avg_voltage : Q;
  report_total_current : Q;
  report_avg_temp : Q;
  report_total_capacity : Q
}.

(** What the Analysis page shows in its three tabs; a download is the data
    and the time in its file name. *)
Record AnalysisView : Type := mkAnalysisView {
  shown_perf : list PerfRow;
  shown_radar : list (string * list Q);
  shown_report : Report;
  shown_json_download : option Z;
  shown_csv_download : option (string * Z)
}.

Section AnalysisPage.

Variable float_repr : Q -> string.
Variable time_repr : Z -> string.

(** The Analysis page.  The three tabs are containers: the code of each runs
    on every run of the page.  [selected_cells] is what the multiselect
    returns, [export_report] and [generate_csv_pressed] are the two buttons.

    This function is the page's own computations.  The scatter chart of the
    first tab takes the capacities ("Energy Output") as marker sizes, and
    plotly refuses a negative size: on a registry with a negative capacity
    the real page raises at that chart, before the second and third tab.
    [analysis_charted] below is the page with that chart. *)
Definition analysis (selected_cells : list string)
  (export_report generate_csv_pressed : bool) (cells_data : Registry)
  : Py.M (Outcome AnalysisView) :=
  match cells_data with
  | [] => Py.ret Stopped
  | _ :: _ =>
      perf <- Py.lift (perf_data cells_data) ;;
      traces <- Py.lift (radar_traces cells_data selected_cells) ;;
      generated <- Py.datetime_now ;;
      v <- Py.lift (avg_voltage cells_data) ;;
      t <- Py.lift (avg_temp cells_data) ;;
      json_download <-
        (if export_report then (now <- Py.datetime_now ;; Py.ret (Some now))
         else Py.ret None) ;;
      csv_download <-
        (if generate_csv_pressed
         then let csv := generate_csv float_repr time_repr cells_data in
              now <- Py.datetime_now ;; Py.ret (Some (csv, now))
         else Py.ret None) ;;
      Py.ret (Rendered {| shown_perf := perf;
                          shown_radar := traces;
                          shown_report :=
                            {| report_total_cells := List.length cells_data;
                               report_generated := generated;
                               report_avg_voltage := v;
                               report_total_current := total_current cells_data;
                               report_avg_temp := t;
                               report_total_capacity := total_power cells_data |};
                          shown_json_download := json_download;
                          shown_csv_download := csv_download |})
  end.

(** [px.scatter(perf_df, ..., size="Energy Output")]: plotly checks the marker
    sizes it is given and raises [ValueError] on a negative one. *)
Definition energy_scatter (sizes : list Q) : option unit :=
  if forallb (Qle_bool 0) sizes then Some tt else None.

(** The Analysis page with the scatter chart of its first tab: the chart
    comes after the performance rows and before the second tab, so a run
    that raises at it shows nothing of what follows. *)
Definition analysis_charted (selected_cells : list string)
  (export_report generate_csv_pressed : bool) (cells_data : Registry)
  : Py.M (Outcome AnalysisView) :=
  match cells_data with
  | [] => Py.ret Stopped
  | _ :: _ =>
      _ <- Py.lift (perf_data cells_data) ;;
      _ <- Py.lift (energy_scatter (map (fun entry => capacity (snd entry)) cells_data)) ;;
      analysis selected_cells export_report generate_csv_pressed cells_data
  end.

End AnalysisPage.

(** ** Real-time monitor *)

(** "Update with simulated real-time data". *)
Definition monitor_cell (entry : string * CellRecord) : Py.M (string * CellRecord) :=
  let (cell_name, data) := entry in
  config <- Py.lift (Py.dict_get CELL_CONFIGS (cell_type data)) ;;
  updated_data <- generate_mock_data (cell_type data) (voltage data) (current data) ;;
  Py.ret (cell_name, update data updated_data).

Definition monitor_update (cells_data : Registry) : Py.M Registry :=
  Py.for_each monitor_cell cells_data.

(** A snapshot of the registry: the time and [cells_data.copy()], a shallow
    copy that shares the record objects with the registry. *)
Record Snapshot : Type := mkSnapshot {
  snap_timestamp : Z;
  snap_data : Registry
}.

(** "Store historical data" and "Keep only last 100 snapshots". *)
Definition store_snapshot (historical_data : list Snapshot) (current_snapshot : Snapshot)
  : list Snapshot :=
  let historical_data := (historical_data ++ [current_snapshot])%list in
  if (100 <? List.length historical_data)%nat
  then Py.last_n 100 historical_data
  else historical_data.

(** The history after a run of monitor cycles, one snapshot each. *)
Definition monitor_cycles (historical_data : list Snapshot) (snapshots : list Snapshot)
  : list Snapshot :=
  fold_left store_snapshot snapshots historical_data.

Section Alerts.

(** How a float is printed inside an f-string. *)
Variable float_str : Q -> string.

(** The alerts of one cell: its status when Critical or Overcharged, its
    temperature when above 45. *)
Definition cell_alerts (entry : string * CellRecord) : list string :=
  let (cell_name, data) := entry in
  let (status, status_class) := get_cell_status (voltage data) (cell_type data) in
  let status_alert := "⚠️ " ++ cell_name ++ ": " ++ status in
  let temp_alert :=
    "🌡️ " ++ cell_name ++ ": High temperature (" ++ float_str (temp data) ++ "°C)" in
  ((if Py.is_substring "Critical" status || Py.is_substring "Overcharged" status
    then [status_alert] else []) ++
   (if Py.Qlt_bool 45 (temp data) then [temp_alert] else []))%list.

Definition alerts (cells_data : Registry) : list string :=
  flat_map cell_alerts cells_data.

(** What the alert system draws. *)
Definition alert_messages (alerts : list string) : list (Level * string) :=
  match alerts with
  | [] => [(success, "✅ All systems operating normally")]
  | _ :: _ => map (fun alert => (error, alert)) alerts
  end.

(** What the monitor shows. *)
Record MonitorView : Type := mkMonitorView {
  shown_cell_names : list string;
  shown_voltages : list Q;
  shown_temperatures : list Q;
  shown_alerts : list (Level * string)
}.

(** The Real-time Monitor page: the registry and the history of the session
    after the run, and how the run ends.  With "Auto Refresh" ticked the
    script sleeps and reruns before anything else. *)
Definition monitor_page (auto_refresh : bool) (session : Registry)
  (historical_data : list Snapshot)
  : Py.M (Registry * list Snapshot * Outcome MonitorView) :=
  match session with
  | [] => Py.ret (session, historical_data, Stopped)
  | _ :: _ =>
      if auto_refresh then Py.ret (session, historical_data, Rerun)
      else
        cells_data <- monitor_update session ;;
        now <- Py.datetime_now ;;
        let current_snapshot := {| snap_timestamp := now; snap_data := cells_data |} in
        Py.ret (cells_data,
                store_snapshot historical_data current_snapshot,
                Rendered {| shown_cell_names := map fst cells_data;
                            shown_voltages := map (fun e => voltage (snd e)) cells_data;
                            shown_temperatures := map (fun e => temp (snd e)) cells_data;
                            shown_alerts := alert_messages (alerts cells_data) |})
  end.

End Alerts.

(** The registry after [n] runs of the monitor's update, one after the
    other. *)
Fixpoint monitor_runs (n : nat) (cells_data : Registry) : Py.M Registry :=
  match n with
  | O => Py.ret cells_data
  | S n' => cells_data' <- monitor_update cells_data ;; monitor_runs n' cells_data'
  end.

(** ** The session

    [st.session_state]: the registry and the history survive from one run of
    the script to the next; a run draws the page chosen in the sidebar. *)
Record Session : Type := mkSession {
  session_cells : Registry;
  session_history : list Snapshot
}.

(** "Initialize session state". *)
Definition initial_session : Session :=
  {| session_cells := []; session_history := [] |}.

(** The page of a run, with what its widgets return. *)
Inductive Page : Type :=
  | Configuration (slots : list SlotInput) (save : bool)
  | Dashboard
  | Analysis (selected_cells : list string) (export_report generate_csv_pressed : bool)
  | ControlPanel (sliders : string -> SliderInput)
      (apply_changes randomize emergency_stop_pressed : bool)
  | RealTimeMonitor (auto_refresh : bool).

Section Script.

Variable float_str : Q -> string.
Variable float_repr : Q -> string.
Variable time_repr : Z -> string.

(** One run of the script: the session it leaves. *)
Definition run_page (page : Page) (session : Session) : Py.M Session :=
  match page with
  | Configuration slots save =>
      cells_data <- configure slots ;;
      Py.ret (if save
              then {| session_cells := cells_data;
                      session_history := session_history session |}
              else session)
  | Dashboard =>
      drawn <- Py.lift (dashboard (session_cells session)) ;;
      Py.ret session
  | Analysis selected_cells export_report generate_csv_pressed =>
      drawn <- analysis float_repr time_repr selected_cells export_report
                 generate_csv_pressed (session_cells session) ;;
      Py.ret session
  | ControlPanel sliders apply_changes randomize emergency_stop_pressed =>
      result <- control_panel sliders apply_changes randomize emergency_stop_pressed
                  (session_cells session) ;;
      Py.ret {| session_cells := fst result;
                session_history := session_history session |}
  | RealTimeMonitor auto_refresh =>
      result <- monitor_page float_str auto_refresh (session_cells session)
                  (session_history session) ;;
      Py.ret {| session_cells := fst (fst result);
                session_history := snd (fst result) |}
  end.

End Script.

(** ** The records as shared objects

    The registry above is a dictionary of values.  In the program a record
    is an object: [cells_data.copy()] makes a new dictionary that holds the
    same record objects, the loops of the pages mutate those objects, and a
    snapshot of the history holds them too.  Here the objects live in a heap
    and a dictionary holds references; a dictionary is never mutated once
    another one has been copied from it, so it stays a value. *)

Module Shared.

Definition Ref : Type := nat.
Definition Heap : Type := list CellRecord.
Definition Dict : Type := list (string * Ref).

Definition deref (heap : Heap) (ref : Ref) : option CellRecord := nth_error heap ref.

(** Mutation of the object at [ref]. *)
Fixpoint assign (heap : Heap) (ref : Ref) (data : CellRecord) : Heap :=
  match heap, ref with
  | [], _ => []
  | _ :: rest, O => data :: rest
  | x :: rest, S ref' => x :: assign rest ref' data
  end.

(** [cells_data.items()], each record in its present state. *)
Fixpoint items (heap : Heap) (cells_data : Dict) : option Registry :=
  match cells_data with
  | [] => Some []
  | (cell_name, ref) :: rest =>
      match deref heap ref, items heap rest with
      | Some data, Some entries => Some ((cell_name, data) :: entries)
      | _, _ => None
      end
  end.

(** [for cell_name, data in cells_data.items()] with a body that computes
    the new state of [cells_data[cell_name]] from its present state and
    writes it into the object. *)
Fixpoint for_each_object (body : string * CellRecord -> Py.M (string * CellRecord))
  (cells_data : Dict) (heap : Heap) : Py.M Heap :=
  match cells_data with
  | [] => Py.ret heap
  | (cell_name, ref) :: rest =>
      data <- Py.lift (deref heap ref) ;;
      new <- body (cell_name, data) ;;
      for_each_object body rest (assign heap ref (snd new))
  end.

(** A snapshot: the time and [cells_data.copy()]. *)
Record Snapshot : Type := mkSnapshot {
  snap_timestamp : Z;
  snap_data : Dict
}.

Record Session : Type := mkSession {
  objects : Heap;
  cells_data : Dict;
  historical_data : list Snapshot
}.

Definition store_snapshot (history : list Snapshot) (current_snapshot : Snapshot)
  : list Snapshot :=
  let history := (history ++ [current_snapshot])%list in
  if (100 <? List.length history)%nat then Py.last_n 100 history else history.

(** The Control Panel page on the session: the sliders, then the buttons.
    The page works on a copy of the session's dictionary and stores the copy
    back when a button is pressed.  The status column, which reads the
    records and changes nothing, is that of [control_panel] above. *)
Definition control_panel (sliders : string -> SliderInput)
  (apply_changes randomize emergency_stop_pressed : bool) (session : Session)
  : Py.M Session :=
  match cells_data session with
  | [] => Py.ret session
  | _ :: _ =>
      let copy := cells_data session in
      heap <- for_each_object (fun entry => Py.ret (control_update_cell sliders entry))
                copy (objects session) ;;
      let stored := if apply_changes then copy else cells_data session in
      if randomize then
        heap <- for_each_object randomize_cell copy heap ;;
        Py.ret {| objects := heap; cells_data := copy;
                  historical_data := historical_data session |}
      else if emergency_stop_pressed then
        heap <- for_each_object (fun entry => Py.ret (emergency_stop_cell entry))
                  copy heap ;;
        Py.ret {| objects := heap; cells_data := copy;
                  historical_data := historical_data session |}
      else
        Py.ret {| objects := heap; cells_data := stored;
                  historical_data := historical_data session |}
  end.

(** The Real-time Monitor page on the session.  The page never stores its
    copy of the dictionary back: the session sees the update through the
    record objects.  The charts and the alerts, which read the records and
    change nothing, are those of [monitor_page] above. *)
Definition monitor_page (auto_refresh : bool) (session : Session) : Py.M Session :=
  match cells_data session with
  | [] => Py.ret session
  | _ :: _ =>
      if auto_refresh then Py.ret session
      else
        let copy := cells_data session in
        heap <- for_each_object monitor_cell copy (objects session) ;;
        now <- Py.datetime_now ;;
        let current_snapshot := {| snap_timestamp := now; snap_data := copy |} in
        Py.ret {| objects := heap; cells_data := cells_data session;
                  historical_data :=
                    store_snapshot (historical_data session) current_snapshot |}
  end.

(** What a snapshot shows when it is read. *)
Definition shown (session : Session) (snapshot : Snapshot) : option Registry :=
  items (objects session) (snap_data snapshot).


End Shared.

(** ** Reading an export back

    Modelled from the spec: the reader of the CSV round trip ("parsing the
    exported CSV back into records"), which the repository does not have.
    It undoes the layout of the writer, quoted fields included: rows, then
    fields under the header's column names, the numeric columns read with
    the float parser it is given. *)

(** Where the reader stands in a field: before its first character, inside
    an unquoted field, inside a quoted one, or after a quote met inside a
    quoted one (the closing quote, or the first of a doubled quote). *)
Inductive Place : Type :=
  | at_start
  | in_plain
  | in_quoted
  | after_quoted.

(** What is read of the rest of a text: its rows, the first field of the
    first row being the rest of the field the reader stands in.  [push] puts
    a character in front of that field, [next_field] and [next_row] end the
    field, or the row, before it. *)
Definition push (a : ascii) (rows : option (list (list string))) :
  option (list (list string)) :=
  match rows with
  | Some ((f :: fields) :: rest) => Some ((String a f :: fields) :: rest)
  | _ => None
  end.

Definition next_field (rows : option (list (list string))) :
  option (list (list string)) :=
  match rows with
  | Some (fields :: rest) => Some ((EmptyString :: fields) :: rest)
  | _ => None
  end.

Definition next_row (rows : option (list (list string))) :
  option (list (list string)) :=
  match rows with
  | Some rest => Some ([EmptyString] :: rest)
  | None => None
  end.

(** The rows of a text, read from [place]: a comma ends a field and a line
    break ends a row, except inside quotes; a quote opens a field, and inside
    a quoted field it closes it unless another quote follows, which stands
    for one quote of the field.  A quoted field that is never closed, or
    that is followed by another character than a delimiter, is an error. *)
Fixpoint read (place : Place) (s : string) : option (list (list string)) :=
  match s with
  | EmptyString =>
      match place with
      | in_quoted => None
      | _ => Some [[EmptyString]]
      end
  | String a s' =>
      match place with
      | in_quoted =>
          if Ascii.eqb a Csv.quotechar then read after_quoted s'
          else push a (read in_quoted s')
      | after_quoted =>
          if Ascii.eqb a Csv.quotechar then push a (read in_quoted s')
          else if Ascii.eqb a Csv.comma then next_field (read at_start s')
          else if Ascii.eqb a Csv.newline
               then next_row (match s' with
                              | EmptyString => Some []
                              | _ => read at_start s'
                              end)
          else None
      | at_start =>
          if Ascii.eqb a Csv.quotechar then read in_quoted s'
          else if Ascii.eqb a Csv.comma then next_field (read at_start s')
          else if Ascii.eqb a Csv.newline
               then next_row (match s' with
                              | EmptyString => Some []
                              | _ => read at_start s'
                              end)
          else push a (read in_plain s')
      | in_plain =>
          if Ascii.eqb a Csv.comma then next_field (read at_start s')
          else if Ascii.eqb a Csv.newline
               then next_row (match s' with
                              | EmptyString => Some []
                              | _ => read at_start s'
                              end)
          else push a (read in_plain s')
      end
  end.

(** A character that ends a field. *)
Definition delimiter (c : ascii) : Prop := c = Csv.comma \/ c = Csv.newline.

(** The rows of a whole text: none for the empty text, and no further row
    after a final line break. *)
Definition read_rows (text : string) : option (list (list string)) :=
  match text with
  | EmptyString => Some []
  | _ => read at_start text
  end.


Section Reader.

(** How a float is read. *)
Variable float_parse : string -> option Q.

(** Reading the file back: the header names the columns, every further row
    has as many fields. *)
Definition read_csv (text : string) : option (list (list (string * string))) :=
  match read_rows text with
  | Some (header :: rows) =>
      if forallb (fun r => (List.length r =? List.length header)%nat) rows
      then Some (map (combine header) rows)
      else None
  | _ => None
  end.

(** What a reader recovers of one cell. *)
Record ParsedCell : Type := mkParsedCell {
  parsed_cell : string;
  parsed_type : string;
  parsed_voltage : Q;
  parsed_current : Q;
  parsed_temp : Q;
  parsed_capacity : Q;
  parsed_min_voltage : Q;
  parsed_max_voltage : Q
}.

Definition parse_float (row : list (string * string)) (column : string) : option Q :=
  match Py.dict_get row column with
  | Some s => float_parse s
  | None => None
  end.

Definition parse_cell (row : list (string * string)) : option ParsedCell :=
  match Py.dict_get row "Cell", Py.dict_get row "Type",
        parse_float row "voltage", parse_float row "current",
        parse_float row "temp", parse_float row "capacity",
        parse_float row "min_voltage", parse_float row "max_voltage" with
  | Some c, Some t, Some v, Some i, Some tp, Some cap, Some lo, Some hi =>
      Some (mkParsedCell c t v i tp cap lo hi)
  | _, _, _, _, _, _, _, _ => None
  end.

Fixpoint parse_cells (rows : list (list (string * string))) : option (list ParsedCell) :=
  match rows with
  | [] => Some []
  | row :: rest =>
      match parse_cell row, parse_cells rest with
      | Some p, Some ps => Some (p :: ps)
      | _, _ => None
      end
  end.

Definition parse_csv (text : string) : option (list ParsedCell) :=
  match read_csv text with
  | Some rows => parse_cells rows
  | None => None
  end.

End Reader.

(** ** Predicates of the statements *)

(** The four profiles, and nothing else, are what a lookup can return. *)
Inductive known_config : CellConfig -> Prop :=
  | known_lfp : known_config lfp_config
  | known_nmc : known_config nmc_config
  | known_lto : known_config lto_config
  | known_lco : known_config lco_config.

(** The capacity a handler stores in the embedding: the exact product
    rounded to two decimals. *)
Definition capacity_rounded (data : CellRecord) : Prop :=
  capacity data = Py.round (voltage data * current data) 2.

(** The capacity a handler stores, as far as the decimals decide it: a
    multiple of 0.01 within 0.005 of the product.  The program rounds the
    binary product, so a product that lies exactly halfway between two
    multiples goes to the one its binary value is nearer to ([3.7 * 0.05] is
    stored as 0.19); this predicate leaves both neighbours open there. *)
Definition capacity_stored (data : CellRecord) : Prop :=
  (exists k : Z, capacity data * 100 == inject_Z k) /\
  Qabs (capacity data - voltage data * current data) <= 0.005.

(** The capacity of the specification: the product itself. *)
Definition capacity_exact (data : CellRecord) : Prop :=
  capacity data == voltage data * current data.

(** A slot whose selectbox holds one of the offered chemistries. *)
Definition slot_ok (slot : SlotInput) : Prop :=
  In (slot_cell_type slot) (map fst CELL_CONFIGS).

(** What the handler does to one entry: same key, zero current and capacity,
    every other field as it was. *)
Definition stopped (old new : string * CellRecord) : Prop :=
  fst new = fst old /\
  current (snd new) = 0.0 /\ capacity (snd new) = 0.0 /\
  voltage (snd new) = voltage (snd old) /\
  temp (snd new) = temp (snd old) /\
  cell_type (snd new) = cell_type (snd old) /\
  min_voltage (snd new) = min_voltage (snd old) /\
  max_voltage (snd new) = max_voltage (snd old) /\
  timestamp (snd new) = timestamp (snd old).

(** What merging mock telemetry keeps of an entry: the key and every field
    that [generate_mock_data] does not return, the capacity among them. *)
Definition refreshed (old new : string * CellRecord) : Prop :=
  fst new = fst old /\
  capacity (snd new) = capacity (snd old) /\
  min_voltage (snd new) = min_voltage (snd old) /\
  max_voltage (snd new) = max_voltage (snd old) /\
  cell_type (snd new) = cell_type (snd old) /\
  timestamp (snd new) <> None.

(** A record whose chemistry is a key of the table, as the configuration
    page creates them. *)
Definition chemistry_ok (entry : string * CellRecord) : Prop :=
  In (cell_type (snd entry)) (map fst CELL_CONFIGS).

(** [x] has at most [n] decimals. *)
Definition decimal (n : nat) (x : Q) : Prop :=
  exists m : Z, x * Py.pow10 n == inject_Z m.

(** [y] is [x] read back from its notation: the same number when [x] has at
    most 20 decimals, as every float of the pages has, and within [1e-20] of
    it whatever [x] is. *)
Definition read_back (x y : Q) : Prop :=
  Qabs (y - x) * Py.pow10 20 <= 1 /\ (decimal 20 x -> y == x).

(** What the reader recovers of an entry. *)
Definition recovered (entry : string * CellRecord) (p : ParsedCell) : Prop :=
  parsed_cell p = fst entry /\
  parsed_type p = cell_type (snd entry) /\
  read_back (voltage (snd entry)) (parsed_voltage p) /\
  read_back (current (snd entry)) (parsed_current p) /\
  read_back (temp (snd entry)) (parsed_temp p) /\
  read_back (capacity (snd entry)) (parsed_capacity p) /\
  read_back (min_voltage (snd entry)) (parsed_min_voltage p) /\
  read_back (max_voltage (snd entry)) (parsed_max_voltage p).

(** The columns every export has. *)
Definition base_columns : list string :=
  [ "Cell"; "Type"; "voltage"; "current"; "temp"; "capacity";
    "min_voltage"; "max_voltage"; "cell_type" ].

(** The only column a record may add is the timestamp. *)
Definition timestamp_columns (ts : list string) : Prop :=
  ts = [] \/ ts = ["timestamp"].

(** The fields of the line of one entry. *)
Definition fields_of (float_repr : Q -> string) (time_repr : Z -> string)
  (cols : list string) (entry : string * CellRecord) : list string :=
  map (render float_repr time_repr) (frame_row cols (export_row entry)).

(** An entry as the pages keep them: a key that needs no quoting and a
    chemistry of the table. *)
Definition entry_ok (entry : string * CellRecord) : Prop :=
  Csv.plain (fst entry) = true /\ chemistry_ok entry.

(** A record as the configuration page creates it: the nominal voltage and
    the bounds of its chemistry's profile, the capacity of its current, no
    timestamp yet. *)
Definition fresh (entry : string * CellRecord) : Prop :=
  exists config,
    Py.dict_get CELL_CONFIGS (cell_type (snd entry)) = Some config /\
    voltage (snd entry) = nominal config /\
    min_voltage (snd entry) = cfg_min config /\
    max_voltage (snd entry) = cfg_max config /\
    capacity_stored (snd entry) /\
    timestamp (snd entry) = None.

(** The keys of the cells configured from slot [i] on. *)
Fixpoint slot_keys (i : nat) (slots : list SlotInput) : list string :=
  match slots with
  | [] => []
  | slot :: rest => cell_key i (slot_cell_type slot) :: slot_keys (S i) rest
  end.

(** Equality of two classifier results, label and style class. *)
Definition status_eqb (a b : string * string) : bool :=
  String.eqb (fst a) (fst b) && String.eqb (snd a) (snd b).

(** The records the classifier calls Normal, and their number. *)
Definition classified_normal (entry : string * CellRecord) : bool :=
  status_eqb (get_cell_status (voltage (snd entry)) (cell_type (snd entry))) status_normal.

Definition count_normal (cells : Registry) : nat :=
  List.length (filter classified_normal cells).

(** A record whose stored bounds are those of its chemistry's profile, as
    configuration copies them and every handler keeps them. *)
Definition bounds_match (entry : string * CellRecord) : Prop :=
  exists config,
    Py.dict_get CELL_CONFIGS (cell_type (snd entry)) = Some config /\
    min_voltage (snd entry) = cfg_min config /\
    max_voltage (snd entry) = cfg_max config.

(** A voltage slider reading inside the slider's [min_value] and
    [max_value], the bounds stored in the record. *)
Definition slider_in_range (sliders : string -> SliderInput)
  (entry : string * CellRecord) : Prop :=
  min_voltage (snd entry) <= new_voltage (sliders (fst entry)) /\
  new_voltage (sliders (fst entry)) <= max_voltage (snd entry).

(** The record is classified Normal. *)
Definition normal (entry : string * CellRecord) : Prop :=
  get_cell_status (voltage (snd entry)) (cell_type (snd entry)) = status_normal.

(** How the control panel judges a cell: by the reading of its voltage
    slider against the [min_value] and [max_value] the slider was given, the
    bounds stored in the record [old]; [new] is the record after the run. *)
Definition judged (sliders : string -> SliderInput) (old new : string * CellRecord) : Prop :=
  voltage (snd new) = new_voltage (sliders (fst old)) /\
  (get_cell_status (voltage (snd new)) (cell_type (snd new)) = status_critical <->
   new_voltage (sliders (fst old)) < min_voltage (snd old)) /\
  (get_cell_status (voltage (snd new)) (cell_type (snd new)) = status_overcharged <->
   max_voltage (snd old) < new_voltage (sliders (fst old))) /\
  (normal new <-> slider_in_range sliders old).

(** A number with at most two decimals. *)
Definition two_decimals (x : Q) : Prop := exists k : Z, x * 100 == inject_Z k.

(** The status alert of a cell that is not Normal. *)
Definition status_alerts (entry : string * CellRecord) : list string :=
  if classified_normal entry then []
  else ["⚠️ " ++ fst entry ++ ": "
        ++ fst (get_cell_status (voltage (snd entry)) (cell_type (snd entry)))].

(** How far [n] runs of the monitor's update can take a record: the key and
    the capacity stay, voltage and current move by the jitter of each run
    plus the rounding of the first. *)
Definition drifted (n : nat) (old new : string * CellRecord) : Prop :=
  fst new = fst old /\
  capacity (snd new) = capacity (snd old) /\
  cell_type (snd new) = cell_type (snd old) /\
  Qabs (voltage (snd new) - voltage (snd old)) <= inject_Z (Z.of_nat n) * 0.1 + 0.005 /\
  Qabs (current (snd new) - current (snd old)) <= inject_Z (Z.of_nat n) * 0.5 + 0.005 /\
  (two_decimals (voltage (snd old)) ->
   Qabs (voltage (snd new) - voltage (snd old)) <= inject_Z (Z.of_nat n) * 0.1) /\
  (two_decimals (current (snd old)) ->
   Qabs (current (snd new) - current (snd old)) <= inject_Z (Z.of_nat n) * 0.5).

(** What "Randomize Values" makes of an entry: new telemetry around the
    nominal voltage of the chemistry and around the current the record had. *)
Definition randomized (old new : string * CellRecord) : Prop :=
  refreshed old new /\
  (exists config,
     Py.dict_get CELL_CONFIGS (cell_type (snd old)) = Some config /\
     Qabs (voltage (snd new) - nominal config) <= 0.1) /\
  Qabs (current (snd new) - current (snd old)) <= 0.505 /\
  25 <= temp (snd new) <= 45.

(** What one run of the monitor's update makes of an entry. *)
Definition monitored (old new : string * CellRecord) : Prop :=
  refreshed old new /\
  Qabs (voltage (snd new) - voltage (snd old)) <= 0.105 /\
  Qabs (current (snd new) - current (snd old)) <= 0.505 /\
  (two_decimals (voltage (snd old)) ->
   Qabs (voltage (snd new) - voltage (snd old)) <= 0.1) /\
  (two_decimals (current (snd old)) ->
   Qabs (current (snd new) - current (snd old)) <= 0.5) /\
  two_decimals (voltage (snd new)) /\
  two_decimals (current (snd new)) /\
  25 <= temp (snd new) <= 45.

(** A generator whose every draw is in the top fiftieth of its range: the
    jitter of the voltage is then at least 0.096 V, well above the 0.095 V
    from which a sum rounds up. *)
Definition rng_high (w : Py.World) : Prop :=
  forall n, 0.98 <= Py.rng w n /\ Py.rng w n < 1.

(** A record whose voltage has gone up by 0.1 V in each of [n] runs. *)
Definition raised (n : nat) (old new : string * CellRecord) : Prop :=
  fst new = fst old /\
  cell_type (snd new) = cell_type (snd old) /\
  voltage (snd new) == voltage (snd old) + inject_Z (Z.of_nat n) * 0.1 /\
  two_decimals (voltage (snd new)) /\
  (cfg_max (config_for (cell_type (snd old)))
     < voltage (snd old) + inject_Z (Z.of_nat n) * 0.1 ->
   get_cell_status (voltage (snd new)) (cell_type (snd new)) = status_overcharged).

(** A row of the dashboard's table against the entry it shows: the type in
    upper case, and a status that is the classification of the voltage shown
    under the type shown. *)
Definition displayed (entry : string * CellRecord) (row : DisplayRow) : Prop :=
  display_cell row = fst entry /\
  display_type row = Py.upper (cell_type (snd entry)) /\
  display_voltage row = voltage (snd entry) /\
  display_current row = current (snd entry) /\
  display_temp row = temp (snd entry) /\
  display_capacity row = capacity (snd entry) /\
  display_status row = fst (get_cell_status (voltage (snd entry)) (cell_type (snd entry))) /\
  display_status row = fst (get_cell_status (display_voltage row) (display_type row)).

(** A row of the performance table against the entry it shows.  The
    efficiency is the voltage as a percentage of the maximum voltage of the
    chemistry, rounded to one decimal; the power density is the capacity per
    degree, rounded to three decimals, and 0 when the temperature is not
    positive. *)
Definition performance (entry : string * CellRecord) (row : PerfRow) : Prop :=
  perf_cell row = fst entry /\
  perf_energy_output row = capacity (snd entry) /\
  perf_temperature_factor row = temp (snd entry) /\
  (exists config e,
     Py.dict_get CELL_CONFIGS (cell_type (snd entry)) = Some config /\
     e * cfg_max config == voltage (snd entry) * 100 /\
     Qabs (perf_efficiency row - e) <= 0.05 /\
     (voltage (snd entry) <= cfg_max config -> perf_efficiency row <= 100) /\
     (cfg_min config <= voltage (snd entry) -> 0 < perf_efficiency row)) /\
  (temp (snd entry) <= 0 -> perf_power_density row == 0) /\
  (0 < temp (snd entry) ->
   exists p, p * temp (snd entry) == capacity (snd entry) /\
             Qabs (perf_power_density row - p) <= 0.0005).

(** A value the radar chart can draw: its radial axis runs from 0 to 100. *)
Definition on_axis (x : Q) : Prop := 0 <= x <= 100.

(** What every handler keeps of an entry: the key, the chemistry and the
    two bounds. *)
Definition kept (old new : string * CellRecord) : Prop :=
  fst new = fst old /\
  cell_type (snd new) = cell_type (snd old) /\
  min_voltage (snd new) = min_voltage (snd old) /\
  max_voltage (snd new) = max_voltage (snd old).

(** What the widgets of a page can return: a chemistry offered by the
    selectbox, cells offered by the multiselect. *)
Definition page_ok (session : Session) (page : Page) : Prop :=
  match page with
  | Configuration slots _ => Forall slot_ok slots
  | Analysis selected_cells _ _ => incl selected_cells (map fst (session_cells session))
  | _ => True
  end.

(** The session as every run leaves it: records with the chemistry and the
    bounds of a profile of the table, under distinct keys that need no
    quoting, and a history of at most 100 snapshots. *)
Definition session_ok (session : Session) : Prop :=
  Forall bounds_match (session_cells session) /\
  Forall entry_ok (session_cells session) /\
  NoDup (map fst (session_cells session)) /\
  (List.length (session_history session) <= 100)%nat.

Section Runs.

Variable float_str : Q -> string.
Variable float_repr : Q -> string.
Variable time_repr : Z -> string.

(** The sessions and worlds a user can reach from the start of a session, one
    run of the script after the other. *)
Inductive reachable : Session -> Py.World -> Prop :=
  | reachable_start (w : Py.World) : reachable initial_session w
  | reachable_run (page : Page) (session session' : Session) (w w' : Py.World) :
      reachable session w ->
      page_ok session page ->
      run_page float_str float_repr time_repr page session w = Some (session', w') ->
      reachable session' w'.

End Runs.

(** The world after [cells] records have been refreshed: three draws and one
    clock reading taken for each. *)
Definition refreshed_world (w : Py.World) (cells : nat) : Py.World :=
  Py.mkWorld (Py.rng w) (Py.rng_pos w + 3 * cells) (Py.clock w) (Py.clock_pos w + cells).

(** The timestamps of a refreshed registry: the record at position [i] holds
    the [i]-th clock reading from where the loop started. *)
Definition stamped (w : Py.World) (cells : Registry) : Prop :=
  forall i entry,
    nth_error cells i = Some entry ->
    timestamp (snd entry) = Some (Py.clock w (Py.clock_pos w + i)).

(** ** Example data *)

(** A world whose generator always draws [r] and whose clock reads [0]. *)
Definition constant_world (r : Q) : Py.World :=
  Py.mkWorld (fun _ => r) 0 (fun _ => 0%Z) 0.

(** The registry of the specification's example: cell A (LFP, 3.2 V, 2.0 A)
    and cell B (NMC, 4.5 V, -1.0 A). *)
Definition example_registry : Registry :=
  [ ("A", mkCellRecord 3.2 2.0 30.0 6.4 2.8 3.6 "lfp" None);
    ("B", mkCellRecord 4.5 (-1.0) 30.0 (-4.5) 3.2 4.0 "nmc" None) ].

Definition example_slots : list SlotInput :=
  [ mkSlotInput "lfp" 2.0; mkSlotInput "nmc" (-1.0) ].

Definition example_sliders (cell_name : string) : SliderInput :=
  mkSliderInput 3.3 0.1 30.0.

(** The sliders that set the specification's example: 3.2 V and 2.0 A on
    cell A, 4.5 V and -1.0 A on cell B. *)
Definition spec_sliders (cell_name : string) : SliderInput :=
  if String.eqb cell_name "A" then mkSliderInput 3.2 2.0 30.0
  else mkSliderInput 4.5 (-1.0) 30.0.

(** The decimal notation of the export: sign, integer part, point and at
    least one fractional digit, at most 20 of them, as [repr] prints a float
    of moderate size, and the parser that reads it back. *)
Module Decimal.

(** The character of a digit, ['0'] being code 48, and the digit a character
    stands for. *)
Definition digit_char (d : Z) : ascii := ascii_of_nat (48 + Z.to_nat d).

Definition digit_value (a : ascii) : option Z :=
  let n := nat_of_ascii a in
  if (48 <=? n)%nat && (n <=? 57)%nat then Some (Z.of_nat (n - 48)) else None.

(** The digits of [n >= 0] in front of [tail], found from the last one. *)
Fixpoint integer_digits (fuel : nat) (n : Z) (tail : string) : string :=
  let tail' := String (digit_char (n mod 10)) tail in
  match fuel with
  | O => tail'
  | S fuel' =>
      if (n / 10 =? 0)%Z then tail' else integer_digits fuel' (n / 10) tail'
  end.

(** An integer has no more decimal digits than binary ones. *)
Definition integer_repr (n : Z) : string :=
  integer_digits (Z.to_nat (Z.log2 n)) n EmptyString.

(** At most [fuel] digits of [num / den], for [0 <= num < den]. *)
Fixpoint fraction_digits (fuel : nat) (num den : Z) : string :=
  match fuel with
  | O => EmptyString
  | S fuel' =>
      let d := (num * 10 / den)%Z in
      let r := (num * 10 - d * den)%Z in
      String (digit_char d)
             (if (r =? 0)%Z then EmptyString else fraction_digits fuel' r den)
  end.

Definition repr (x : Q) : string :=
  let n := Qnum x in
  let d := Z.pos (Qden x) in
  let a := Z.abs n in
  ((if (n <? 0)%Z then "-" else "") ++
   integer_repr (a / d) ++ "." ++ fraction_digits 20 (a mod d) d)%string.

(** The digits of [s] read as a number, after [acc]; [None] on another
    character. *)
Fixpoint digits (acc : Z) (s : string) : option Z :=
  match s with
  | EmptyString => Some acc
  | String a s' =>
      match digit_value a with
      | Some d => digits (acc * 10 + d) s'
      | None => None
      end
  end.

Definition unsigned (s : string) : option Q :=
  match Csv.split "."%char s with
  | [i; f] =>
      match digits 0 i, digits 0 f with
      | Some a, Some b =>
          Some (inject_Z a + inject_Z b / inject_Z (10 ^ Z.of_nat (String.length f)))
      | _, _ => None
      end
  | _ => None
  end.

Definition parse (s : string) : option Q :=
  match s with
  | String a s' =>
      if Ascii.eqb a "-" then option_map Qopp (unsigned s') else unsigned s
  | EmptyString => None
  end.

Definition time_repr (t : Z) : string :=
  NilZero.string_of_int (Z.to_int t).

End Decimal.

(** The registry after configuring the two example slots. *)
Definition example_configured : Registry :=
  Eval vm_compute in
  match configure example_slots (constant_world (1 # 2)) with
  | Some (cells, _) => cells
  | None => []
  end.

(** The registry after configuring the two example slots and one "Randomize
    Values". *)
Definition example_export : Registry :=
  Eval vm_compute in
  match (cells <- configure example_slots ;; randomize_values cells) (constant_world (1 # 2)) with
  | Some (cells, _) => cells
  | None => []
  end.

(** A registry whose keys need quoting: the first holds a comma, the second
    two quotes and a line break. *)
Definition quoted_registry : Registry :=
  [ ("cell,1", mkCellRecord 3.2 2.0 30.0 6.4 2.8 3.6 "lfp" None);
    ("cell " ++ String Csv.quotechar ("2" ++ String Csv.quotechar (String Csv.newline "nmc")),
     mkCellRecord 3.6 (-1.0) 30.0 (-3.6) 3.2 4.0 "nmc" (Some 7%Z)) ].

(** Two cells that are both charging: no capacity is negative. *)
Definition charged_registry : Registry :=
  [ ("A", mkCellRecord 3.2 2.0 30.0 6.4 2.8 3.6 "lfp" None);
    ("B", mkCellRecord 3.6 1.0 30.0 3.6 3.2 4.0 "nmc" None) ].

(** A registry with a chemistry written in capitals, which no page of the
    application creates. *)
Definition capital_registry : Registry :=
  [ ("cell_1_LFP", mkCellRecord 3.2 2.0 30.0 6.4 2.8 3.6 "LFP" None) ].

(** The session after the two example slots have been saved, and the world
    that run leaves: two draws taken. *)
Definition configured_session : Session :=
  {| session_cells := example_configured; session_history := [] |}.

Definition configured_world : Py.World :=
  Py.mkWorld (fun _ => 1 # 2) 2 (fun _ => 0%Z) 0.

(** The example registry as two record objects, with two snapshots in the
    history: one stored before the registry was configured anew, which holds
    the two records of that time, and one stored since, which holds the
    records of the session. *)
Definition recorded_session : Shared.Session :=
  {| Shared.objects :=
       (map snd example_registry ++
        [ mkCellRecord 3.3 1.0 31.0 3.3 2.8 3.6 "lfp" (Some 1%Z);
          mkCellRecord 3.7 1.0 31.0 3.7 3.2 4.0 "nmc" (Some 2%Z) ])%list;
     Shared.cells_data := [("A", 0%nat); ("B", 1%nat)];
     Shared.historical_data :=
       [ {| Shared.snap_timestamp := 3; Shared.snap_data := [("A", 2%nat); ("B", 3%nat)] |};
         {| Shared.snap_timestamp := 9; Shared.snap_data := [("A", 0%nat); ("B", 1%nat)] |} ] |}.


(** * Properties *)

(** ** Comparisons and the chemistry table *)

Section Comparisons.

Lemma Qlt_bool_iff (x y : Q) : Py.Qlt_bool x y = true <-> x < y.
Proof.
  unfold Py.Qlt_bool. rewrite negb_true_iff. split; intro H.
  - apply Qnot_le_lt. intro Hle. apply Qle_bool_iff in Hle. congruence.
  - destruct (Qle_bool y x) eqn:E; [|reflexivity].
    apply Qle_bool_iff in E. exfalso. apply (Qlt_not_le _ _ H E).
Qed.

Lemma Qlt_bool_false_iff (x y : Q) : Py.Qlt_bool x y = false <-> y <= x.
Proof.
  unfold Py.Qlt_bool. rewrite negb_false_iff. apply Qle_bool_iff.
Qed.

Lemma Qle_bool_false_iff (x y : Q) : Qle_bool x y = false <-> y < x.
Proof.
  rewrite <- Qlt_bool_iff. unfold Py.Qlt_bool. now rewrite negb_true_iff.
Qed.

End Comparisons.

(** Turn every boolean comparison in the context into its proposition. *)
Ltac reflect_cmp :=
  repeat match goal with
  | H : Py.Qlt_bool _ _ = true |- _ => apply Qlt_bool_iff in H
  | H : Py.Qlt_bool _ _ = false |- _ => apply Qlt_bool_false_iff in H
  | H : Qle_bool _ _ = true |- _ => apply Qle_bool_iff in H
  | H : Qle_bool _ _ = false |- _ => apply Qle_bool_false_iff in H
  end.

Lemma dict_get_known (key : string) (config : CellConfig) :
  Py.dict_get CELL_CONFIGS key = Some config -> known_config config.
Proof.
  unfold CELL_CONFIGS. cbn [Py.dict_get].
  repeat match goal with
         | |- context [String.eqb ?k key] => destruct (String.eqb k key)
         end;
    intro H; inversion H; constructor.
Qed.

Lemma config_for_known (cell_type : string) : known_config (config_for cell_type).
Proof.
  unfold config_for, Py.dict_get_default.
  destruct (Py.dict_get CELL_CONFIGS (Py.lower cell_type)) eqn:E.
  - eapply dict_get_known; eassumption.
  - constructor.
Qed.

Lemma known_config_ordered (config : CellConfig) :
  known_config config -> cfg_min config < nominal config < cfg_max config.
Proof.
  intros []; cbn; split; reflexivity.
Qed.

Lemma dict_get_none {V : Type} (d : list (string * V)) (key : string) :
  ~ In key (map fst d) -> Py.dict_get d key = None.
Proof.
  induction d as [|[k v] d IH]; cbn; intro H; [reflexivity|].
  destruct (String.eqb_spec k key) as [->|_].
  - exfalso. apply H. now left.
  - apply IH. intro Hin. apply H. now right.
Qed.

(** ** The status classifier *)

Lemma statuses_distinct :
  status_critical <> status_overcharged /\ status_critical <> status_normal /\
  status_critical <> status_warning /\ status_overcharged <> status_normal /\
  status_overcharged <> status_warning /\ status_normal <> status_warning.
Proof.
  repeat split; discriminate.
Qed.

(** The classifier as a decision on the two thresholds. *)
Lemma get_cell_status_cases (voltage : Q) (cell_type : string) :
  let config := config_for cell_type in
  (voltage < cfg_min config /\ get_cell_status voltage cell_type = status_critical) \/
  (cfg_max config < voltage /\ get_cell_status voltage cell_type = status_overcharged) \/
  (cfg_min config <= voltage <= cfg_max config /\
   get_cell_status voltage cell_type = status_normal).
Proof.
  intro config. unfold get_cell_status. fold config.
  destruct (Py.Qlt_bool voltage (cfg_min config)) eqn:E1; reflect_cmp; [now left|].
  destruct (Py.Qlt_bool (cfg_max config) voltage) eqn:E2; reflect_cmp; [right; now left|].
  right; right.
  assert (Qle_bool (cfg_min config) voltage = true) as -> by now apply Qle_bool_iff.
  assert (Qle_bool voltage (cfg_max config) = true) as -> by now apply Qle_bool_iff.
  cbn. repeat split; assumption.
Qed.


(** C4. The fourth branch is dead code: for no voltage and no chemistry
    identifier does the classifier return the Warning status. *)
Theorem get_cell_status_never_warning (v : Q) (c : string) :
  get_cell_status v c <> status_warning /\
  fst (get_cell_status v c) <> "⚠️ Warning".
Proof.
  destruct (get_cell_status_cases v c) as [[_ E]|[[_ E]|[_ E]]];
    rewrite E; split; discriminate.
Qed.

(** C5. A chemistry identifier whose lower-cased form is not a key of
    [CELL_CONFIGS] is classified with the LFP profile: the lookup falls back
    to it and the classifier returns what it returns for ["lfp"]. *)
Theorem get_cell_status_unknown_chemistry (v : Q) (c : string) :
  ~ In (Py.lower c) (map fst CELL_CONFIGS) ->
  config_for c = lfp_config /\ get_cell_status v c = get_cell_status v "lfp".
Proof.
  intro H.
  assert (config_for c = lfp_config) as E.
  { unfold config_for, Py.dict_get_default. now rewrite (dict_get_none _ _ H). }
  split; [exact E|]. unfold get_cell_status. now rewrite E.
Qed.

Lemma get_cell_status_unknown_chemistry_witness :
  config_for "Li-Po" = lfp_config /\
  get_cell_status 3.0 "Li-Po" = get_cell_status 3.0 "lfp".
Proof.
  apply (get_cell_status_unknown_chemistry 3.0 "Li-Po").
  cbn. intros [H|[H|[H|[H|[]]]]]; discriminate H.
Defined.

(** ** Rounding *)

Section Rounding.

Lemma round_half_even_floor (x : Q) :
  (Qfloor x <= Py.round_half_even x <= Qfloor x + 1)%Z.
Proof.
  unfold Py.round_half_even.
  destruct (Qcompare (x - inject_Z (Qfloor x)) (1 # 2)); [destruct (Z.even _)| |]; lia.
Qed.

(** The rounded integer is at most one half away. *)
Lemma round_half_even_near (x : Q) :
  x - (1 # 2) <= inject_Z (Py.round_half_even x) <= x + (1 # 2).
Proof.
  pose proof (Qfloor_le x) as Hlo. pose proof (Qlt_floor x) as Hhi.
  rewrite inject_Z_plus in Hhi. change (inject_Z 1) with 1 in Hhi.
  unfold Py.round_half_even.
  destruct (Qcompare (x - inject_Z (Qfloor x)) (1 # 2)) eqn:E.
  - apply Qeq_alt in E. destruct (Z.even (Qfloor x)).
    + lra.
    + rewrite inject_Z_plus. change (inject_Z 1) with 1. lra.
  - apply Qlt_alt in E. lra.
  - apply Qgt_alt in E. rewrite inject_Z_plus. change (inject_Z 1) with 1. lra.
Qed.

(** Rounding never crosses an integer. *)
Lemma round_half_even_between (a b : Z) (x : Q) :
  inject_Z a <= x -> x <= inject_Z b -> (a <= Py.round_half_even x <= b)%Z.
Proof.
  intros Ha Hb.
  pose proof (Qfloor_resp_le _ _ Ha) as Fa. rewrite Qfloor_Z in Fa.
  pose proof (Qfloor_resp_le _ _ Hb) as Fb. rewrite Qfloor_Z in Fb.
  pose proof (round_half_even_floor x) as [Hl Hu].
  split; [lia|].
  destruct (Z.eq_dec (Qfloor x) b) as [Eb|Nb]; [|lia].
  unfold Py.round_half_even.
  assert (x - inject_Z (Qfloor x) < 1 # 2) as Hlt by (rewrite Eb; lra).
  destruct (Qcompare (x - inject_Z (Qfloor x)) (1 # 2)) eqn:E.
  - apply Qeq_alt in E. lra.
  - lia.
  - apply Qgt_alt in E. lra.
Qed.

Lemma pow10_pos (n : nat) : 0 < Py.pow10 n.
Proof.
  unfold Py.pow10. change 0 with (inject_Z 0). rewrite <- Zlt_Qlt.
  apply Z.pow_pos_nonneg; lia.
Qed.

Lemma round_scaled (x : Q) (n : nat) :
  Py.round x n * Py.pow10 n == inject_Z (Py.round_half_even (x * Py.pow10 n)).
Proof.
  pose proof (pow10_pos n) as Hp. unfold Py.round. field. lra.
Qed.

(** [round(x, n)] is within half a unit of the [n]-th decimal of [x]. *)
Lemma round_near (x : Q) (n : nat) :
  - (1 # 2) <= (Py.round x n - x) * Py.pow10 n <= 1 # 2.
Proof.
  pose proof (round_half_even_near (x * Py.pow10 n)) as [Hl Hu].
  pose proof (round_scaled x n) as E.
  set (r := Py.round x n) in *. set (p := Py.pow10 n) in *.
  set (z := inject_Z (Py.round_half_even (x * p))) in *.
  assert ((r - x) * p == r * p - x * p) as -> by ring.
  rewrite E. split; lra.
Qed.

(** A value between two multiples of the [n]-th decimal rounds between them. *)
Lemma round_between (a b : Z) (x : Q) (n : nat) :
  inject_Z a <= x * Py.pow10 n -> x * Py.pow10 n <= inject_Z b ->
  inject_Z a <= Py.round x n * Py.pow10 n <= inject_Z b.
Proof.
  intros Ha Hb. destruct (round_half_even_between a b _ Ha Hb) as [Hl Hu].
  rewrite Zle_Qle in Hl, Hu. rewrite round_scaled. split; assumption.
Qed.

(** A value with at most [n] decimals is left as it is. *)
Lemma round_fixed (k : Z) (x : Q) (n : nat) :
  x * Py.pow10 n == inject_Z k -> Py.round x n == x.
Proof.
  intro Hk. pose proof (pow10_pos n) as Hp.
  destruct (round_between k k x n) as [H1 H2]; try (rewrite Hk; apply Qle_refl).
  assert (Py.round x n * Py.pow10 n == x * Py.pow10 n) as E.
  { rewrite Hk. apply Qle_antisym; assumption. }
  apply Qmult_inj_r in E; [assumption|lra].
Qed.

End Rounding.

(** A tie: the exact product 3.7 * 0.05 is 0.185 and rounds to the even
    0.18; the binary64 product lies above 0.185, so that Python stores
    0.19.  Both are multiples of 0.01 within 0.005 of the product. *)
Example round_tie_example :
  Py.round (3.7 * 0.05) 2 == 0.18 /\
  (0.185 <? 3.7 * 0.05)%float = true /\
  Qabs (0.18 - 3.7 * 0.05) <= 0.005 /\ Qabs (0.19 - 3.7 * 0.05) <= 0.005.
Proof.
  repeat apply conj; vm_compute; try reflexivity; discriminate.
Qed.

(** ** Mock telemetry *)

Section MockTelemetry.

(** What a call returns, and the world it leaves: three draws and one clock
    reading are consumed; the call never raises. *)
Lemma generate_mock_data_run (ct : string) (bv bc : Q) (w : Py.World) :
  generate_mock_data ct bv bc w =
  Some ({| mock_voltage :=
             Py.round (bv + (-0.1 + (0.1 - -0.1) * Py.rng w (Py.rng_pos w))) 2;
           mock_current :=
             Py.round (bc + (-0.5 + (0.5 - -0.5) * Py.rng w (S (Py.rng_pos w)))) 2;
           mock_temp :=
             Py.round (25 + (45 - 25) * Py.rng w (S (S (Py.rng_pos w)))) 1;
           mock_timestamp := Py.clock w (Py.clock_pos w) |},
        Py.mkWorld (Py.rng w) (S (S (S (Py.rng_pos w)))) (Py.clock w) (S (Py.clock_pos w))).
Proof. reflexivity. Qed.

(** Rounding to two decimals moves a jittered value by at most 0.005. *)
Lemma jitter_round_wide (base j amp : Q) :
  - amp <= j -> j <= amp ->
  Qabs (Py.round (base + j) 2 - base) <= amp + 0.005.
Proof.
  intros Hl Hu. pose proof (round_near (base + j) 2) as [H1 H2].
  change (Py.pow10 2) with 100 in H1, H2.
  apply Qabs_Qle_condition. split; lra.
Qed.

(** On a base that is a multiple of 0.01 the rounding stays inside the
    jitter range, itself a multiple [a] of 0.01. *)
Lemma jitter_round_exact (base j : Q) (k a : Z) :
  base * 100 == inject_Z k ->
  - inject_Z a <= j * 100 -> j * 100 <= inject_Z a ->
  Qabs (Py.round (base + j) 2 - base) * 100 <= inject_Z a.
Proof.
  intros Hk Hl Hu.
  destruct (round_between (k + - a) (k + a) (base + j) 2) as [H1 H2].
  - change (Py.pow10 2) with 100. rewrite inject_Z_plus, inject_Z_opp. lra.
  - change (Py.pow10 2) with 100. rewrite inject_Z_plus. lra.
  - change (Py.pow10 2) with 100 in H1, H2.
    rewrite inject_Z_plus, inject_Z_opp in H1. rewrite inject_Z_plus in H2.
    assert (Qabs (Py.round (base + j) 2 - base) <= inject_Z a * (1 # 100)) as H.
    { apply Qabs_Qle_condition. split; lra. }
    lra.
Qed.

End MockTelemetry.

(** C7 (as amended). Whatever the base values and the draws of the generator,
    [generate_mock_data] returns; the returned voltage is within 0.105 V of
    the base voltage and the returned current within 0.505 A of the base
    current (the jitter plus half a unit of the second decimal), within 0.1 V
    and 0.5 A when the base is itself a multiple of 0.01; the temperature is
    in [25, 45]. *)
Theorem generate_mock_data_bounds (ct : string) (bv bc : Q) (w : Py.World) :
  Py.rng_ok w ->
  exists m w',
    generate_mock_data ct bv bc w = Some (m, w') /\
    Qabs (mock_voltage m - bv) <= 0.105 /\
    Qabs (mock_current m - bc) <= 0.505 /\
    (25 <= mock_temp m /\ mock_temp m <= 45) /\
    (forall k : Z, bv * 100 == inject_Z k -> Qabs (mock_voltage m - bv) <= 0.1) /\
    (forall k : Z, bc * 100 == inject_Z k -> Qabs (mock_current m - bc) <= 0.5).
Proof.
  intro Hw. eexists. eexists. split; [apply generate_mock_data_run|].
  cbn [mock_voltage mock_current mock_temp].
  destruct (Hw (Py.rng_pos w)) as [A1 A2].
  destruct (Hw (S (Py.rng_pos w))) as [B1 B2].
  destruct (Hw (S (S (Py.rng_pos w)))) as [C1 C2].
  set (r1 := Py.rng w (Py.rng_pos w)) in *.
  set (r2 := Py.rng w (S (Py.rng_pos w))) in *.
  set (r3 := Py.rng w (S (S (Py.rng_pos w)))) in *.
  assert (inject_Z 250 <= Py.round (25 + (45 - 25) * r3) 1 * 10 <= inject_Z 450) as [T1 T2].
  { apply (round_between 250 450 _ 1); change (Py.pow10 1) with 10.
    - change (inject_Z 250) with 250. lra.
    - change (inject_Z 450) with 450. lra. }
  change (inject_Z 250) with 250 in T1. change (inject_Z 450) with 450 in T2.
  repeat split.
  - assert (0.105 == 0.1 + 0.005) as -> by reflexivity.
    apply jitter_round_wide; lra.
  - assert (0.505 == 0.5 + 0.005) as -> by reflexivity.
    apply jitter_round_wide; lra.
  - lra.
  - lra.
  - intros k Hk.
    pose proof (jitter_round_exact bv (-0.1 + (0.1 - -0.1) * r1) k 10 Hk) as H.
    change (inject_Z 10) with 10 in H.
    assert (- (10) <= (-0.1 + (0.1 - -0.1) * r1) * 100) as H1 by lra.
    assert ((-0.1 + (0.1 - -0.1) * r1) * 100 <= 10) as H2 by lra.
    specialize (H H1 H2). lra.
  - intros k Hk.
    pose proof (jitter_round_exact bc (-0.5 + (0.5 - -0.5) * r2) k 50 Hk) as H.
    change (inject_Z 50) with 50 in H.
    assert (- (50) <= (-0.5 + (0.5 - -0.5) * r2) * 100) as H1 by lra.
    assert ((-0.5 + (0.5 - -0.5) * r2) * 100 <= 50) as H2 by lra.
    specialize (H H1 H2). lra.
Qed.

Lemma constant_world_ok (r : Q) : 0 <= r -> r < 1 -> Py.rng_ok (constant_world r).
Proof. intros H0 H1 n. cbn. split; assumption. Qed.

Lemma generate_mock_data_bounds_witness :
  exists m w',
    generate_mock_data "lfp" 3.2 2.0 (constant_world (1 # 2)) = Some (m, w') /\
    Qabs (mock_voltage m - 3.2) <= 0.105 /\
    Qabs (mock_current m - 2.0) <= 0.505 /\
    (25 <= mock_temp m /\ mock_temp m <= 45) /\
    (forall k : Z, 3.2 * 100 == inject_Z k -> Qabs (mock_voltage m - 3.2) <= 0.1) /\
    (forall k : Z, 2.0 * 100 == inject_Z k -> Qabs (mock_current m - 2.0) <= 0.5).
Proof.
  apply (generate_mock_data_bounds "lfp" 3.2 2.0 (constant_world (1 # 2))).
  apply constant_world_ok; reflexivity || discriminate.
Defined.

(** C7 (as stated) fails: a cell whose current is 0.006 A and a draw of
    0.9995 (a jitter of 0.4995 A) give 0.5055, which rounds to 0.51: more
    than 0.5 A away from the base current. *)
Lemma generate_mock_data_current_off_range :
  Py.rng_ok (constant_world 0.9995) /\
  exists m w',
    generate_mock_data "lfp" 3.2 0.006 (constant_world 0.9995) = Some (m, w') /\
    mock_current m == 0.51 /\
    ~ Qabs (mock_current m - 0.006) <= 0.5.
Proof.
  split.
  - apply constant_world_ok; reflexivity || discriminate.
  - eexists. eexists. split; [apply generate_mock_data_run|]. cbn [mock_current].
    split; [reflexivity|]. vm_compute. intro H. apply H. reflexivity.
Qed.

(** ** Capacity along the mutation paths *)

Section Configuration.

Lemma dict_get_some {V : Type} (d : list (string * V)) (key : string) :
  In key (map fst d) -> exists v, Py.dict_get d key = Some v.
Proof.
  induction d as [|[k v] d IH]; cbn; intro H; [contradiction|].
  destruct (String.eqb_spec k key) as [->|Hne].
  - now exists v.
  - destruct H as [H|H]; [contradiction|]. now apply IH.
Qed.

Lemma configure_cell_run (cells : Registry) (i : nat) (slot : SlotInput)
  (config : CellConfig) (w : Py.World) :
  Py.dict_get CELL_CONFIGS (slot_cell_type slot) = Some config ->
  configure_cell cells i slot w =
  Some (dict_set cells (cell_key i (slot_cell_type slot))
          {| voltage := nominal config;
             current := slot_current slot;
             temp := Py.round (25 + (40 - 25) * Py.rng w (Py.rng_pos w)) 1;
             capacity := Py.round (nominal config * slot_current slot) 2;
             min_voltage := cfg_min config;
             max_voltage := cfg_max config;
             cell_type := slot_cell_type slot;
             timestamp := None |},
        Py.mkWorld (Py.rng w) (S (Py.rng_pos w)) (Py.clock w) (Py.clock_pos w)).
Proof.
  intro H. unfold configure_cell, Py.bind. rewrite H. reflexivity.
Qed.

End Configuration.

Section ConfigureInvariant.

Variable P : string * CellRecord -> Prop.

Hypothesis P_new :
  forall (i : nat) (slot : SlotInput) (config : CellConfig) (t : Q),
    Py.dict_get CELL_CONFIGS (slot_cell_type slot) = Some config ->
    P (cell_key i (slot_cell_type slot),
       {| voltage := nominal config;
          current := slot_current slot;
          temp := t;
          capacity := Py.round (nominal config * slot_current slot) 2;
          min_voltage := cfg_min config;
          max_voltage := cfg_max config;
          cell_type := slot_cell_type slot;
          timestamp := None |}).

Lemma dict_set_entries (d : Registry) (key : string) (record : CellRecord) :
  Forall P d -> P (key, record) -> Forall P (dict_set d key record).
Proof.
  intros Hd Hr. induction Hd as [|[k r] d Hk Hd IH]; cbn.
  - constructor; [assumption|constructor].
  - destruct (String.eqb_spec k key) as [->|_]; constructor; assumption.
Qed.

(** The loop of the configuration page returns, and every entry of its
    registry is one it created or one it started from. *)
Lemma configure_from_Forall (slots : list SlotInput) :
  Forall slot_ok slots ->
  forall (cells : Registry) (i : nat) (w : Py.World),
    Forall P cells ->
    exists reg w', configure_from cells i slots w = Some (reg, w') /\ Forall P reg.
Proof.
  induction 1 as [|slot slots Hs _ IH]; intros cells i w Hc; cbn [configure_from].
  - exists cells, w. split; [reflexivity|assumption].
  - destruct (dict_get_some _ _ Hs) as [config Hcfg].
    unfold Py.bind at 1. rewrite (configure_cell_run _ _ _ _ _ Hcfg).
    apply IH. apply dict_set_entries; [assumption|]. now apply P_new.
Qed.

End ConfigureInvariant.

Section Capacity.

Lemma configure_from_capacity (slots : list SlotInput) :
  Forall slot_ok slots ->
  forall (cells : Registry) (i : nat) (w : Py.World),
    Forall (fun e => capacity_rounded (snd e)) cells ->
    exists reg w',
      configure_from cells i slots w = Some (reg, w') /\
      Forall (fun e => capacity_rounded (snd e)) reg.
Proof.
  apply configure_from_Forall. intros i slot config t _. reflexivity.
Qed.

Lemma control_update_capacity (sliders : string -> SliderInput) (cells : Registry) :
  Forall (fun e => capacity_rounded (snd e)) (control_update sliders cells).
Proof.
  unfold control_update. apply Forall_map, Forall_forall.
  intros [name data] _. reflexivity.
Qed.

Lemma emergency_stop_capacity (cells : Registry) :
  Forall (fun e => capacity_exact (snd e)) (emergency_stop cells).
Proof.
  unfold emergency_stop. apply Forall_map, Forall_forall.
  intros [name data] _. unfold capacity_exact. cbn. ring.
Qed.

(** The rounded product is a multiple of 0.01 nearest to the product. *)
Lemma capacity_rounded_stored (data : CellRecord) :
  capacity_rounded data -> capacity_stored data.
Proof.
  unfold capacity_rounded, capacity_stored. intros ->. split.
  - exists (Py.round_half_even (voltage data * current data * Py.pow10 2)).
    change 100 with (Py.pow10 2). apply round_scaled.
  - pose proof (round_near (voltage data * current data) 2) as [H1 H2].
    change (Py.pow10 2) with 100 in H1, H2.
    apply Qabs_Qle_condition. split; lra.
Qed.

(** A multiple of 0.01 within 0.005 of a product that is itself a multiple
    of 0.01 is that product. *)
Lemma capacity_stored_exact (data : CellRecord) (k : Z) :
  capacity_stored data ->
  voltage data * current data * 100 == inject_Z k -> capacity_exact data.
Proof.
  unfold capacity_stored, capacity_exact. intros [[m Hm] Hnear] Hk.
  apply Qabs_Qle_condition in Hnear. destruct Hnear as [H1 H2].
  assert (inject_Z (m - k) < inject_Z 1) as A.
  { unfold Zminus. rewrite inject_Z_plus, inject_Z_opp. change (inject_Z 1) with 1. lra. }
  assert (inject_Z (k - m) < inject_Z 1) as B.
  { unfold Zminus. rewrite inject_Z_plus, inject_Z_opp. change (inject_Z 1) with 1. lra. }
  rewrite <- Zlt_Qlt in A, B. assert (m = k) as E by lia. subst m.
  assert (capacity data * 100 == voltage data * current data * 100) as Eq
    by (rewrite Hm, Hk; reflexivity).
  lra.
Qed.

(** What the rounding keeps of "capacity = voltage * current". *)
Lemma capacity_rounded_near (data : CellRecord) :
  capacity_rounded data ->
  Qabs (capacity data - voltage data * current data) <= 0.005 /\
  (forall k : Z, voltage data * current data * 100 == inject_Z k -> capacity_exact data).
Proof.
  unfold capacity_rounded, capacity_exact. intros ->. split.
  - pose proof (round_near (voltage data * current data) 2) as [H1 H2].
    change (Py.pow10 2) with 100 in H1, H2.
    apply Qabs_Qle_condition. split; lra.
  - intros k Hk. apply (round_fixed k). exact Hk.
Qed.

End Capacity.

(** C2 (as amended). After a configuration save and after a control-panel
    update every record's capacity is its voltage times its current rounded to
    two decimals: a multiple of 0.01 within 0.005 of the product (either
    neighbour when the product lies exactly halfway, where the binary value of
    the product decides), and equal to the product when the product has at
    most two decimals; after an emergency stop every record's capacity is
    exactly its voltage times its current. *)
Theorem capacity_after_mutation (slots : list SlotInput) (w : Py.World)
  (sliders : string -> SliderInput) (cells : Registry) :
  Forall slot_ok slots ->
  (exists reg w',
     configure slots w = Some (reg, w') /\
     Forall (fun e => capacity_stored (snd e)) reg) /\
  Forall (fun e => capacity_stored (snd e)) (control_update sliders cells) /\
  Forall (fun e => capacity_exact (snd e)) (emergency_stop cells) /\
  (forall data : CellRecord,
     capacity_stored data ->
     forall k : Z, voltage data * current data * 100 == inject_Z k ->
                   capacity_exact data).
Proof.
  intro Hs. repeat apply conj.
  - destruct (configure_from_capacity slots Hs [] 0%nat w) as (reg & w' & E & H);
      [constructor|].
    exists reg, w'. split; [exact E|].
    eapply Forall_impl; [|exact H]. intros e. apply capacity_rounded_stored.
  - eapply Forall_impl; [|apply control_update_capacity].
    intros e. apply capacity_rounded_stored.
  - apply emergency_stop_capacity.
  - intros data H k. now apply capacity_stored_exact.
Qed.

Lemma example_slots_ok : Forall slot_ok example_slots.
Proof.
  repeat constructor; unfold slot_ok; cbn; tauto.
Qed.

Lemma capacity_after_mutation_witness :
  (exists reg w',
     configure example_slots (constant_world (1 # 2)) = Some (reg, w') /\
     Forall (fun e => capacity_stored (snd e)) reg) /\
  Forall (fun e => capacity_stored (snd e))
    (control_update example_sliders example_registry) /\
  Forall (fun e => capacity_exact (snd e)) (emergency_stop example_registry) /\
  (forall data : CellRecord,
     capacity_stored data ->
     forall k : Z, voltage data * current data * 100 == inject_Z k ->
                   capacity_exact data).
Proof.
  apply (capacity_after_mutation example_slots (constant_world (1 # 2))
           example_sliders example_registry).
  exact example_slots_ok.
Defined.

(** C2 (as stated) fails, on two paths.  A slot configured with 0.01 A on an
    LFP cell gets capacity 0.03, not 3.2 * 0.01 = 0.032: the handlers round.
    And "Randomize Values" on a cell of 3.2 V, 2.0 A and capacity 6.4, with
    draws of 0.75, stores 3.25 V and 2.25 A and leaves the capacity at 6.4. *)
Lemma capacity_not_product :
  (exists reg w',
     configure [mkSlotInput "lfp" 0.01] (constant_world (1 # 2)) = Some (reg, w') /\
     exists data,
       reg = [("cell_1_lfp", data)] /\
       capacity data == 0.03 /\ voltage data * current data == 0.032 /\
       ~ capacity_exact data) /\
  (exists reg w',
     randomize_values [("cell_1_lfp", mkCellRecord 3.2 2.0 30.0 6.4 2.8 3.6 "lfp" None)]
       (constant_world 0.75) = Some (reg, w') /\
     exists data,
       reg = [("cell_1_lfp", data)] /\
       voltage data == 3.25 /\ current data == 2.25 /\ capacity data == 6.4 /\
       ~ capacity_exact data /\ ~ capacity_stored data).
Proof.
  split.
  - eexists. eexists. split; [reflexivity|].
    eexists. split; [reflexivity|]. cbn [capacity voltage current].
    split; [reflexivity|]. split; [reflexivity|].
    unfold capacity_exact. cbn [capacity voltage current]. discriminate.
  - eexists. eexists. split; [reflexivity|].
    eexists. split; [reflexivity|].
    unfold capacity_exact, capacity_stored, update.
    cbn [capacity voltage current mock_voltage mock_current].
    repeat split; try reflexivity.
    + vm_compute. discriminate.
    + intros [_ H]. apply Qabs_Qle_condition in H. destruct H as [H _].
      revert H. vm_compute. intro H. now apply H.
Qed.

(** ** Emergency stop *)

Lemma emergency_stop_cell_stopped (entry : string * CellRecord) :
  stopped entry (emergency_stop_cell entry).
Proof.
  destruct entry as [name data]. repeat split.
Qed.

(** C3. Emergency stop on a registry of any size keeps the keys (none added,
    none removed, same order), sets every record's current and capacity to
    0.0 and leaves its voltage, temperature, chemistry and voltage bounds
    unchanged. *)
Theorem emergency_stop_frame (cells : Registry) :
  List.length (emergency_stop cells) = List.length cells /\
  map fst (emergency_stop cells) = map fst cells /\
  Forall2 stopped cells (emergency_stop cells) /\
  (forall name data, In (name, data) (emergency_stop cells) ->
     current data = 0.0 /\ capacity data = 0.0 /\ current data == 0 /\ capacity data == 0).
Proof.
  unfold emergency_stop. repeat apply conj.
  - apply length_map.
  - rewrite map_map. apply map_ext. now intros [name data].
  - induction cells as [|entry cells IH]; cbn; constructor.
    + apply emergency_stop_cell_stopped.
    + exact IH.
  - intros name data Hin. apply in_map_iff in Hin.
    destruct Hin as [[name' data'] [E _]]. inversion E; subst.
    repeat split.
Qed.

(** ** System health *)

Section Health.

Lemma is_normal_iff (cell : CellRecord) :
  is_normal cell = true <->
  get_cell_status (voltage cell) (cell_type cell) = status_normal.
Proof.
  unfold is_normal.
  destruct (get_cell_status_cases (voltage cell) (cell_type cell))
    as [[_ E]|[[_ E]|[_ E]]]; rewrite E; split; (reflexivity || discriminate).
Qed.

Lemma classified_normal_is_normal (entry : string * CellRecord) :
  classified_normal entry = is_normal (snd entry).
Proof.
  unfold classified_normal, is_normal, status_eqb.
  destruct (get_cell_status_cases (voltage (snd entry)) (cell_type (snd entry)))
    as [[_ E]|[[_ E]|[_ E]]]; rewrite E; reflexivity.
Qed.

Lemma healthy_cells_count (cells : Registry) :
  healthy_cells cells =
  List.length (filter (fun entry => is_normal (snd entry)) cells).
Proof.
  unfold healthy_cells, list_sum.
  induction (filter (fun entry => is_normal (snd entry)) cells) as [|e l IH];
    simpl; [reflexivity|now rewrite IH].
Qed.

Lemma filter_all {A : Type} (f : A -> bool) (l : list A) :
  (forall x, In x l -> f x = true) -> filter f l = l.
Proof.
  induction l as [|a l IH]; cbn; intro H; [reflexivity|].
  rewrite (H a) by now left. f_equal. apply IH. intros x Hx. apply H. now right.
Qed.

Lemma filter_none {A : Type} (f : A -> bool) (l : list A) :
  (forall x, In x l -> f x = false) -> filter f l = [].
Proof.
  induction l as [|a l IH]; cbn; intro H; [reflexivity|].
  rewrite (H a) by now left. apply IH. intros x Hx. apply H. now right.
Qed.

Lemma length_pos_Q {A : Type} (l : list A) :
  l <> [] -> 0 < inject_Z (Z.of_nat (List.length l)).
Proof.
  intro H. destruct l as [|a l]; [contradiction|].
  change 0 with (inject_Z 0). rewrite <- Zlt_Qlt. cbn [List.length]. lia.
Qed.

(** On a non-empty registry the division is by a non-zero count. *)
Lemma health_percentage_run (cells : Registry) :
  cells <> [] ->
  exists h,
    health_percentage cells = Some h /\
    h == inject_Z (Z.of_nat (List.length (filter (fun entry => is_normal (snd entry)) cells)))
         / inject_Z (Z.of_nat (List.length cells)) * 100.
Proof.
  intro Hne. pose proof (length_pos_Q cells Hne) as Hpos.
  unfold health_percentage, Py.div.
  destruct (Qeq_bool (inject_Z (Z.of_nat (List.length cells))) 0) eqn:E.
  { apply Qeq_bool_iff in E. lra. }
  eexists. split; [reflexivity|]. rewrite healthy_cells_count. reflexivity.
Qed.

Lemma health_all_normal (cells : Registry) :
  cells <> [] ->
  (forall entry, In entry cells -> is_normal (snd entry) = true) ->
  inject_Z (Z.of_nat (List.length (filter (fun entry => is_normal (snd entry)) cells)))
  / inject_Z (Z.of_nat (List.length cells)) * 100 == 100.
Proof.
  intros Hne H. pose proof (length_pos_Q cells Hne) as Hpos.
  rewrite (filter_all _ _ H). field. lra.
Qed.

Lemma health_none_normal (cells : Registry) :
  cells <> [] ->
  (forall entry, In entry cells -> is_normal (snd entry) = false) ->
  inject_Z (Z.of_nat (List.length (filter (fun entry => is_normal (snd entry)) cells)))
  / inject_Z (Z.of_nat (List.length cells)) * 100 == 0.
Proof.
  intros Hne H. pose proof (length_pos_Q cells Hne) as Hpos.
  rewrite (filter_none _ _ H). cbn [List.length Z.of_nat]. field. lra.
Qed.

End Health.

(** C6. On a non-empty registry the health percentage is computed (no
    division by zero) and is the number of records classified Normal divided
    by the number of records, times 100: 100 when every record is Normal and
    0 when none is. *)
Theorem health_percentage_spec (cells : Registry) :
  cells <> [] ->
  exists h,
    health_percentage cells = Some h /\
    h == inject_Z (Z.of_nat (count_normal cells))
         / inject_Z (Z.of_nat (List.length cells)) * 100 /\
    ((forall name data, In (name, data) cells ->
        get_cell_status (voltage data) (cell_type data) = status_normal) ->
     h == 100) /\
    ((forall name data, In (name, data) cells ->
        get_cell_status (voltage data) (cell_type data) <> status_normal) ->
     h == 0).
Proof.
  intro Hne. destruct (health_percentage_run cells Hne) as (h & Eh & Hh).
  exists h. split; [exact Eh|]. split.
  { unfold count_normal. rewrite (filter_ext _ _ classified_normal_is_normal). exact Hh. }
  split; intro H; rewrite Hh.
  - apply health_all_normal; [assumption|].
    intros [name data] Hin. apply is_normal_iff. eapply H; eassumption.
  - apply health_none_normal; [assumption|].
    intros [name data] Hin. destruct (is_normal (snd (name, data))) eqn:En; [|reflexivity].
    apply is_normal_iff in En. exfalso. eapply H; eassumption.
Qed.

Lemma health_percentage_spec_witness :
  exists h,
    health_percentage example_registry = Some h /\
    h == inject_Z (Z.of_nat (count_normal example_registry))
         / inject_Z (Z.of_nat (List.length example_registry)) * 100 /\
    ((forall name data, In (name, data) example_registry ->
        get_cell_status (voltage data) (cell_type data) = status_normal) ->
     h == 100) /\
    ((forall name data, In (name, data) example_registry ->
        get_cell_status (voltage data) (cell_type data) <> status_normal) ->
     h == 0).
Proof.
  apply (health_percentage_spec example_registry). discriminate.
Defined.

(** ** Power density *)

(** C9. The power density of a record is always computed: it is 0 when the
    temperature is not strictly positive, and capacity divided by temperature
    otherwise; the division is never reached with a zero divisor. *)
Theorem power_density_guarded (data : CellRecord) :
  power_density data <> None /\
  (~ 0 < temp data -> power_density data = Some 0) /\
  (0 < temp data -> power_density data = Some (capacity data / temp data)).
Proof.
  unfold power_density, Py.div.
  destruct (Py.Qlt_bool 0 (temp data)) eqn:E; reflect_cmp.
  - destruct (Qeq_bool (temp data) 0) eqn:E0.
    + apply Qeq_bool_iff in E0. lra.
    + split; [discriminate|]. split; intro H; [contradiction|reflexivity].
  - split; [discriminate|]. split; intro H; [reflexivity|lra].
Qed.

(** ** Snapshot history *)

Section History.

Lemma last_n_length {A : Type} (n : nat) (l : list A) :
  List.length (Py.last_n n l) = Nat.min n (List.length l).
Proof.
  unfold Py.last_n. rewrite length_skipn. lia.
Qed.

Lemma store_snapshot_length (h : list Snapshot) (s : Snapshot) :
  List.length (store_snapshot h s) = Nat.min 100 (List.length h + 1).
Proof.
  unfold store_snapshot.
  destruct (Nat.ltb_spec 100 (List.length (h ++ [s]))) as [H|H];
    [rewrite last_n_length|]; rewrite length_app in *; cbn [List.length] in *; lia.
Qed.

Lemma store_snapshot_last_n (h : list Snapshot) (s : Snapshot) :
  store_snapshot h s = Py.last_n 100 (h ++ [s]).
Proof.
  unfold store_snapshot.
  destruct (Nat.ltb_spec 100 (List.length (h ++ [s]))) as [H|H]; [reflexivity|].
  unfold Py.last_n. replace (List.length (h ++ [s]) - 100)%nat with 0%nat by lia.
  reflexivity.
Qed.

Lemma monitor_cycles_bounded (snapshots h : list Snapshot) :
  (List.length h <= 100)%nat ->
  (List.length (monitor_cycles h snapshots) <= 100)%nat.
Proof.
  unfold monitor_cycles. revert h.
  induction snapshots as [|s snapshots IH]; intros h Hh; cbn [fold_left].
  - exact Hh.
  - apply IH. rewrite store_snapshot_length. lia.
Qed.

End History.

(** C10. Storing a snapshot appends it and keeps the most recent 100
    entries, so the history never holds more than 100 snapshots: not after
    one cycle, whatever the history was, and not after any run of cycles from
    the empty history. *)
Theorem historical_data_bounded (h : list Snapshot) (s : Snapshot)
  (snapshots : list Snapshot) :
  store_snapshot h s = Py.last_n 100 (h ++ [s]) /\
  (List.length (store_snapshot h s) <= 100)%nat /\
  (exists older, (h ++ [s])%list = (older ++ store_snapshot h s)%list) /\
  (List.length (monitor_cycles [] snapshots) <= 100)%nat.
Proof.
  repeat apply conj.
  - apply store_snapshot_last_n.
  - rewrite store_snapshot_length. lia.
  - rewrite store_snapshot_last_n. unfold Py.last_n.
    exists (firstn (List.length (h ++ [s]) - 100) (h ++ [s])).
    symmetry. apply firstn_skipn.
  - apply monitor_cycles_bounded. cbn. lia.
Qed.

(** ** Mock refresh and the stored capacity *)

Section MockRefresh.

Variable refresh_cell : string * CellRecord -> Py.M (string * CellRecord).

Hypothesis refresh_cell_run :
  forall entry w, chemistry_ok entry ->
    exists new w', refresh_cell entry w = Some (new, w') /\ refreshed entry new.

Lemma for_each_refreshed (cells : Registry) :
  Forall chemistry_ok cells ->
  forall w, exists cells' w',
    Py.for_each refresh_cell cells w = Some (cells', w') /\
    Forall2 refreshed cells cells'.
Proof.
  induction 1 as [|entry cells He _ IH]; intro w; cbn [Py.for_each].
  - exists [], w. split; [reflexivity|constructor].
  - destruct (refresh_cell_run entry w He) as (new & w1 & E1 & R1).
    destruct (IH w1) as (cells' & w2 & E2 & R2).
    exists (new :: cells'), w2. unfold Py.bind. rewrite E1, E2.
    split; [reflexivity|constructor; assumption].
Qed.

End MockRefresh.

Lemma randomize_cell_refreshed (entry : string * CellRecord) (w : Py.World) :
  chemistry_ok entry ->
  exists new w', randomize_cell entry w = Some (new, w') /\ refreshed entry new.
Proof.
  destruct entry as [name data]. intro H.
  destruct (dict_get_some _ _ H) as [config Hc].
  unfold randomize_cell, Py.bind at 1. cbn [snd] in Hc. rewrite Hc. cbn [Py.lift Py.ret].
  unfold Py.bind. rewrite generate_mock_data_run.
  eexists. eexists. split; [reflexivity|]. repeat split. discriminate.
Qed.

Lemma monitor_cell_refreshed (entry : string * CellRecord) (w : Py.World) :
  chemistry_ok entry ->
  exists new w', monitor_cell entry w = Some (new, w') /\ refreshed entry new.
Proof.
  destruct entry as [name data]. intro H.
  destruct (dict_get_some _ _ H) as [config Hc].
  unfold monitor_cell, Py.bind at 1. cbn [snd] in Hc. rewrite Hc. cbn [Py.lift Py.ret].
  unfold Py.bind. rewrite generate_mock_data_run.
  eexists. eexists. split; [reflexivity|]. repeat split. discriminate.
Qed.

(** X1. Both mock-refresh paths return, keep the keys and leave every
    record's capacity as it was before the new voltage and current were
    merged in: the stored capacity is not recomputed. *)
Theorem mock_refresh_keeps_capacity (cells : Registry) (w : Py.World) :
  Forall chemistry_ok cells ->
  (exists cells' w',
     randomize_values cells w = Some (cells', w') /\ Forall2 refreshed cells cells') /\
  (exists cells' w',
     monitor_update cells w = Some (cells', w') /\ Forall2 refreshed cells cells').
Proof.
  intro H. split.
  - apply (for_each_refreshed randomize_cell); [|assumption].
    intros entry w0 He. now apply randomize_cell_refreshed.
  - apply (for_each_refreshed monitor_cell); [|assumption].
    intros entry w0 He. now apply monitor_cell_refreshed.
Qed.

Lemma example_registry_ok : Forall chemistry_ok example_registry.
Proof.
  repeat constructor; unfold chemistry_ok; cbn; tauto.
Qed.

Lemma mock_refresh_keeps_capacity_witness :
  (exists cells' w',
     randomize_values example_registry (constant_world (1 # 2)) = Some (cells', w') /\
     Forall2 refreshed example_registry cells') /\
  (exists cells' w',
     monitor_update example_registry (constant_world (1 # 2)) = Some (cells', w') /\
     Forall2 refreshed example_registry cells').
Proof.
  apply (mock_refresh_keeps_capacity example_registry (constant_world (1 # 2))).
  exact example_registry_ok.
Defined.

(** ** CSV export *)

Section CsvText.

Lemma append_assoc (a b c : string) : ((a ++ b) ++ c = a ++ (b ++ c))%string.
Proof.
  induction a as [|x a IH]; cbn; [reflexivity|now rewrite IH].
Qed.

Lemma append_empty (a : string) : (a ++ "")%string = a.
Proof.
  induction a as [|x a IH]; cbn; [reflexivity|now rewrite IH].
Qed.

Lemma contains_app (c : ascii) (a b : string) :
  Csv.contains c (a ++ b) = Csv.contains c a || Csv.contains c b.
Proof.
  induction a as [|x a IH]; cbn; [reflexivity|]. rewrite IH. apply orb_assoc.
Qed.

Lemma split_without (sep : ascii) (a : string) :
  Csv.contains sep a = false -> Csv.split sep a = [a].
Proof.
  induction a as [|x a IH]; cbn; intro H; [reflexivity|].
  apply orb_false_iff in H. destruct H as [Hx Ha].
  rewrite Hx, (IH Ha). reflexivity.
Qed.

Lemma split_app (sep : ascii) (a b : string) :
  Csv.contains sep a = false ->
  Csv.split sep (a ++ String sep b) = a :: Csv.split sep b.
Proof.
  induction a as [|x a IH]; cbn; intro H.
  - now rewrite Ascii.eqb_refl.
  - apply orb_false_iff in H. destruct H as [Hx Ha].
    rewrite Hx, (IH Ha). reflexivity.
Qed.

Lemma forallb_map {A B : Type} (f : B -> bool) (g : A -> B) (l : list A) :
  forallb f (map g l) = forallb (fun x => f (g x)) l.
Proof.
  induction l as [|x l IH]; cbn; [reflexivity|now rewrite IH].
Qed.

End CsvText.

(** *** The reader undoes the writer *)

Section ReadRows.

(** A field pushed character by character. *)
Lemma push_field (f g : string) (fields : list string) (rest : list (list string)) :
  fold_right push (Some ((g :: fields) :: rest)) (list_ascii_of_string f)
  = Some (((f ++ g)%string :: fields) :: rest).
Proof.
  induction f as [|a f IH]; cbn; [reflexivity|]. now rewrite IH.
Qed.

Lemma read_delimiter (place : Place) (c : ascii) (s : string) :
  delimiter c -> place <> in_quoted ->
  read place (String c s) = read at_start (String c s).
Proof.
  intros [->| ->] Hp; destruct place; try reflexivity; contradiction.
Qed.

Lemma plain_head (a : ascii) (f : string) :
  Csv.plain (String a f) = true ->
  Ascii.eqb a Csv.comma = false /\ Ascii.eqb a Csv.quotechar = false /\
  Ascii.eqb a Csv.newline = false /\ Csv.plain f = true.
Proof.
  unfold Csv.plain. cbn [Csv.contains].
  rewrite !andb_true_iff, !negb_true_iff, !orb_false_iff. tauto.
Qed.

(** The steps of the reader. *)
Lemma read_open (s : string) :
  read at_start (String Csv.quotechar s) = read in_quoted s.
Proof.
  reflexivity.
Qed.

Lemma read_close (s : string) :
  read in_quoted (String Csv.quotechar s) = read after_quoted s.
Proof.
  reflexivity.
Qed.

Lemma read_doubled (s : string) :
  read after_quoted (String Csv.quotechar s) = push Csv.quotechar (read in_quoted s).
Proof.
  reflexivity.
Qed.

Lemma read_inside (a : ascii) (s : string) :
  Ascii.eqb a Csv.quotechar = false ->
  read in_quoted (String a s) = push a (read in_quoted s).
Proof.
  intro H. cbn [read]. now rewrite H.
Qed.

Lemma read_comma (s : string) :
  read at_start (String Csv.comma s) = next_field (read at_start s).
Proof.
  reflexivity.
Qed.

Lemma read_newline (s : string) :
  read at_start (String Csv.newline s) = next_row (read_rows s).
Proof.
  reflexivity.
Qed.

Lemma read_char (place : Place) (a : ascii) (s : string) :
  place = at_start \/ place = in_plain ->
  Ascii.eqb a Csv.comma = false -> Ascii.eqb a Csv.quotechar = false ->
  Ascii.eqb a Csv.newline = false ->
  read place (String a s) = push a (read in_plain s).
Proof.
  intros [->| ->] H1 H2 H3; cbn [read]; now rewrite ?H1, ?H2, ?H3.
Qed.

Lemma read_plain (f : string) (place : Place) (c : ascii) (s : string) :
  Csv.plain f = true -> delimiter c -> place = at_start \/ place = in_plain ->
  read place (f ++ String c s)
  = fold_right push (read at_start (String c s)) (list_ascii_of_string f).
Proof.
  intros Hf Hc. revert place. induction f as [|a f IH]; intros place Hp.
  - cbn [String.append list_ascii_of_string fold_right].
    apply read_delimiter; [exact Hc|]. destruct Hp as [->| ->]; discriminate.
  - apply plain_head in Hf. destruct Hf as (H1 & H2 & H3 & Hf).
    cbn [String.append list_ascii_of_string fold_right].
    rewrite <- (IH Hf in_plain) by now right.
    now apply read_char.
Qed.

Lemma read_quoted (f : string) (c : ascii) (s : string) :
  delimiter c ->
  read in_quoted (Csv.double_quotes f ++ String Csv.quotechar (String c s))
  = fold_right push (read at_start (String c s)) (list_ascii_of_string f).
Proof.
  intro Hc. induction f as [|a f IH].
  - cbn [Csv.double_quotes String.append list_ascii_of_string fold_right].
    rewrite read_close. apply read_delimiter; [exact Hc|discriminate].
  - cbn [Csv.double_quotes list_ascii_of_string fold_right].
    destruct (Ascii.eqb a Csv.quotechar) eqn:E.
    + apply Ascii.eqb_eq in E. subst a.
      cbn [String.append]. now rewrite read_close, read_doubled, IH.
    + cbn [String.append]. now rewrite (read_inside _ _ E), IH.
Qed.

(** A field as the writer puts it, read up to the delimiter after it. *)
Lemma read_field (f : string) (c : ascii) (s : string) :
  delimiter c ->
  read at_start (Csv.field f ++ String c s)
  = fold_right push (read at_start (String c s)) (list_ascii_of_string f).
Proof.
  intro Hc. unfold Csv.field. destruct (Csv.plain f) eqn:E.
  - apply read_plain; [exact E|exact Hc|now left].
  - cbn [String.append]. rewrite read_open.
    rewrite append_assoc. cbn [String.append]. now apply read_quoted.
Qed.

(** A line as the writer puts it, read before the rows of the text after
    it. *)
Lemma read_line (fields : list string) (s : string) (rows : list (list string)) :
  fields <> [] ->
  read_rows s = Some rows ->
  read at_start (Csv.line fields ++ s) = Some (fields :: rows).
Proof.
  intros Hne Hs. unfold Csv.line. rewrite append_assoc. cbn [String.append].
  induction fields as [|f fields IH]; [contradiction|].
  destruct fields as [|g fields].
  - cbn [map Csv.join]. rewrite read_field by now right.
    rewrite read_newline, Hs. cbn [next_row].
    rewrite push_field. now rewrite append_empty.
  - change (Csv.join Csv.comma (map Csv.field (f :: g :: fields)))
      with (Csv.field f ++ String Csv.comma (Csv.join Csv.comma (map Csv.field (g :: fields)))).
    rewrite append_assoc. cbn [String.append]. rewrite read_field by now left.
    rewrite read_comma, IH by discriminate. cbn [next_field].
    rewrite push_field. now rewrite append_empty.
Qed.

(** Reading undoes writing: any rows, none of them empty, written line by
    line, are read back as they were. *)
Lemma read_rows_lines (rows : list (list string)) :
  Forall (fun fields => fields <> []) rows ->
  read_rows (Csv.cat (map Csv.line rows)) = Some rows.
Proof.
  induction 1 as [|fields rows Hf _ IH]; [reflexivity|].
  cbn [map Csv.cat fold_right]. fold (Csv.cat (map Csv.line rows)).
  rewrite <- (read_line fields _ rows Hf IH).
  unfold Csv.line. rewrite append_assoc.
  destruct (Csv.join Csv.comma (map Csv.field fields)); reflexivity.
Qed.

End ReadRows.

(** *** The decimal notation, printed and read back *)

Section DecimalNotation.

Lemma digit_cases (d : Z) (P : Z -> Prop) :
  (0 <= d < 10)%Z ->
  P 0%Z -> P 1%Z -> P 2%Z -> P 3%Z -> P 4%Z -> P 5%Z -> P 6%Z -> P 7%Z -> P 8%Z -> P 9%Z ->
  P d.
Proof.
  intros H. 
  assert (d = 0 \/ d = 1 \/ d = 2 \/ d = 3 \/ d = 4 \/ d = 5 \/ d = 6 \/ d = 7 \/ d = 8 \/ d = 9)%Z
    as C by lia.
  intuition (subst; assumption).
Qed.

Lemma digit_value_char (d : Z) :
  (0 <= d < 10)%Z -> Decimal.digit_value (Decimal.digit_char d) = Some d.
Proof.
  intro H. apply (digit_cases d (fun d => Decimal.digit_value (Decimal.digit_char d) = Some d) H);
    reflexivity.
Qed.

Lemma digit_char_point (d : Z) :
  (0 <= d < 10)%Z -> Ascii.eqb (Decimal.digit_char d) "." = false.
Proof.
  intro H. apply (digit_cases d (fun d => Ascii.eqb (Decimal.digit_char d) "." = false) H);
    reflexivity.
Qed.

Lemma digit_char_minus (d : Z) :
  (0 <= d < 10)%Z -> Ascii.eqb (Decimal.digit_char d) "-" = false.
Proof.
  intro H. apply (digit_cases d (fun d => Ascii.eqb (Decimal.digit_char d) "-" = false) H);
    reflexivity.
Qed.

Lemma mod10 (n : Z) : (0 <= n mod 10 < 10)%Z.
Proof.
  apply Z.mod_pos_bound. lia.
Qed.

(** Reading the digits of [n] and then [tail] is reading [tail] after [n]. *)
Lemma digits_integer (fuel : nat) (n : Z) (tail : string) :
  (0 <= n < 10 ^ (Z.of_nat fuel + 1))%Z ->
  Decimal.digits 0 (Decimal.integer_digits fuel n tail) = Decimal.digits n tail.
Proof.
  revert n tail. induction fuel as [|fuel IH]; intros n tail Hn.
  - cbn [Decimal.integer_digits Decimal.digits].
    rewrite digit_value_char by apply mod10.
    change (Z.of_nat 0 + 1)%Z with 1%Z in Hn. rewrite Z.pow_1_r in Hn.
    rewrite Z.mod_small by lia. reflexivity.
  - cbn [Decimal.integer_digits].
    pose proof (Z.div_mod n 10 ltac:(lia)) as E.
    destruct (n / 10 =? 0)%Z eqn:Hq.
    + apply Z.eqb_eq in Hq. cbn [Decimal.digits].
      rewrite digit_value_char by apply mod10.
      f_equal. lia.
    + apply Z.eqb_neq in Hq. rewrite IH.
      * cbn [Decimal.digits]. rewrite digit_value_char by apply mod10.
        f_equal. lia.
      * split; [apply Z.div_pos; lia|].
        apply Z.div_lt_upper_bound; [lia|].
        replace (Z.of_nat (S fuel) + 1)%Z with (Z.succ (Z.of_nat fuel + 1)) in Hn by lia.
        rewrite Z.pow_succ_r in Hn by lia. lia.
Qed.

Lemma integer_digits_point (fuel : nat) (n : Z) (tail : string) :
  Csv.contains "." (Decimal.integer_digits fuel n tail) = Csv.contains "." tail.
Proof.
  revert n tail. induction fuel as [|fuel IH]; intros n tail; cbn [Decimal.integer_digits].
  - cbn [Csv.contains]. now rewrite digit_char_point by apply mod10.
  - destruct (n / 10 =? 0)%Z; [|rewrite IH]; cbn [Csv.contains];
      now rewrite digit_char_point by apply mod10.
Qed.

Lemma integer_digits_head (fuel : nat) (n : Z) (tail : string) :
  exists d rest, Decimal.integer_digits fuel n tail = String (Decimal.digit_char d) rest /\
                 (0 <= d < 10)%Z.
Proof.
  revert n tail. induction fuel as [|fuel IH]; intros n tail; cbn [Decimal.integer_digits].
  - eexists _, _. split; [reflexivity|apply mod10].
  - destruct (n / 10 =? 0)%Z; [|apply IH].
    eexists _, _. split; [reflexivity|apply mod10].
Qed.

Lemma log2_bound (n : Z) : (0 <= n -> n < 10 ^ (Z.of_nat (Z.to_nat (Z.log2 n)) + 1))%Z.
Proof.
  intro Hn. rewrite Z2Nat.id by apply Z.log2_nonneg.
  destruct (Z.eq_dec n 0) as [->|Hz]; [reflexivity|].
  pose proof (Z.log2_spec n ltac:(lia)) as [_ H].
  eapply Z.lt_le_trans; [exact H|].
  rewrite <- Z.add_1_r.
  apply Z.pow_le_mono_l. pose proof (Z.log2_nonneg n). lia.
Qed.

Lemma digits_integer_repr (n : Z) :
  (0 <= n)%Z -> Decimal.digits 0 (Decimal.integer_repr n) = Some n.
Proof.
  intro Hn. unfold Decimal.integer_repr. rewrite digits_integer; [reflexivity|].
  split; [exact Hn|now apply log2_bound].
Qed.

(** The digits of a fraction: read after [acc], they give the first
    [k] decimals [b] of [num / den], and the remainder [r] is zero unless all the
    [fuel] digits were used. *)
Lemma digits_fraction (fuel : nat) (num den acc : Z) :
  (0 <= num < den)%Z ->
  exists b : Z,
    let f := Decimal.fraction_digits fuel num den in
    let p := (10 ^ Z.of_nat (String.length f))%Z in
    Decimal.digits acc f = Some (acc * p + b)%Z /\
    Csv.contains "." f = false /\
    (0 <= b)%Z /\
    (0 <= num * p - b * den < den)%Z /\
    ((num * p - b * den = 0)%Z \/ String.length f = fuel).
Proof.
  revert num acc. induction fuel as [|fuel IH]; intros num acc Hn.
  - exists 0%Z. cbn [Decimal.fraction_digits String.length Decimal.digits Csv.contains].
    cbv zeta. change (10 ^ Z.of_nat 0)%Z with 1%Z.
    split; [f_equal; ring|]. split; [reflexivity|]. split; [lia|]. split; [lia|now right].
  - cbn [Decimal.fraction_digits]. cbv zeta.
    set (d := (num * 10 / den)%Z).
    set (r := (num * 10 - d * den)%Z).
    assert (0 <= d < 10)%Z as Hd.
    { unfold d. split; [apply Z.div_pos; lia|].
      apply Z.div_lt_upper_bound; lia. }
    assert (0 <= r < den)%Z as Hr.
    { unfold r, d. pose proof (Z.mod_pos_bound (num * 10) den ltac:(lia)) as Hm.
      rewrite Z.mod_eq in Hm by lia. lia. }
    destruct (r =? 0)%Z eqn:Hz.
    + apply Z.eqb_eq in Hz. exists d.
      cbn [String.length Decimal.digits Csv.contains].
      rewrite digit_value_char, digit_char_point by exact Hd.
      change (10 ^ Z.of_nat 1)%Z with 10%Z.
      split; [reflexivity|]. split; [reflexivity|]. split; [lia|].
      fold r. split; [lia|now left].
    + apply Z.eqb_neq in Hz.
      destruct (IH r (acc * 10 + d)%Z Hr) as (b & H1 & H2 & H3 & H4 & H5).
      cbv zeta in H1, H4, H5.
      set (f := Decimal.fraction_digits fuel r den) in *.
      set (p := (10 ^ Z.of_nat (String.length f))%Z) in *.
      assert (0 < p)%Z as Hp by (unfold p; apply Z.pow_pos_nonneg; lia).
      exists (d * p + b)%Z.
      cbn [String.length Decimal.digits Csv.contains].
      rewrite digit_value_char, digit_char_point by exact Hd.
      rewrite Nat2Z.inj_succ, Z.pow_succ_r by lia. fold p.
      rewrite H1, H2.
      assert (num * (10 * p) - (d * p + b) * den = r * p - b * den)%Z as E
        by (unfold r; ring).
      rewrite E.
      split; [f_equal; ring|]. split; [reflexivity|]. split; [nia|]. split; [exact H4|].
      destruct H5 as [H5|H5]; [now left|right; now rewrite H5].
Qed.

(** A quotient and its first decimals: the difference is the remainder
    over the two denominators. *)
Lemma decimals_close (a d i num b p r : Z) (y : Q) :
  (0 < d)%Z -> (0 < p)%Z ->
  (a = d * i + num)%Z -> (r = num * p - b * d)%Z -> (0 <= r < d)%Z ->
  y == inject_Z i + inject_Z b / inject_Z p ->
  (r = 0%Z -> y == inject_Z a / inject_Z d) /\
  Qabs (y - inject_Z a / inject_Z d) * inject_Z p <= 1 /\
  ((exists m : Z, inject_Z a / inject_Z d * inject_Z p == inject_Z m) ->
   y == inject_Z a / inject_Z d).
Proof.
  intros Hd Hp Ha Hr Hb Hy.
  assert (0 < inject_Z d) as HD by (change 0 with (inject_Z 0); now rewrite <- Zlt_Qlt).
  assert (0 < inject_Z p) as HP by (change 0 with (inject_Z 0); now rewrite <- Zlt_Qlt).
  assert (inject_Z a / inject_Z d - y == inject_Z r / (inject_Z p * inject_Z d)) as E.
  { rewrite Hy, Ha, Hr. unfold Zminus.
    rewrite !inject_Z_plus, inject_Z_opp, !inject_Z_mult. field.
    split; intro H; rewrite H in *; now apply Qlt_irrefl in HD + apply Qlt_irrefl in HP. }
  assert (r = 0%Z -> y == inject_Z a / inject_Z d) as Hzero.
  { intro H. rewrite H in E. unfold Qdiv in E at 2. rewrite Qmult_0_l in E.
    lra. }
  split; [exact Hzero|]. split.
  - assert (Qabs (y - inject_Z a / inject_Z d) == inject_Z r / (inject_Z p * inject_Z d)) as ->.
    { rewrite <- E. rewrite <- Qabs_opp.
      setoid_replace (- (y - inject_Z a / inject_Z d)) with (inject_Z a / inject_Z d - y) by ring.
      apply Qabs_pos. rewrite E. apply Qle_shift_div_l.
      - apply Qmult_lt_0_compat; assumption.
      - rewrite Qmult_0_l. change 0 with (inject_Z 0). rewrite <- Zle_Qle. lia. }
    setoid_replace (inject_Z r / (inject_Z p * inject_Z d) * inject_Z p)
      with (inject_Z r / inject_Z d).
    2:{ field. split; intro H; rewrite H in *; now apply Qlt_irrefl in HD + apply Qlt_irrefl in HP. }
    apply Qle_shift_div_r; [exact HD|]. rewrite Qmult_1_l. rewrite <- Zle_Qle. lia.
  - intros [m Hm]. apply Hzero.
    assert (inject_Z (a * p) == inject_Z (m * d)) as Hz.
    { rewrite !inject_Z_mult, <- Hm. field.
      intro H; rewrite H in *; now apply Qlt_irrefl in HD. }
    apply (proj1 (inject_Z_injective _ _)) in Hz.
    assert (r = d * (m - i * p - b))%Z as Hk.
    { replace num with (a - d * i)%Z in Hr by lia. rewrite Hr.
      replace ((a - d * i) * p - b * d)%Z with (a * p - d * i * p - b * d)%Z by ring.
      rewrite Hz. ring. }
    destruct (Z.eq_dec (m - i * p - b) 0) as [Hk0|Hk0]; [rewrite Hk0 in Hk; lia|].
    assert (m - i * p - b <= -1 \/ 1 <= m - i * p - b)%Z as [C|C] by lia; nia.
Qed.

(** The notation of a quotient of two integers, read back. *)
Lemma unsigned_repr (a d : Z) :
  (0 <= a)%Z -> (0 < d)%Z ->
  exists y,
    Decimal.unsigned (Decimal.integer_repr (a / d) ++ "." ++
                      Decimal.fraction_digits 20 (a mod d) d) = Some y /\
    read_back (inject_Z a / inject_Z d) y.
Proof.
  intros Ha Hd.
  pose proof (Z.mod_pos_bound a d Hd) as Hm.
  destruct (digits_fraction 20 (a mod d) d 0 Hm) as (b & H1 & H2 & H3 & H4 & H5).
  cbv zeta in H1, H4, H5.
  set (f := Decimal.fraction_digits 20 (a mod d) d) in *.
  set (p := (10 ^ Z.of_nat (String.length f))%Z) in *.
  assert (0 < p)%Z as Hp by (unfold p; apply Z.pow_pos_nonneg; lia).
  unfold Decimal.unsigned. cbn [String.append].
  rewrite split_app by (unfold Decimal.integer_repr; now rewrite integer_digits_point).
  rewrite (split_without _ _ H2).
  rewrite digits_integer_repr by (apply Z.div_pos; lia).
  rewrite H1. fold p. eexists. split; [reflexivity|].
  destruct (decimals_close a d (a / d) (a mod d) b p _ _ Hd Hp (Z.div_mod a d ltac:(lia))
              eq_refl H4 (Qeq_refl _)) as (Hzero & Hclose & Hexact).
  change (0 * p + b)%Z with b.
  destruct H5 as [H5|H5].
  - pose proof (Hzero H5) as E. split; [|intros _; exact E].
    rewrite E. setoid_replace (inject_Z a / inject_Z d - inject_Z a / inject_Z d) with 0 by ring.
    cbn. discriminate.
  - unfold read_back, decimal, Py.pow10. subst p. rewrite H5 in Hclose, Hexact |- *.
    split; assumption.
Qed.

(** Every number, printed and read back, is the number read back from its
    notation. *)
Lemma parse_repr (x : Q) :
  exists y, Decimal.parse (Decimal.repr x) = Some y /\ read_back x y.
Proof.
  destruct x as [n dd]. unfold Decimal.repr. cbn [Qnum Qden].
  destruct (unsigned_repr (Z.abs n) (Z.pos dd) (Z.abs_nonneg n) eq_refl) as (y & Hy & Hc & He).
  set (U := (Decimal.integer_repr (Z.abs n / Z.pos dd) ++ "." ++
             Decimal.fraction_digits 20 (Z.abs n mod Z.pos dd) (Z.pos dd))%string) in *.
  destruct (n <? 0)%Z eqn:Hn.
  - apply Z.ltb_lt in Hn. change ("-" ++ U)%string with (String "-" U).
    unfold Decimal.parse. change (Ascii.eqb "-" "-") with true. cbv iota. rewrite Hy.
    exists (- y). split; [reflexivity|].
    assert (n # dd == - (inject_Z (Z.abs n) / inject_Z (Z.pos dd))) as E.
    { rewrite <- Qmake_Qdiv. rewrite Z.abs_neq by lia. unfold Qeq, Qopp. cbn. lia. }
    split.
    + rewrite E, <- Qabs_opp.
      setoid_replace (- (- y - - (inject_Z (Z.abs n) / inject_Z (Z.pos dd))))
        with (y - inject_Z (Z.abs n) / inject_Z (Z.pos dd)) by ring.
      exact Hc.
    + intros [m Hm]. rewrite E. apply Qopp_comp. apply He. exists (- m)%Z.
      rewrite inject_Z_opp, <- Hm, E. ring.
  - apply Z.ltb_ge in Hn. change ("" ++ U)%string with U.
    assert (n # dd == inject_Z (Z.abs n) / inject_Z (Z.pos dd)) as E.
    { rewrite <- Qmake_Qdiv. now rewrite Z.abs_eq by lia. }
    assert (exists k rest, U = String (Decimal.digit_char k) rest /\ (0 <= k < 10)%Z)
      as (k & rest & EU & Hk).
    { subst U. unfold Decimal.integer_repr.
      destruct (integer_digits_head (Z.to_nat (Z.log2 (Z.abs n / Z.pos dd)))
                  (Z.abs n / Z.pos dd) "") as (k & rest & Ek & Hk).
      rewrite Ek. cbn [String.append]. eauto. }
    exists y. split.
    + rewrite EU in Hy |- *. unfold Decimal.parse.
      now rewrite (digit_char_minus _ Hk).
    + split.
      * rewrite E. exact Hc.
      * intros [m Hm]. rewrite E. apply He. exists m. now rewrite <- E.
Qed.

End DecimalNotation.

Section CsvFrame.

Lemma add_keys_first (entry : string * CellRecord) :
  exists ts, add_keys [] (export_row entry) = (base_columns ++ ts)%list /\
             timestamp_columns ts.
Proof.
  destruct entry as [name [v i t cap lo hi ct [stamp|]]].
  - exists ["timestamp"]. split; [reflexivity|now right].
  - exists []. split; [reflexivity|now left].
Qed.

Lemma add_keys_next (ts : list string) (entry : string * CellRecord) :
  timestamp_columns ts ->
  exists ts', add_keys (base_columns ++ ts) (export_row entry) = (base_columns ++ ts')%list /\
              timestamp_columns ts'.
Proof.
  destruct entry as [name [v i t cap lo hi ct [stamp|]]]; intros [->| ->].
  - exists ["timestamp"]. split; [reflexivity|now right].
  - exists ["timestamp"]. split; [reflexivity|now right].
  - exists []. split; [reflexivity|now left].
  - exists ["timestamp"]. split; [reflexivity|now right].
Qed.

Lemma fold_add_keys (cells : Registry) (ts : list string) :
  timestamp_columns ts ->
  exists ts', fold_left add_keys (map export_row cells) (base_columns ++ ts)%list
              = (base_columns ++ ts')%list /\
              timestamp_columns ts'.
Proof.
  revert ts. induction cells as [|entry cells IH]; intros ts Hts; cbn [map fold_left].
  - now exists ts.
  - destruct (add_keys_next ts entry Hts) as (ts1 & -> & Hts1). now apply IH.
Qed.

(** The columns of the exported frame: the nine base columns, then the
    timestamp when a record has one. *)
Lemma export_columns (entry : string * CellRecord) (cells : Registry) :
  exists ts, columns (DataFrame (map export_row (entry :: cells)))
             = (base_columns ++ ts)%list /\
             timestamp_columns ts.
Proof.
  unfold DataFrame. cbn [columns map fold_left].
  destruct (add_keys_first entry) as (ts0 & -> & Hts0). now apply fold_add_keys.
Qed.

End CsvFrame.

Section CsvRoundTrip.

Variable float_repr : Q -> string.
Variable time_repr : Z -> string.

Local Abbreviation fields := (fields_of float_repr time_repr) (only parsing).

Lemma fields_of_base (ts : list string) (entry : string * CellRecord) :
  fields (base_columns ++ ts) entry =
  ([ fst entry; cell_type (snd entry);
     float_repr (voltage (snd entry)); float_repr (current (snd entry));
     float_repr (temp (snd entry)); float_repr (capacity (snd entry));
     float_repr (min_voltage (snd entry)); float_repr (max_voltage (snd entry));
     cell_type (snd entry) ] ++ fields ts entry)%list.
Proof.
  destruct entry as [name data]. unfold fields_of, frame_row.
  rewrite !map_app. reflexivity.
Qed.

Lemma fields_of_length (cols : list string) (entry : string * CellRecord) :
  List.length (fields cols entry) = List.length cols.
Proof.
  unfold fields_of, frame_row. now rewrite !length_map.
Qed.

(** The text of the export is its rows, written line by line. *)
Lemma generate_csv_text (cells : Registry) :
  generate_csv float_repr time_repr cells
  = Csv.cat (map Csv.line
               (columns (DataFrame (map export_row cells))
                :: map (fields (columns (DataFrame (map export_row cells)))) cells)).
Proof.
  unfold generate_csv, to_csv, DataFrame, fields_of. cbn [columns values map Csv.cat fold_right].
  now rewrite !map_map.
Qed.

(** The rows of the export, read back: whatever the keys and the notation
    hold, the header and the fields of every entry. *)
Lemma generate_csv_rows (entry : string * CellRecord) (cells : Registry) (ts : list string) :
  columns (DataFrame (map export_row (entry :: cells))) = (base_columns ++ ts)%list ->
  read_rows (generate_csv float_repr time_repr (entry :: cells))
  = Some ((base_columns ++ ts)%list
          :: map (fields (base_columns ++ ts)) (entry :: cells)).
Proof.
  intro Hcols. rewrite generate_csv_text, Hcols.
  apply read_rows_lines. constructor; [discriminate|].
  apply Forall_map, Forall_forall. intros e _. rewrite fields_of_base. discriminate.
Qed.

End CsvRoundTrip.

Section CsvReadBack.

Variable time_repr : Z -> string.

Local Abbreviation fields := (fields_of Decimal.repr time_repr) (only parsing).

(** Reading back the fields of one line. *)
Lemma parse_cell_fields (ts : list string) (entry : string * CellRecord) :
  exists p,
    parse_cell Decimal.parse
      (combine (base_columns ++ ts) (fields (base_columns ++ ts) entry)) = Some p /\
    recovered entry p.
Proof.
  rewrite fields_of_base.
  destruct (parse_repr (voltage (snd entry))) as (v & Ev & Hv).
  destruct (parse_repr (current (snd entry))) as (i & Ei & Hi).
  destruct (parse_repr (temp (snd entry))) as (t & Et & Ht).
  destruct (parse_repr (capacity (snd entry))) as (c & Ec & Hc).
  destruct (parse_repr (min_voltage (snd entry))) as (lo & Elo & Hlo).
  destruct (parse_repr (max_voltage (snd entry))) as (hi & Ehi & Hhi).
  unfold parse_cell, parse_float, base_columns.
  cbn [combine app Py.dict_get String.eqb Ascii.eqb Bool.eqb].
  rewrite Ev, Ei, Et, Ec, Elo, Ehi.
  eexists. split; [reflexivity|].
  split; [reflexivity|]. split; [reflexivity|]. split; [exact Hv|]. split; [exact Hi|].
  split; [exact Ht|]. split; [exact Hc|]. split; [exact Hlo|exact Hhi].
Qed.

Lemma parse_cells_fields (ts : list string) (cells : Registry) :
  exists parsed,
    parse_cells Decimal.parse
      (map (fun e => combine (base_columns ++ ts)
                       (fields (base_columns ++ ts) e)) cells) = Some parsed /\
    Forall2 recovered cells parsed.
Proof.
  induction cells as [|entry cells IH]; cbn [map parse_cells].
  - exists []. split; [reflexivity|constructor].
  - destruct (parse_cell_fields ts entry) as (p & -> & Hp).
    destruct IH as (ps & -> & Hps).
    exists (p :: ps). split; [reflexivity|now constructor].
Qed.

End CsvReadBack.

(** C8. For every registry, whatever its keys and chemistries hold, the
    export read back gives, record by record and in registry order, the
    identifier, the chemistry and the six numbers of the record: each number
    as it is when it has at most 20 decimals, as every number the pages store
    has, and within 1e-20 of it otherwise.  The frame has one row per cell;
    its columns are Cell, Type, voltage, current, temp, capacity,
    min_voltage, max_voltage and cell_type (then timestamp, when a record
    has one), and the text holds, whatever the notation of floats and
    timestamps, the header and then one row per cell with the fields of that
    cell.  An empty registry gives a frame without columns. *)
Theorem generate_csv_round_trip (float_repr : Q -> string) (time_repr : Z -> string)
  (cells : Registry) :
  (exists parsed,
     parse_csv Decimal.parse (generate_csv Decimal.repr time_repr cells) = Some parsed /\
     Forall2 recovered cells parsed) /\
  List.length (values (DataFrame (map export_row cells))) = List.length cells /\
  match cells with
  | [] => columns (DataFrame (map export_row cells)) = []
  | _ :: _ =>
      exists ts,
        columns (DataFrame (map export_row cells)) = (base_columns ++ ts)%list /\
        (ts = [] \/ ts = ["timestamp"]) /\
        read_rows (generate_csv float_repr time_repr cells)
        = Some (columns (DataFrame (map export_row cells))
                :: map (fields_of float_repr time_repr
                          (columns (DataFrame (map export_row cells)))) cells)
  end.
Proof.
  destruct cells as [|entry cells].
  { repeat apply conj.
    - exists []. split; [reflexivity|constructor].
    - reflexivity.
    - reflexivity. }
  destruct (export_columns entry cells) as (ts & Hcols & Hts).
  repeat apply conj.
  - unfold parse_csv, read_csv.
    rewrite (generate_csv_rows Decimal.repr time_repr entry cells ts Hcols).
    rewrite forallb_map.
    assert (forallb (fun e =>
                       (List.length (fields_of Decimal.repr time_repr (base_columns ++ ts) e)
                        =? List.length (base_columns ++ ts))%nat) (entry :: cells) = true) as ->.
    { apply forallb_forall. intros e _. rewrite fields_of_length. apply Nat.eqb_refl. }
    rewrite map_map. apply parse_cells_fields.
  - unfold DataFrame. cbn [values]. now rewrite !length_map.
  - exists ts. split; [exact Hcols|]. split; [exact Hts|].
    rewrite Hcols. now apply generate_csv_rows.
Qed.

(** The export of the two configured example cells, as text. *)
(** The export of the two configured example cells, as text. *)
Example generate_csv_example :
  generate_csv Decimal.repr Decimal.time_repr example_configured =
  "Cell,Type,voltage,current,temp,capacity,min_voltage,max_voltage,cell_type
cell_1_lfp,lfp,3.2,2.0,32.5,6.4,2.8,3.6,lfp
cell_2_nmc,nmc,3.6,-1.0,32.5,-3.6,3.2,4.0,nmc
".
Proof.
  vm_compute. reflexivity.
Qed.

(** Keys that hold a comma, a quote or a line break are written quoted and
    read back as they are. *)
Example generate_csv_quoted_example :
  Csv.field "cell,1" = String Csv.quotechar ("cell,1" ++ String Csv.quotechar EmptyString) /\
  option_map (map parsed_cell)
    (parse_csv Decimal.parse (generate_csv Decimal.repr Decimal.time_repr quoted_registry))
  = Some (map fst quoted_registry).
Proof.
  split; vm_compute; reflexivity.
Qed.

(** A number with more than 20 decimals is read back cut after them. *)
Example parse_repr_example :
  Decimal.repr (1 # 3) = "0.33333333333333333333" /\
  Decimal.parse (Decimal.repr (1 # 3)) = Some (0 + 33333333333333333333 / 100000000000000000000).
Proof.
  split; vm_compute; reflexivity.
Qed.

(** ** Keys and chemistries of the registry *)

Section RegistryEntries.

Lemma plain_app (a b : string) :
  Csv.plain (a ++ b) = Csv.plain a && Csv.plain b.
Proof.
  unfold Csv.plain. rewrite !contains_app.
  generalize (Csv.contains Csv.comma a), (Csv.contains Csv.quotechar a),
    (Csv.contains Csv.newline a), (Csv.contains Csv.carriage_return a),
    (Csv.contains Csv.comma b), (Csv.contains Csv.quotechar b),
    (Csv.contains Csv.newline b), (Csv.contains Csv.carriage_return b).
  intros [] [] [] [] [] [] [] []; reflexivity.
Qed.

Lemma plain_String (a : ascii) (s : string) :
  Csv.plain (String a EmptyString) = true -> Csv.plain s = true ->
  Csv.plain (String a s) = true.
Proof.
  intros Ha Hs. change (String a s) with (String a EmptyString ++ s).
  now rewrite plain_app, Ha, Hs.
Qed.

Lemma digits_plain (d : Decimal.uint) :
  Csv.plain (NilEmpty.string_of_uint d) = true.
Proof.
  induction d; cbn [NilEmpty.string_of_uint];
    [reflexivity | apply plain_String; [reflexivity|assumption] ..].
Qed.

Lemma number_plain (n : nat) :
  Csv.plain (NilZero.string_of_uint (Nat.to_uint n)) = true.
Proof.
  unfold NilZero.string_of_uint.
  destruct (Nat.to_uint n); try reflexivity; apply digits_plain.
Qed.

Lemma chemistry_plain (ct : string) :
  In ct (map fst CELL_CONFIGS) -> Csv.plain ct = true.
Proof.
  cbn. intros [<-|[<-|[<-|[<-|[]]]]]; reflexivity.
Qed.

Lemma cell_key_plain (i : nat) (ct : string) :
  In ct (map fst CELL_CONFIGS) -> Csv.plain (cell_key i ct) = true.
Proof.
  intro H. unfold cell_key.
  rewrite !plain_app, number_plain, (chemistry_plain _ H). reflexivity.
Qed.

Lemma dict_get_in {V : Type} (d : list (string * V)) (key : string) (v : V) :
  Py.dict_get d key = Some v -> In key (map fst d).
Proof.
  induction d as [|[k u] d IH]; cbn; [discriminate|].
  destruct (String.eqb_spec k key) as [->|_]; [now left|]. intro H. right. now apply IH.
Qed.

Lemma map_entries (f : string * CellRecord -> string * CellRecord) (cells : Registry) :
  (forall e, fst (f e) = fst e /\ cell_type (snd (f e)) = cell_type (snd e)) ->
  Forall entry_ok cells -> Forall entry_ok (map f cells).
Proof.
  intros Hf H. apply Forall_map. eapply Forall_impl; [|exact H].
  intros e [Hk Hc]. destruct (Hf e) as [E1 E2].
  unfold entry_ok, chemistry_ok. now rewrite E1, E2.
Qed.

Lemma refreshed_entries (cells cells' : Registry) :
  Forall2 refreshed cells cells' -> Forall entry_ok cells -> Forall entry_ok cells'.
Proof.
  induction 1 as [|e e' cells cells' (E1 & _ & _ & _ & E2 & _) _ IH]; intro H.
  - constructor.
  - inversion H as [|? ? [Hk Hc] Hrest]; subst. constructor; [|now apply IH].
    unfold entry_ok, chemistry_ok. now rewrite E1, E2.
Qed.

(** The strings of such an entry go into the export as they are. *)
Lemma entry_ok_plain (entry : string * CellRecord) :
  entry_ok entry ->
  Csv.plain (fst entry) = true /\ Csv.plain (cell_type (snd entry)) = true.
Proof.
  intros [Hk Hc]. split; [exact Hk|now apply chemistry_plain].
Qed.

Lemma entries_chemistry (cells : Registry) :
  Forall entry_ok cells -> Forall chemistry_ok cells.
Proof.
  apply Forall_impl. now intros e [_ H].
Qed.

End RegistryEntries.

(** X2. Every registry the configuration page builds has keys that need no
    quoting and chemistries of the table, and the control-panel update, the
    emergency stop and both mock refreshes keep both: they return (no
    [KeyError]) and neither rename a cell nor change its chemistry. *)
Theorem registry_entries (slots : list SlotInput) (w : Py.World)
  (sliders : string -> SliderInput) (cells : Registry) :
  Forall slot_ok slots ->
  Forall entry_ok cells ->
  (exists reg w', configure slots w = Some (reg, w') /\ Forall entry_ok reg) /\
  Forall entry_ok (control_update sliders cells) /\
  Forall entry_ok (emergency_stop cells) /\
  (exists cells' w',
     randomize_values cells w = Some (cells', w') /\
     map fst cells' = map fst cells /\ Forall entry_ok cells') /\
  (exists cells' w',
     monitor_update cells w = Some (cells', w') /\
     map fst cells' = map fst cells /\ Forall entry_ok cells').
Proof.
  intros Hs Hc. repeat apply conj.
  - apply (configure_from_Forall entry_ok); [|assumption|constructor].
    intros i slot config t Hcfg. apply dict_get_in in Hcfg.
    split; [now apply cell_key_plain|exact Hcfg].
  - apply map_entries; [|assumption]. now intros [name data].
  - apply map_entries; [|assumption]. now intros [name data].
  - destruct (for_each_refreshed randomize_cell) with (cells := cells) (w := w)
      as (cells' & w' & E & R).
    + intros entry w0 He. now apply randomize_cell_refreshed.
    + now apply entries_chemistry.
    + exists cells', w'. split; [exact E|]. split; [|eapply refreshed_entries; eassumption].
      clear E. induction R as [|e e' l l' (E1 & _) _ IH]; cbn; [reflexivity|].
      rewrite E1. f_equal. apply IH. now inversion Hc.
  - destruct (for_each_refreshed monitor_cell) with (cells := cells) (w := w)
      as (cells' & w' & E & R).
    + intros entry w0 He. now apply monitor_cell_refreshed.
    + now apply entries_chemistry.
    + exists cells', w'. split; [exact E|]. split; [|eapply refreshed_entries; eassumption].
      clear E. induction R as [|e e' l l' (E1 & _) _ IH]; cbn; [reflexivity|].
      rewrite E1. f_equal. apply IH. now inversion Hc.
Qed.

Lemma example_export_entries : Forall entry_ok example_export.
Proof.
  unfold example_export. repeat apply Forall_cons; try apply Forall_nil.
  all: split; [vm_compute; reflexivity|unfold chemistry_ok; cbn; tauto].
Qed.

Lemma registry_entries_witness :
  (exists reg w',
     configure example_slots (constant_world (1 # 2)) = Some (reg, w') /\
     Forall entry_ok reg) /\
  Forall entry_ok (control_update example_sliders example_export) /\
  Forall entry_ok (emergency_stop example_export) /\
  (exists cells' w',
     randomize_values example_export (constant_world (1 # 2)) = Some (cells', w') /\
     map fst cells' = map fst example_export /\ Forall entry_ok cells') /\
  (exists cells' w',
     monitor_update example_export (constant_world (1 # 2)) = Some (cells', w') /\
     map fst cells' = map fst example_export /\ Forall entry_ok cells').
Proof.
  apply (registry_entries example_slots (constant_world (1 # 2)) example_sliders
           example_export).
  - exact example_slots_ok.
  - exact example_export_entries.
Defined.

(** ** One record per slot *)

Section SlotKeys.

Lemma to_uint_not_nil (n : nat) : Nat.to_uint n <> Decimal.Nil.
Proof.
  rewrite <- (Unsigned.of_to n) at 1. rewrite Unsigned.to_of.
  unfold Decimal.unorm. destruct (Decimal.nzhead (Nat.to_uint n)); discriminate.
Qed.

Lemma number_inj (n m : nat) :
  NilZero.string_of_uint (Nat.to_uint n) = NilZero.string_of_uint (Nat.to_uint m) ->
  n = m.
Proof.
  intro H. apply (f_equal NilZero.uint_of_string) in H.
  rewrite !NilZero.usu in H by apply to_uint_not_nil.
  injection H as H. now apply Unsigned.to_uint_inj.
Qed.

Lemma number_no_underscore (n : nat) :
  Csv.contains "_"%char (NilZero.string_of_uint (Nat.to_uint n)) = false.
Proof.
  unfold NilZero.string_of_uint.
  destruct (Nat.to_uint n) as [|d|d|d|d|d|d|d|d|d|d] eqn:E; [reflexivity|..];
    rewrite <- E; clear E;
    induction (Nat.to_uint n); cbn; auto.
Qed.

(** The index of a key can be read off it. *)
Lemma cell_key_inj (i j : nat) (ct ct' : string) :
  cell_key i ct = cell_key j ct' -> i = j.
Proof.
  unfold cell_key. intro H. cbn [String.append] in H. injection H as H.
  apply (f_equal (Csv.split "_"%char)) in H.
  rewrite !split_app in H by apply number_no_underscore.
  injection H as H _. apply number_inj in H. lia.
Qed.

Lemma dict_set_new (d : Registry) (key : string) (record : CellRecord) :
  ~ In key (map fst d) -> dict_set d key record = (d ++ [(key, record)])%list.
Proof.
  induction d as [|[k r] d IH]; cbn; intro H; [reflexivity|].
  destruct (String.eqb_spec k key) as [->|_].
  - exfalso. apply H. now left.
  - f_equal. apply IH. intro Hin. apply H. now right.
Qed.

Lemma slot_keys_from (i : nat) (slots : list SlotInput) (k : string) :
  In k (slot_keys i slots) -> exists j ct, (i <= j)%nat /\ k = cell_key j ct.
Proof.
  revert i. induction slots as [|slot slots IH]; intros i; cbn; [contradiction|].
  intros [<-|H].
  - exists i, (slot_cell_type slot). split; [lia|reflexivity].
  - destruct (IH (S i) H) as (j & ct & Hj & ->). exists j, ct. split; [lia|reflexivity].
Qed.

Lemma slot_keys_NoDup (i : nat) (slots : list SlotInput) : NoDup (slot_keys i slots).
Proof.
  revert i. induction slots as [|slot slots IH]; intros i; cbn; constructor; [|apply IH].
  intro H. destruct (slot_keys_from _ _ _ H) as (j & ct & Hj & E).
  apply cell_key_inj in E. lia.
Qed.

Lemma slot_keys_length (i : nat) (slots : list SlotInput) :
  List.length (slot_keys i slots) = List.length slots.
Proof.
  revert i. induction slots as [|slot slots IH]; intros i; cbn; [reflexivity|].
  now rewrite IH.
Qed.

(** The loop appends one entry per slot: no key it writes is there already. *)
Lemma configure_from_keys (slots : list SlotInput) :
  Forall slot_ok slots ->
  forall (cells : Registry) (i : nat) (w : Py.World),
    (forall k, In k (map fst cells) -> exists j ct, (j < i)%nat /\ k = cell_key j ct) ->
    exists reg w',
      configure_from cells i slots w = Some (reg, w') /\
      map fst reg = (map fst cells ++ slot_keys i slots)%list.
Proof.
  induction 1 as [|slot slots Hs _ IH]; intros cells i w Hc; cbn [configure_from slot_keys].
  - exists cells, w. split; [reflexivity|now rewrite app_nil_r].
  - destruct (dict_get_some _ _ Hs) as [config Hcfg].
    unfold Py.bind at 1. rewrite (configure_cell_run _ _ _ _ _ Hcfg).
    rewrite dict_set_new.
    2:{ intro Hin. destruct (Hc _ Hin) as (j & ct & Hj & E).
        apply cell_key_inj in E. lia. }
    match goal with
    | |- context [configure_from ?c _ _ ?w1] => destruct (IH c (S i) w1) as (reg & w' & E & K)
    end.
    + intros k Hk. rewrite map_app in Hk. apply in_app_or in Hk. destruct Hk as [Hk|Hk].
      * destruct (Hc _ Hk) as (j & ct & Hj & ->). exists j, ct. split; [lia|reflexivity].
      * cbn in Hk. destruct Hk as [<-|[]]. exists i, (slot_cell_type slot).
        split; [lia|reflexivity].
    + exists reg, w'. split; [exact E|]. rewrite K, map_app. cbn [map fst].
      now rewrite <- app_assoc.
Qed.

End SlotKeys.

(** X5. Configuration creates exactly one record per slot, in slot order:
    slot [i] becomes the entry of key [cell_<i+1>_<chemistry>], and no two
    entries share a key. *)
Theorem configure_one_record_per_slot (slots : list SlotInput) (w : Py.World) :
  Forall slot_ok slots ->
  exists reg w',
    configure slots w = Some (reg, w') /\
    map fst reg = slot_keys 0 slots /\
    List.length reg = List.length slots /\
    NoDup (map fst reg).
Proof.
  intro Hs.
  destruct (configure_from_keys slots Hs [] 0%nat w) as (reg & w' & E & K).
  - intros k [].
  - cbn [map app] in K. exists reg, w'. split; [exact E|]. split; [exact K|]. split.
    + rewrite <- (length_map fst reg), K. apply slot_keys_length.
    + rewrite K. apply slot_keys_NoDup.
Qed.

Lemma configure_one_record_per_slot_witness :
  exists reg w',
    configure example_slots (constant_world (1 # 2)) = Some (reg, w') /\
    map fst reg = slot_keys 0 example_slots /\
    List.length reg = List.length example_slots /\
    NoDup (map fst reg).
Proof.
  apply (configure_one_record_per_slot example_slots (constant_world (1 # 2))).
  exact example_slots_ok.
Defined.

(** ** A freshly configured registry *)

Section Fresh.

Lemma fresh_new (i : nat) (slot : SlotInput) (config : CellConfig) (t : Q) :
  Py.dict_get CELL_CONFIGS (slot_cell_type slot) = Some config ->
  fresh (cell_key i (slot_cell_type slot),
         {| voltage := nominal config;
            current := slot_current slot;
            temp := t;
            capacity := Py.round (nominal config * slot_current slot) 2;
            min_voltage := cfg_min config;
            max_voltage := cfg_max config;
            cell_type := slot_cell_type slot;
            timestamp := None |}).
Proof.
  intro Hc. exists config.
  cbn [snd cell_type voltage min_voltage max_voltage timestamp].
  split; [exact Hc|]. split; [reflexivity|]. split; [reflexivity|].
  split; [reflexivity|]. split; [|reflexivity].
  apply capacity_rounded_stored. reflexivity.
Qed.

Lemma fresh_normal (entry : string * CellRecord) :
  fresh entry -> is_normal (snd entry) = true.
Proof.
  intros (config & Hc & Hv & _). apply is_normal_iff. rewrite Hv.
  revert Hc. generalize (cell_type (snd entry)). intros ct.
  unfold CELL_CONFIGS. cbn [Py.dict_get].
  repeat match goal with
         | |- context [String.eqb ?k ct] => destruct (String.eqb_spec k ct) as [<-|_]
         end;
    intro H; inversion H; subst; reflexivity.
Qed.

End Fresh.

(** X3. Configuration creates every record from its chemistry's profile
    (nominal voltage, bounds copied, capacity of the configured current), so
    every cell classifies Normal and, with at least one slot, health is
    100 %. *)
Theorem configure_fresh (slots : list SlotInput) (w : Py.World) :
  Forall slot_ok slots ->
  exists reg w',
    configure slots w = Some (reg, w') /\
    Forall fresh reg /\
    Forall (fun entry =>
              get_cell_status (voltage (snd entry)) (cell_type (snd entry)) = status_normal)
           reg /\
    (reg <> [] -> exists h, health_percentage reg = Some h /\ h == 100).
Proof.
  intro Hs.
  destruct (configure_from_Forall fresh) with (slots := slots) (cells := @nil (string * CellRecord))
    (i := 0%nat) (w := w) as (reg & w' & E & Hf).
  - intros i slot config t Hc. now apply fresh_new.
  - assumption.
  - constructor.
  - exists reg, w'. split; [exact E|]. split; [exact Hf|].
    assert (Forall (fun entry =>
              get_cell_status (voltage (snd entry)) (cell_type (snd entry)) = status_normal)
              reg) as Hn.
    { eapply Forall_impl; [|exact Hf]. intros e He. apply is_normal_iff.
      now apply fresh_normal. }
    split; [exact Hn|]. intro Hne.
    destruct (health_percentage_run reg Hne) as (h & Eh & Hh).
    exists h. split; [exact Eh|]. rewrite Hh. apply health_all_normal; [assumption|].
    intros entry Hin. apply fresh_normal.
    apply (proj1 (Forall_forall _ _) Hf entry Hin).
Qed.

Lemma configure_fresh_witness :
  exists reg w',
    configure example_slots (constant_world (1 # 2)) = Some (reg, w') /\
    Forall fresh reg /\
    Forall (fun entry =>
              get_cell_status (voltage (snd entry)) (cell_type (snd entry)) = status_normal)
           reg /\
    (reg <> [] -> exists h, health_percentage reg = Some h /\ h == 100).
Proof.
  apply (configure_fresh example_slots (constant_world (1 # 2))).
  exact example_slots_ok.
Defined.

(** ** The example of the specification *)

(** The example, evaluated.  Cell A (LFP, 3.2 V, 2.0 A) is Normal and cell B (NMC, 4.5 V,
    -1.0 A) is Overcharged; their capacities are 6.4 and -4.5; the mean
    voltage is 3.85 V, the total current 1.0 A and the health 50 %. *)
Example specification_example :
  map (fun entry =>
         (fst entry, fst (get_cell_status (voltage (snd entry)) (cell_type (snd entry)))))
      (control_update spec_sliders example_registry)
  = [("A", "✅ Normal"); ("B", "⚠️ Overcharged")] /\
  Forall2 (fun entry c => capacity (snd entry) == c)
    (control_update spec_sliders example_registry) [6.4; -4.5] /\
  (exists m, avg_voltage (control_update spec_sliders example_registry) = Some m /\
             m == 3.85) /\
  total_current (control_update spec_sliders example_registry) == 1.0 /\
  (exists h, health_percentage (control_update spec_sliders example_registry) = Some h /\
             h == 50).
Proof.
  split; [reflexivity|]. split; [repeat constructor|].
  split; [eexists; split; reflexivity|]. split; [reflexivity|].
  eexists; split; reflexivity.
Qed.

(** ** The classifier on IEEE doubles *)

Section IEEEClassifier.

Lemma SFcompare_antisym (x y : spec_float) (c : comparison) :
  SFcompare x y = Some c -> SFcompare y x = Some (CompOpp c).
Proof.
  destruct x as [sx|sx| |sx mx ex], y as [sy|sy| |sy my ey]; cbn;
    try discriminate;
    try (intro H; injection H as <-; try destruct sx; try destruct sy; reflexivity).
  intro H. injection H as <-. f_equal.
  rewrite (Z.compare_antisym ex ey).
  change (Pos.compare_cont Eq my mx) with (Pos.compare my mx).
  change (Pos.compare_cont Eq mx my) with (Pos.compare mx my).
  rewrite (Pos.compare_antisym mx my).
  destruct sx, sy, (ex ?= ey)%Z, (mx ?= my)%positive; reflexivity.
Qed.

Lemma SFcompare_nan_r (x : spec_float) : SFcompare x S754_nan = None.
Proof. now destruct x. Qed.

Lemma SFcompare_defined (x y : spec_float) :
  x <> S754_nan -> y <> S754_nan -> exists c, SFcompare x y = Some c.
Proof.
  destruct x, y; cbn; intros Hx Hy; try contradiction; eexists; reflexivity.
Qed.

Lemma SFcompare_refl (x : spec_float) : x <> S754_nan -> SFcompare x x = Some Eq.
Proof.
  destruct x as [s|s| |s m e]; cbn; intro H; try contradiction; try reflexivity.
  - now destruct s.
  - f_equal. rewrite Z.compare_refl.
    change (Pos.compare_cont Eq m m) with (Pos.compare m m).
    rewrite Pos.compare_refl. now destruct s.
Qed.

Lemma is_nan_spec (v : float) : is_nan v = true <-> Prim2SF v = S754_nan.
Proof.
  unfold is_nan. rewrite eqb_spec, negb_true_iff. unfold SFeqb. split.
  - intro H. destruct (Prim2SF v) eqn:E; try reflexivity;
      rewrite SFcompare_refl in H by discriminate; discriminate.
  - now intros ->.
Qed.

(** A threshold is a number. *)
Lemma thresholds_not_nan (cell_type : string) :
  Prim2SF (IEEE.cfg_min (IEEE.config_for cell_type)) <> S754_nan /\
  Prim2SF (IEEE.cfg_max (IEEE.config_for cell_type)) <> S754_nan.
Proof.
  unfold IEEE.config_for, Py.dict_get_default, IEEE.CELL_CONFIGS. cbn [Py.dict_get].
  repeat match goal with
         | |- context [String.eqb ?k ?key] => destruct (String.eqb k key)
         end;
    split; vm_compute; discriminate.
Qed.

End IEEEClassifier.

(** X4. On IEEE doubles the fourth branch is taken by a NaN voltage and by
    nothing else: every other voltage, the infinities included, is Critical,
    Overcharged or Normal. *)
Theorem ieee_warning_iff_nan (v : float) (c : string) :
  IEEE.get_cell_status v c = status_warning <-> is_nan v = true.
Proof.
  destruct (thresholds_not_nan c) as [Hlo Hhi].
  pose proof statuses_distinct as (D1 & D2 & D3 & D4 & D5 & D6).
  rewrite is_nan_spec. unfold IEEE.get_cell_status.
  rewrite !ltb_spec, !leb_spec. unfold SFltb, SFleb.
  set (lo := Prim2SF (IEEE.cfg_min (IEEE.config_for c))) in *.
  set (hi := Prim2SF (IEEE.cfg_max (IEEE.config_for c))) in *.
  set (x := Prim2SF v) in *.
  assert (x = S754_nan \/ x <> S754_nan) as [E|E]
    by (destruct x; (now left) || (right; discriminate)).
  - rewrite E, !SFcompare_nan_r. cbn. tauto.
  - destruct (SFcompare_defined x lo E Hlo) as [c1 E1].
    destruct (SFcompare_defined hi x Hhi E) as [c2 E2].
    rewrite E1, E2, (SFcompare_antisym _ _ _ E1), (SFcompare_antisym _ _ _ E2).
    destruct c1, c2; cbn; split; intro H; congruence.
Qed.

(** The infinities are classified, a NaN is not. *)
Example ieee_examples :
  IEEE.get_cell_status 3.2 "lfp" = status_normal /\
  IEEE.get_cell_status infinity "lfp" = status_overcharged /\
  IEEE.get_cell_status neg_infinity "lfp" = status_critical /\
  IEEE.get_cell_status nan "lfp" = status_warning.
Proof.
  repeat split; vm_compute; reflexivity.
Qed.

(** ** The history of snapshots, exactly *)

Section HistoryContent.

Lemma last_n_all {A : Type} (n : nat) (l : list A) :
  (List.length l <= n)%nat -> Py.last_n n l = l.
Proof.
  intro H. unfold Py.last_n. replace (List.length l - n)%nat with 0%nat by lia.
  reflexivity.
Qed.

(** Cutting before appending loses nothing that cutting afterwards keeps. *)
Lemma last_n_app (n : nat) {A : Type} (l r : list A) :
  Py.last_n n (Py.last_n n l ++ r) = Py.last_n n (l ++ r).
Proof.
  destruct (Nat.le_gt_cases (List.length l) n) as [H|H].
  - now rewrite (last_n_all n l H).
  - unfold Py.last_n. rewrite !length_app, length_skipn, !skipn_app, skipn_skipn, length_skipn.
    f_equal; f_equal; lia.
Qed.

Lemma monitor_cycles_content (snapshots h : list Snapshot) :
  (List.length h <= 100)%nat ->
  monitor_cycles h snapshots = Py.last_n 100 (h ++ snapshots).
Proof.
  unfold monitor_cycles. revert h.
  induction snapshots as [|s snapshots IH]; intros h Hh; cbn [fold_left].
  - rewrite app_nil_r. symmetry. now apply last_n_all.
  - rewrite IH by (rewrite store_snapshot_length; lia).
    rewrite store_snapshot_last_n, last_n_app, <- app_assoc. reflexivity.
Qed.

End HistoryContent.

(** X6. After any run of monitor cycles from the empty history, the history is
    exactly the last 100 snapshots taken (all of them when fewer), oldest
    first; so it holds [min (n, 100)] snapshots after [n] cycles. *)
Theorem historical_data_content (snapshots : list Snapshot) :
  monitor_cycles [] snapshots = Py.last_n 100 snapshots /\
  List.length (monitor_cycles [] snapshots) = Nat.min 100 (List.length snapshots) /\
  (forall rest newest,
     snapshots = (rest ++ [newest])%list ->
     exists older, monitor_cycles [] snapshots = (older ++ [newest])%list).
Proof.
  assert (monitor_cycles [] snapshots = Py.last_n 100 snapshots) as E.
  { rewrite monitor_cycles_content by (cbn; lia). reflexivity. }
  split; [exact E|]. split.
  - rewrite E. apply last_n_length.
  - intros rest newest ->. rewrite E. unfold Py.last_n.
    rewrite length_app. cbn [List.length].
    rewrite skipn_app.
    replace (List.length rest + 1 - 100 - List.length rest)%nat with 0%nat by lia.
    cbn [skipn]. eexists. reflexivity.
Qed.

(** ** Emergency stop and the other operations *)

Section EmergencyStopComposes.

Lemma sum_zero_from (xs : list Q) (acc : Q) :
  Forall (fun x => x == 0) xs -> fold_left Qplus xs acc == acc.
Proof.
  intro H. revert acc. induction H as [|x xs Hx _ IH]; intro acc; cbn [fold_left].
  - reflexivity.
  - rewrite IH, Hx. ring.
Qed.

Lemma emergency_stop_healthy (cells : Registry) :
  healthy_cells (emergency_stop cells) = healthy_cells cells.
Proof.
  rewrite !healthy_cells_count. unfold emergency_stop.
  induction cells as [|[name data] cells IH]; cbn [map filter]; [reflexivity|].
  change (is_normal (snd (emergency_stop_cell (name, data))))
    with (is_normal (snd (name, data))).
  destruct (is_normal (snd (name, data))); cbn [List.length]; now rewrite IH.
Qed.

End EmergencyStopComposes.

(** X7. Emergency stop zeroes the totals and nothing else the pages derive: the
    health percentage and the mean voltage and temperature are those of the
    registry before; stopping twice is stopping once; and the next
    control-panel update overwrites the stop with the slider readings. *)
Theorem emergency_stop_composes (sliders : string -> SliderInput) (cells : Registry) :
  total_power (emergency_stop cells) == 0 /\
  total_current (emergency_stop cells) == 0 /\
  health_percentage (emergency_stop cells) = health_percentage cells /\
  avg_voltage (emergency_stop cells) = avg_voltage cells /\
  avg_temp (emergency_stop cells) = avg_temp cells /\
  emergency_stop (emergency_stop cells) = emergency_stop cells /\
  control_update sliders (emergency_stop cells) = control_update sliders cells.
Proof.
  repeat apply conj.
  - unfold total_power, Py.sum, emergency_stop. rewrite map_map. apply sum_zero_from.
    apply Forall_map, Forall_forall. now intros [name data] _.
  - unfold total_current, emergency_stop. rewrite map_map. apply sum_zero_from.
    apply Forall_map, Forall_forall. now intros [name data] _.
  - unfold health_percentage. rewrite emergency_stop_healthy.
    unfold emergency_stop. now rewrite length_map.
  - unfold avg_voltage, emergency_stop. rewrite map_map. f_equal.
    apply map_ext. now intros [name data].
  - unfold avg_temp, emergency_stop. rewrite map_map. f_equal.
    apply map_ext. now intros [name data].
  - unfold emergency_stop. rewrite map_map. apply map_ext. now intros [name data].
  - unfold control_update, emergency_stop. rewrite map_map. apply map_ext.
    now intros [name data].
Qed.

(** ** The health indicator *)

Section HealthBanner.

Lemma scaled_ratio_le (k c l : Q) :
  0 < l -> (k <= c / l * 100 <-> k * l <= 100 * c).
Proof.
  intro Hl. assert (c / l * 100 * l == 100 * c) as E by (field; lra).
  rewrite <- E. symmetry. now apply Qmult_le_r.
Qed.

Lemma count_normal_le (cells : Registry) :
  (count_normal cells <= List.length cells)%nat.
Proof.
  unfold count_normal. apply filter_length_le.
Qed.

Lemma nat_ratio_le (k : Z) (c l : nat) :
  inject_Z k * inject_Z (Z.of_nat l) <= 100 * inject_Z (Z.of_nat c) <->
  (k * Z.of_nat l <= 100 * Z.of_nat c)%Z.
Proof.
  change 100 with (inject_Z 100). rewrite <- !inject_Z_mult, <- Zle_Qle. reflexivity.
Qed.

Lemma health_banner_cases (h : Q) :
  (80 <= h /\ health_banner h = (success, "🟢 System Running Optimally")) \/
  (60 <= h /\ h < 80 /\ health_banner h = (warning, "🟡 System Needs Attention")) \/
  (h < 60 /\ health_banner h = (error, "🔴 Critical System Issues")).
Proof.
  unfold health_banner.
  destruct (Qle_bool 80 h) eqn:E1; reflect_cmp; [now left|].
  destruct (Qle_bool 60 h) eqn:E2; reflect_cmp; [right; left|right; right]; tauto.
Qed.

End HealthBanner.

(** X8. The health indicator in cell counts.  On a non-empty registry the
    percentage is between 0 and 100, and the banner is "Running Optimally"
    exactly when at least four cells in five are Normal, "Needs Attention"
    when at least three in five are, "Critical System Issues" below that. *)
Theorem health_banner_thresholds (cells : Registry) :
  cells <> [] ->
  exists h,
    health_percentage cells = Some h /\
    0 <= h /\ h <= 100 /\
    (fst (health_banner h) = success <->
       (4 * List.length cells <= 5 * count_normal cells)%nat) /\
    (fst (health_banner h) = warning <->
       (3 * List.length cells <= 5 * count_normal cells
        /\ 5 * count_normal cells < 4 * List.length cells)%nat) /\
    (fst (health_banner h) = error <->
       (5 * count_normal cells < 3 * List.length cells)%nat).
Proof.
  intro Hne. destruct (health_percentage_run cells Hne) as (h & Eh & Hh).
  pose proof (length_pos_Q cells Hne) as Hpos.
  pose proof (count_normal_le cells) as Hle.
  rewrite <- (filter_ext _ _ classified_normal_is_normal) in Hh.
  fold (count_normal cells) in Hh.
  assert (forall k : Z, inject_Z k <= h <->
            (k * Z.of_nat (List.length cells) <= 100 * Z.of_nat (count_normal cells))%Z) as Hk.
  { intro k. rewrite Hh, scaled_ratio_le by assumption. apply nat_ratio_le. }
  exists h. split; [exact Eh|].
  assert (0 < List.length cells)%nat as Hlen by (destruct cells; [contradiction|cbn; lia]).
  assert (0 <= h) as H0 by (apply (Hk 0%Z); lia).
  assert (h <= 100) as H100.
  { assert (inject_Z (Z.of_nat (count_normal cells))
            / inject_Z (Z.of_nat (List.length cells)) <= 1) as Hq.
    { apply Qle_shift_div_r; [assumption|]. rewrite Qmult_1_l, <- Zle_Qle. lia. }
    rewrite Hh. revert Hq.
    generalize (inject_Z (Z.of_nat (count_normal cells))
                / inject_Z (Z.of_nat (List.length cells))).
    intros q Hq. lra. }
  split; [exact H0|]. split; [exact H100|].
  pose proof (Hk 80%Z) as H80. pose proof (Hk 60%Z) as H60.
  change (inject_Z 80) with 80 in H80. change (inject_Z 60) with 60 in H60.
  destruct (health_banner_cases h) as [[A E]|[(A & B & E)|[A E]]]; rewrite E; cbn [fst].
  - apply H80 in A. repeat apply conj; intro X; try discriminate; try reflexivity; lia.
  - apply H60 in A. assert (~ 80 <= h) as B' by lra. rewrite H80 in B'.
    repeat apply conj; intro X; try discriminate; try reflexivity; lia.
  - assert (~ 60 <= h) as A' by lra. rewrite H60 in A'.
    repeat apply conj; intro X; try discriminate; try reflexivity; lia.
Qed.

Lemma health_banner_thresholds_witness :
  exists h,
    health_percentage example_registry = Some h /\
    0 <= h /\ h <= 100 /\
    (fst (health_banner h) = success <->
       (4 * List.length example_registry <= 5 * count_normal example_registry)%nat) /\
    (fst (health_banner h) = warning <->
       (3 * List.length example_registry <= 5 * count_normal example_registry
        /\ 5 * count_normal example_registry < 4 * List.length example_registry)%nat) /\
    (fst (health_banner h) = error <->
       (5 * count_normal example_registry < 3 * List.length example_registry)%nat).
Proof.
  apply (health_banner_thresholds example_registry). discriminate.
Defined.

(** ** Chemistry identifiers *)

Section Chemistries.

(** The keys of the table are in lower case, so the classifier's lookup and
    the pages' [CELL_CONFIGS[...]] agree on them. *)
Lemma config_for_key (ct : string) (config : CellConfig) :
  Py.dict_get CELL_CONFIGS ct = Some config -> config_for ct = config.
Proof.
  unfold CELL_CONFIGS. cbn [Py.dict_get].
  repeat match goal with
         | |- context [String.eqb ?k ct] => destruct (String.eqb_spec k ct) as [<-|_]
         end;
    intro H; inversion H; subst; reflexivity.
Qed.

Lemma lower_upper_ascii (a : ascii) :
  Py.lower_ascii (Py.upper_ascii a) = Py.lower_ascii a.
Proof.
  destruct a as [[] [] [] [] [] [] [] []]; reflexivity.
Qed.

Lemma lower_upper (s : string) : Py.lower (Py.upper s) = Py.lower s.
Proof.
  induction s as [|a s IH]; cbn [Py.upper Py.lower]; [reflexivity|].
  now rewrite lower_upper_ascii, IH.
Qed.

Lemma get_cell_status_upper (v : Q) (ct : string) :
  get_cell_status v (Py.upper ct) = get_cell_status v ct.
Proof.
  unfold get_cell_status, config_for. now rewrite lower_upper.
Qed.

Lemma known_config_max (config : CellConfig) :
  known_config config -> 0 < cfg_max config.
Proof.
  intros []; reflexivity.
Qed.

Lemma chemistry_ok_dec (entry : string * CellRecord) :
  chemistry_ok entry \/ Py.dict_get CELL_CONFIGS (cell_type (snd entry)) = None.
Proof.
  unfold chemistry_ok.
  destruct (in_dec string_dec (cell_type (snd entry)) (map fst CELL_CONFIGS)) as [H|H].
  - now left.
  - right. now apply dict_get_none.
Qed.

Lemma dict_get_not_in (ct : string) :
  Py.dict_get CELL_CONFIGS ct = None -> ~ In ct (map fst CELL_CONFIGS).
Proof.
  intros E H. destruct (dict_get_some _ _ H) as [config Hc]. congruence.
Qed.

End Chemistries.

(** ** Loops over the registry *)

Section ForEach.

Context {A B : Type}.
Variable body : A -> Py.M B.
Variable ok : A -> Prop.
Variable inv : Py.World -> Prop.
Variable post : A -> B -> Prop.

Hypothesis body_run :
  forall x w, ok x -> inv w ->
    exists y w', body x w = Some (y, w') /\ inv w' /\ post x y.

(** A loop whose body returns on every element returns, with one result per
    element, in order. *)
Lemma for_each_run (items : list A) :
  Forall ok items ->
  forall w, inv w ->
    exists ys w', Py.for_each body items w = Some (ys, w') /\ inv w' /\ Forall2 post items ys.
Proof.
  induction 1 as [|x items Hx _ IH]; intros w Hw; cbn [Py.for_each].
  - exists [], w. repeat split; [assumption|constructor].
  - destruct (body_run x w Hx Hw) as (y & w1 & E1 & I1 & P1).
    destruct (IH w1 I1) as (ys & w2 & E2 & I2 & P2).
    exists (y :: ys), w2. unfold Py.bind. rewrite E1, E2.
    repeat split; [assumption|constructor; assumption].
Qed.

End ForEach.

Section ForEachRaises.

Context {A B : Type}.
Variable body : A -> Py.M B.
Variable bad : A -> Prop.

Hypothesis body_raises : forall x w, bad x -> body x w = None.

(** A loop whose body raises on some element raises. *)
Lemma for_each_raises (items : list A) :
  Exists bad items -> forall w, Py.for_each body items w = None.
Proof.
  induction 1 as [x items Hx|x items _ IH]; intro w; cbn [Py.for_each]; unfold Py.bind.
  - now rewrite (body_raises x w Hx).
  - destruct (body x w) as [[y w1]|]; [|reflexivity]. now rewrite IH.
Qed.

End ForEachRaises.

(** ** Mock telemetry, draw by draw *)

Section MockDraws.

Lemma two_decimals_round (x : Q) : two_decimals (Py.round x 2).
Proof.
  exists (Py.round_half_even (x * Py.pow10 2)).
  change 100 with (Py.pow10 2). apply round_scaled.
Qed.

Lemma voltage_draw (bv r : Q) :
  0 <= r -> r < 1 ->
  Qabs (Py.round (bv + (-0.1 + (0.1 - -0.1) * r)) 2 - bv) <= 0.105 /\
  (two_decimals bv -> Qabs (Py.round (bv + (-0.1 + (0.1 - -0.1) * r)) 2 - bv) <= 0.1).
Proof.
  intros H0 H1. split.
  - assert (0.105 == 0.1 + 0.005) as -> by reflexivity.
    apply jitter_round_wide; lra.
  - intros [k Hk].
    pose proof (jitter_round_exact bv (-0.1 + (0.1 - -0.1) * r) k 10 Hk) as H.
    change (inject_Z 10) with 10 in H.
    assert (- (10) <= (-0.1 + (0.1 - -0.1) * r) * 100) as Hl by lra.
    assert ((-0.1 + (0.1 - -0.1) * r) * 100 <= 10) as Hu by lra.
    specialize (H Hl Hu). lra.
Qed.

Lemma current_draw (bc r : Q) :
  0 <= r -> r < 1 ->
  Qabs (Py.round (bc + (-0.5 + (0.5 - -0.5) * r)) 2 - bc) <= 0.505 /\
  (two_decimals bc -> Qabs (Py.round (bc + (-0.5 + (0.5 - -0.5) * r)) 2 - bc) <= 0.5).
Proof.
  intros H0 H1. split.
  - assert (0.505 == 0.5 + 0.005) as -> by reflexivity.
    apply jitter_round_wide; lra.
  - intros [k Hk].
    pose proof (jitter_round_exact bc (-0.5 + (0.5 - -0.5) * r) k 50 Hk) as H.
    change (inject_Z 50) with 50 in H.
    assert (- (50) <= (-0.5 + (0.5 - -0.5) * r) * 100) as Hl by lra.
    assert ((-0.5 + (0.5 - -0.5) * r) * 100 <= 50) as Hu by lra.
    specialize (H Hl Hu). lra.
Qed.

Lemma temp_draw (r : Q) :
  0 <= r -> r < 1 ->
  25 <= Py.round (25 + (45 - 25) * r) 1 <= 45.
Proof.
  intros H0 H1.
  assert (inject_Z 250 <= Py.round (25 + (45 - 25) * r) 1 * 10 <= inject_Z 450) as [T1 T2].
  { apply (round_between 250 450 _ 1); change (Py.pow10 1) with 10.
    - change (inject_Z 250) with 250. lra.
    - change (inject_Z 450) with 450. lra. }
  change (inject_Z 250) with 250 in T1. change (inject_Z 450) with 450 in T2.
  split; lra.
Qed.

Lemma known_config_decimals (config : CellConfig) :
  known_config config -> two_decimals (nominal config).
Proof.
  intros []; [exists 320%Z|exists 360%Z|exists 240%Z|exists 370%Z]; reflexivity.
Qed.

Lemma known_config_margin (config : CellConfig) (v : Q) :
  known_config config -> Qabs (v - nominal config) <= 0.1 ->
  cfg_min config <= v <= cfg_max config.
Proof.
  intros Hk Hv. apply Qabs_Qle_condition in Hv. destruct Hv as [H1 H2].
  destruct Hk; cbn [cfg_min cfg_max nominal lfp_config nmc_config lto_config lco_config] in *;
    split; lra.
Qed.

Lemma normal_between (ct : string) (v : Q) :
  cfg_min (config_for ct) <= v <= cfg_max (config_for ct) ->
  get_cell_status v ct = status_normal.
Proof.
  intros [H1 H2].
  destruct (get_cell_status_cases v ct) as [[A _]|[[A _]|[_ E]]]; [lra|lra|exact E].
Qed.

Lemma rng_ok_next (w : Py.World) (n m : nat) :
  Py.rng_ok w -> Py.rng_ok (Py.mkWorld (Py.rng w) n (Py.clock w) m).
Proof.
  intros H k. exact (H k).
Qed.

Lemma randomize_cell_run (entry : string * CellRecord) (w : Py.World) :
  chemistry_ok entry -> Py.rng_ok w ->
  exists new w',
    randomize_cell entry w = Some (new, w') /\ Py.rng_ok w' /\
    (randomized entry new /\ normal new).
Proof.
  destruct entry as [name data]. intros H Hw.
  destruct (dict_get_some _ _ H) as [config Hc]. cbn [snd] in Hc.
  pose proof (dict_get_known _ _ Hc) as Hk.
  unfold randomize_cell, Py.bind at 1. rewrite Hc. cbn [Py.lift Py.ret].
  unfold Py.bind. rewrite generate_mock_data_run.
  destruct (Hw (Py.rng_pos w)) as [A1 A2].
  destruct (Hw (S (Py.rng_pos w))) as [B1 B2].
  destruct (Hw (S (S (Py.rng_pos w)))) as [C1 C2].
  destruct (voltage_draw (nominal config) _ A1 A2) as [_ V].
  specialize (V (known_config_decimals _ Hk)).
  eexists. eexists. split; [reflexivity|]. split; [now apply rng_ok_next|].
  unfold randomized, normal, update. cbn [fst snd voltage current temp cell_type capacity
    min_voltage max_voltage timestamp mock_voltage mock_current mock_temp mock_timestamp].
  split; [split; [|split; [|split]]|].
  - repeat split. discriminate.
  - exists config. split; [exact Hc|exact V].
  - apply current_draw; assumption.
  - apply temp_draw; assumption.
  - apply normal_between. rewrite (config_for_key _ _ Hc).
    now apply known_config_margin.
Qed.

Lemma monitor_cell_run (entry : string * CellRecord) (w : Py.World) :
  chemistry_ok entry -> Py.rng_ok w ->
  exists new w',
    monitor_cell entry w = Some (new, w') /\ Py.rng_ok w' /\ monitored entry new.
Proof.
  destruct entry as [name data]. intros H Hw.
  destruct (dict_get_some _ _ H) as [config Hc]. cbn [snd] in Hc.
  unfold monitor_cell, Py.bind at 1. rewrite Hc. cbn [Py.lift Py.ret].
  unfold Py.bind. rewrite generate_mock_data_run.
  destruct (Hw (Py.rng_pos w)) as [A1 A2].
  destruct (Hw (S (Py.rng_pos w))) as [B1 B2].
  destruct (Hw (S (S (Py.rng_pos w)))) as [C1 C2].
  destruct (voltage_draw (voltage data) _ A1 A2) as [V1 V2].
  destruct (current_draw (current data) _ B1 B2) as [I1 I2].
  eexists. eexists. split; [reflexivity|]. split; [now apply rng_ok_next|].
  unfold monitored, update. cbn [fst snd voltage current temp cell_type capacity
    min_voltage max_voltage timestamp mock_voltage mock_current mock_temp mock_timestamp].
  split; [repeat split; discriminate|].
  split; [exact V1|]. split; [exact I1|]. split; [exact V2|]. split; [exact I2|].
  split; [apply two_decimals_round|]. split; [apply two_decimals_round|].
  apply temp_draw; assumption.
Qed.

Lemma randomize_cell_raises (entry : string * CellRecord) (w : Py.World) :
  ~ chemistry_ok entry -> randomize_cell entry w = None.
Proof.
  destruct entry as [name data]. intro H.
  pose proof (dict_get_none CELL_CONFIGS _ H) as E. cbn [snd] in E.
  unfold randomize_cell, Py.bind. now rewrite E.
Qed.

Lemma monitor_cell_raises (entry : string * CellRecord) (w : Py.World) :
  ~ chemistry_ok entry -> monitor_cell entry w = None.
Proof.
  destruct entry as [name data]. intro H.
  pose proof (dict_get_none CELL_CONFIGS _ H) as E. cbn [snd] in E.
  unfold monitor_cell, Py.bind. now rewrite E.
Qed.

End MockDraws.

(** ** The control panel, as a page *)

Section ControlPanelPage.

Lemma Forall2_right {A B : Type} (P : B -> Prop) (R : A -> B -> Prop) (l : list A) (l' : list B) :
  (forall x y, R x y -> P y) -> Forall2 R l l' -> Forall P l'.
Proof.
  intros H. induction 1; constructor; eauto.
Qed.

Lemma Forall2_weaken {A B : Type} (R S : A -> B -> Prop) (l : list A) (l' : list B) :
  (forall x y, R x y -> S x y) -> Forall2 R l l' -> Forall2 S l l'.
Proof.
  intros H. induction 1; constructor; eauto.
Qed.

Lemma Forall2_nonempty {A B : Type} (R : A -> B -> Prop) (l : list A) (l' : list B) :
  Forall2 R l l' -> l <> [] -> l' <> [].
Proof.
  intros HR Hne. destruct HR; [contradiction|discriminate].
Qed.

Lemma all_normal_health (cells : Registry) :
  cells <> [] -> Forall normal cells ->
  exists h,
    health_percentage cells = Some h /\ h == 100 /\
    health_banner h = (success, "🟢 System Running Optimally").
Proof.
  intros Hne Hn. destruct (health_percentage_run cells Hne) as (h & Eh & Hh).
  exists h. split; [exact Eh|].
  assert (h == 100) as E.
  { rewrite Hh. apply health_all_normal; [assumption|].
    intros entry Hin. apply is_normal_iff.
    exact (proj1 (Forall_forall _ _) Hn entry Hin). }
  split; [exact E|]. unfold health_banner.
  assert (Qle_bool 80 h = true) as -> by (apply Qle_bool_iff; lra).
  reflexivity.
Qed.

Lemma control_update_chemistry (sliders : string -> SliderInput) (cells : Registry) :
  Forall chemistry_ok cells -> Forall chemistry_ok (control_update sliders cells).
Proof.
  intro H. unfold control_update. apply Forall_map.
  eapply Forall_impl; [|exact H]. now intros [name data].
Qed.

Lemma control_update_nonempty (sliders : string -> SliderInput) (cells : Registry) :
  cells <> [] -> control_update sliders cells <> [].
Proof.
  destruct cells; [contradiction|discriminate].
Qed.

Lemma emergency_stop_nonempty (cells : Registry) :
  cells <> [] -> emergency_stop cells <> [].
Proof.
  destruct cells; [contradiction|discriminate].
Qed.

(** A slider reading between the bounds of the record is a Normal voltage
    for the chemistry of the record. *)
Lemma control_update_normal (sliders : string -> SliderInput) (cells : Registry) :
  Forall bounds_match cells -> Forall (slider_in_range sliders) cells ->
  Forall normal (control_update sliders cells).
Proof.
  intros Hb Hs. unfold control_update. apply Forall_map.
  apply Forall_forall. intros [name data] Hin.
  destruct (proj1 (Forall_forall _ _) Hb _ Hin) as (config & Hc & Hmin & Hmax).
  destruct (proj1 (Forall_forall _ _) Hs _ Hin) as [H1 H2].
  cbn [fst snd] in *. unfold normal. cbn [control_update_cell snd voltage cell_type].
  apply normal_between. rewrite (config_for_key _ _ Hc), <- Hmin, <- Hmax. now split.
Qed.

Lemma emergency_stop_normal (cells : Registry) :
  Forall normal cells -> Forall normal (emergency_stop cells).
Proof.
  intro H. unfold emergency_stop. apply Forall_map.
  eapply Forall_impl; [|exact H]. now intros [name data].
Qed.

Lemma control_panel_rendered (sliders : string -> SliderInput)
  (apply_changes emergency_stop_pressed : bool) (session : Registry) (w : Py.World) (h : Q) :
  session <> [] ->
  let cells := if emergency_stop_pressed
               then emergency_stop (control_update sliders session)
               else control_update sliders session in
  health_percentage cells = Some h ->
  control_panel sliders apply_changes false emergency_stop_pressed session w =
  Some ((cells, Rendered {| shown_cells := cells;
                            shown_emergency := emergency_stop_pressed;
                            shown_total_power := total_power cells;
                            shown_health := h;
                            shown_banner := health_banner h |}), w).
Proof.
  intros Hne cells Hh. destruct session as [|entry session]; [contradiction|].
  unfold control_panel, Py.bind. fold cells. rewrite Hh. reflexivity.
Qed.

Lemma Forall2_map_in {A B : Type} (R : A -> B -> Prop) (f : A -> B) (l : list A) :
  (forall x, In x l -> R x (f x)) -> Forall2 R l (map f l).
Proof.
  induction l as [|a l IH]; intro H; cbn [map]; constructor.
  - apply H. now left.
  - apply IH. intros x Hx. apply H. now right.
Qed.

Lemma Forall2_left {A B : Type} (P : A -> Prop) (Q : B -> Prop) (R : A -> B -> Prop)
  (l : list A) (l' : list B) :
  (forall x y, R x y -> Q y -> P x) -> Forall2 R l l' -> Forall Q l' -> Forall P l.
Proof.
  intros H HR. induction HR as [|x y l l' Hxy _ IH]; intro HQ; constructor;
    inversion HQ; subst; eauto.
Qed.

Lemma Forall2_right_from {A B : Type} (P : A -> Prop) (Q : B -> Prop) (R : A -> B -> Prop)
  (l : list A) (l' : list B) :
  (forall x y, R x y -> P x -> Q y) -> Forall2 R l l' -> Forall P l -> Forall Q l'.
Proof.
  intros H HR. induction HR as [|x y l l' Hxy _ IH]; intro HP; constructor;
    inversion HP; subst; eauto.
Qed.

Lemma filter_length_all {A : Type} (f : A -> bool) (l : list A) :
  List.length (filter f l) = List.length l -> Forall (fun x => f x = true) l.
Proof.
  induction l as [|a l IH]; cbn [filter List.length]; intro H; [constructor|].
  destruct (f a) eqn:E.
  - cbn [List.length] in H. constructor; [exact E|]. apply IH. lia.
  - pose proof (filter_length_le f l). lia.
Qed.

(** Health is 100 % exactly when every cell is Normal. *)
Lemma health_full (cells : Registry) (h : Q) :
  cells <> [] -> health_percentage cells = Some h ->
  (h == 100 <-> Forall normal cells).
Proof.
  intros Hne Eh. split.
  - intro H100. destruct (health_percentage_run cells Hne) as (h' & Eh' & Hh).
    rewrite Eh in Eh'. injection Eh' as <-.
    pose proof (length_pos_Q cells Hne) as Hpos.
    assert (100 <= h) as Hle by lra. rewrite Hh in Hle.
    apply scaled_ratio_le in Hle; [|assumption].
    change 100 with (inject_Z 100) in Hle.
    rewrite <- !inject_Z_mult, <- Zle_Qle in Hle.
    pose proof (filter_length_le (fun entry => is_normal (snd entry)) cells) as Hf.
    assert (List.length (filter (fun entry => is_normal (snd entry)) cells)
            = List.length cells) as E by lia.
    apply filter_length_all in E. eapply Forall_impl; [|exact E].
    intros e He. now apply is_normal_iff.
  - intro Hn. destruct (all_normal_health cells Hne Hn) as (h' & Eh' & H100 & _).
    rewrite Eh in Eh'. now injection Eh' as <-.
Qed.

(** The classifier on a record whose voltage is the slider reading and whose
    bounds are those of its chemistry. *)
Lemma judged_reading (sliders : string -> SliderInput) (old new : string * CellRecord) :
  bounds_match old ->
  voltage (snd new) = new_voltage (sliders (fst old)) ->
  cell_type (snd new) = cell_type (snd old) ->
  judged sliders old new.
Proof.
  intros (config & Hc & Hmin & Hmax) Hv Ht.
  pose proof (known_config_ordered _ (dict_get_known _ _ Hc)) as [O1 O2].
  unfold judged, normal, slider_in_range. rewrite Hv, Ht, Hmin, Hmax.
  pose proof (config_for_key _ _ Hc) as Ek.
  pose proof statuses_distinct as (D1 & D2 & _ & D4 & _).
  destruct (get_cell_status_cases (new_voltage (sliders (fst old))) (cell_type (snd old)))
    as [[A E]|[[A E]|[[A1 A2] E]]]; rewrite Ek in *; rewrite E.
  - split; [reflexivity|]. split; [split; [intros _; exact A|reflexivity]|].
    split; split; intro H; try lra; try congruence.
  - split; [reflexivity|]. split; [split; intro H; [congruence|lra]|].
    split; [split; [intros _; exact A|reflexivity]|].
    split; intro H; [congruence|lra].
  - split; [reflexivity|]. split; [split; intro H; [congruence|lra]|].
    split; [split; intro H; [congruence|lra]|].
    split; [intros _; now split|reflexivity].
Qed.

End ControlPanelPage.

(** X9. What the control panel shows is decided by the slider readings.  On
    a non-empty registry whose records carry the bounds of their chemistry, a
    run without "Randomize Values" computes its status column without a draw
    of the generator or a reading of the clock.  Afterwards the voltage of
    every record is its slider reading, whatever it was before, and the cell
    is Critical, Overcharged or Normal as that reading lies below, above or
    within the [min_value] and [max_value] the slider was given; health is
    100 % exactly when every reading lies within them; and with Emergency
    Stop the total power is 0. *)
Theorem control_panel_health (sliders : string -> SliderInput)
  (apply_changes emergency_stop_pressed : bool) (session : Registry) (w : Py.World) :
  session <> [] ->
  Forall bounds_match session ->
  exists view,
    control_panel sliders apply_changes false emergency_stop_pressed session w
      = Some ((shown_cells view, Rendered view), w) /\
    shown_cells view =
      (if emergency_stop_pressed
       then emergency_stop (control_update sliders session)
       else control_update sliders session) /\
    Forall2 (judged sliders) session (shown_cells view) /\
    health_percentage (shown_cells view) = Some (shown_health view) /\
    (shown_health view == 100 <-> Forall (slider_in_range sliders) session) /\
    (emergency_stop_pressed = true -> shown_total_power view == 0).
Proof.
  intros Hne Hb.
  set (cells := if emergency_stop_pressed
                then emergency_stop (control_update sliders session)
                else control_update sliders session).
  assert (cells <> []) as Hc.
  { subst cells. destruct session; [contradiction|].
    destruct emergency_stop_pressed; discriminate. }
  assert (Forall2 (judged sliders) session cells) as Hj.
  { subst cells. destruct emergency_stop_pressed.
    - unfold emergency_stop, control_update. rewrite map_map.
      apply Forall2_map_in. intros [name data] Hin.
      apply (judged_reading sliders _ _ (proj1 (Forall_forall _ _) Hb _ Hin));
        reflexivity.
    - unfold control_update. apply Forall2_map_in. intros [name data] Hin.
      apply (judged_reading sliders _ _ (proj1 (Forall_forall _ _) Hb _ Hin));
        reflexivity. }
  destruct (health_percentage_run cells Hc) as (h & Eh & Hh).
  exists {| shown_cells := cells;
            shown_emergency := emergency_stop_pressed;
            shown_total_power := total_power cells;
            shown_health := h;
            shown_banner := health_banner h |}.
  split.
  - cbn [shown_cells]. apply control_panel_rendered; [assumption|exact Eh].
  - cbn [shown_cells shown_health shown_banner shown_total_power].
    split; [reflexivity|]. split; [exact Hj|]. split; [exact Eh|]. split.
    + rewrite (health_full cells h Hc Eh). split; intro H.
      * eapply Forall2_left; [|exact Hj|exact H].
        intros x y (_ & _ & _ & Hxy) Hy. now apply Hxy.
      * eapply Forall2_right_from; [|exact Hj|exact H].
        intros x y (_ & _ & _ & Hxy) Hx. now apply Hxy.
    + intros ->. subst cells. unfold total_power, Py.sum, emergency_stop.
      rewrite map_map. apply sum_zero_from.
      apply Forall_map, Forall_forall. now intros [name data] _.
Qed.

Lemma example_registry_bounds : Forall bounds_match example_registry.
Proof.
  repeat constructor.
  - exists lfp_config. repeat split.
  - exists nmc_config. repeat split.
Qed.

Lemma control_panel_health_witness :
  exists view,
    control_panel spec_sliders true false true example_registry (constant_world (1 # 2))
      = Some ((shown_cells view, Rendered view), constant_world (1 # 2)) /\
    shown_cells view = emergency_stop (control_update spec_sliders example_registry) /\
    Forall2 (judged spec_sliders) example_registry (shown_cells view) /\
    health_percentage (shown_cells view) = Some (shown_health view) /\
    (shown_health view == 100 <-> Forall (slider_in_range spec_sliders) example_registry) /\
    (true = true -> shown_total_power view == 0).
Proof.
  apply (control_panel_health spec_sliders true true example_registry
           (constant_world (1 # 2))).
  - discriminate.
  - exact example_registry_bounds.
Defined.

(** X10. "Randomize Values" ends the run with a rerun, whatever the other two
    buttons, and leaves every cell Normal: the new voltage is within 0.1 V of
    the nominal voltage of the chemistry, which is further than that from
    both bounds in all four profiles.  The new current is within 0.505 A of
    the slider reading, the new temperature in [25, 45], the capacity still
    that of the slider readings. *)
Theorem randomize_values_normal (sliders : string -> SliderInput)
  (apply_changes emergency_stop_pressed : bool) (session : Registry) (w : Py.World) :
  session <> [] ->
  Forall chemistry_ok session ->
  Py.rng_ok w ->
  exists cells' w',
    control_panel sliders apply_changes true emergency_stop_pressed session w
      = Some ((cells', Rerun), w') /\
    Forall2 randomized (control_update sliders session) cells' /\
    Forall normal cells' /\
    (exists h, health_percentage cells' = Some h /\ h == 100 /\
               health_banner h = (success, "🟢 System Running Optimally")).
Proof.
  intros Hne Hc Hw.
  pose proof (control_update_chemistry sliders session Hc) as Hc'.
  pose proof (control_update_nonempty sliders session Hne) as Hne'.
  destruct (for_each_run randomize_cell chemistry_ok Py.rng_ok
              (fun old new => randomized old new /\ normal new))
    with (items := control_update sliders session) (w := w)
    as (cells' & w' & E & _ & R); try assumption.
  { intros entry w0 He Hw0. now apply randomize_cell_run. }
  assert (Forall normal cells') as Hn.
  { eapply Forall2_right; [|exact R]. now intros x y [_ H]. }
  exists cells', w'. split.
  - destruct session as [|entry session]; [contradiction|].
    unfold control_panel, Py.bind. unfold randomize_values. rewrite E. reflexivity.
  - split; [eapply Forall2_weaken; [|exact R]; now intros x y [H _]|].
    split; [exact Hn|]. apply all_normal_health; [|exact Hn].
    eapply Forall2_nonempty; eassumption.
Qed.

Lemma randomize_values_normal_witness :
  exists cells' w',
    control_panel example_sliders false true false example_registry (constant_world (1 # 2))
      = Some ((cells', Rerun), w') /\
    Forall2 randomized (control_update example_sliders example_registry) cells' /\
    Forall normal cells' /\
    (exists h, health_percentage cells' = Some h /\ h == 100 /\
               health_banner h = (success, "🟢 System Running Optimally")).
Proof.
  apply (randomize_values_normal example_sliders false false example_registry
           (constant_world (1 # 2))).
  - discriminate.
  - exact example_registry_ok.
  - apply constant_world_ok; [discriminate|reflexivity].
Defined.

(** ** The real-time monitor, as a page *)

Section MonitorPage.

Variable float_str : Q -> string.

(** Without a temperature above 45 the alerts of a cell are its status
    alert: none for a Normal cell, one otherwise. *)
Lemma cell_alerts_status (entry : string * CellRecord) :
  temp (snd entry) <= 45 -> cell_alerts float_str entry = status_alerts entry.
Proof.
  destruct entry as [name data]. cbn [snd]. intro Ht.
  unfold cell_alerts, status_alerts, classified_normal. cbn [fst snd].
  assert (Py.Qlt_bool 45 (temp data) = false) as -> by now apply Qlt_bool_false_iff.
  destruct (get_cell_status_cases (voltage data) (cell_type data))
    as [[_ E]|[[_ E]|[_ E]]]; rewrite E; reflexivity.
Qed.

Lemma status_alerts_nil (entry : string * CellRecord) :
  status_alerts entry = [] <-> normal entry.
Proof.
  unfold status_alerts, normal, classified_normal.
  destruct (get_cell_status_cases (voltage (snd entry)) (cell_type (snd entry)))
    as [[_ E]|[[_ E]|[_ E]]]; rewrite E; cbn; split; intro H;
    try reflexivity; discriminate.
Qed.

Lemma flat_map_nil {A B : Type} (f : A -> list B) (l : list A) :
  flat_map f l = [] <-> Forall (fun x => f x = []) l.
Proof.
  induction l as [|a l IH]; cbn [flat_map].
  - split; [constructor|reflexivity].
  - split.
    + intro H. apply app_eq_nil in H. destruct H as [H1 H2].
      constructor; [assumption|now apply IH].
    + intro H. inversion H as [|? ? H1 H2]; subst. rewrite H1. now apply IH.
Qed.

Lemma alert_messages_success (messages : list string) :
  alert_messages messages = [(success, "✅ All systems operating normally")] <->
  messages = [].
Proof.
  destruct messages as [|m messages]; cbn; split; intro H;
    try reflexivity; discriminate.
Qed.

Lemma alerts_status (cells : Registry) :
  Forall (fun entry => temp (snd entry) <= 45) cells ->
  alerts float_str cells = flat_map status_alerts cells.
Proof.
  unfold alerts. induction 1 as [|entry cells Ht _ IH]; cbn [flat_map]; [reflexivity|].
  now rewrite IH, cell_alerts_status.
Qed.

Lemma monitor_update_run (cells : Registry) (w : Py.World) :
  Forall chemistry_ok cells -> Py.rng_ok w ->
  exists cells' w',
    monitor_update cells w = Some (cells', w') /\ Py.rng_ok w' /\
    Forall2 monitored cells cells'.
Proof.
  intros Hc Hw.
  apply (for_each_run monitor_cell chemistry_ok Py.rng_ok monitored); try assumption.
  intros entry w0 He Hw0. now apply monitor_cell_run.
Qed.

End MonitorPage.

(** X11. The Real-time Monitor.  With "Auto Refresh" ticked the run ends in a
    rerun before anything is updated, shown or stored.  Without it the page
    runs to its end; every record has new telemetry with a temperature in
    [25, 45], so the temperature alert never fires on this page: the alerts
    are one status alert per cell that is not Normal, in registry order, and
    "All systems operating normally" is shown exactly when every cell is
    Normal; one snapshot is stored and the history stays within 100. *)
Theorem monitor_page_alerts (float_str : Q -> string) (session : Registry)
  (historical_data : list Snapshot) (w : Py.World) :
  session <> [] ->
  Forall chemistry_ok session ->
  Py.rng_ok w ->
  monitor_page float_str true session historical_data w
    = Some ((session, historical_data, Rerun), w) /\
  exists cells' now view w',
    monitor_page float_str false session historical_data w
      = Some ((cells',
               store_snapshot historical_data
                 {| snap_timestamp := now; snap_data := cells' |},
               Rendered view), w') /\
    Forall2 monitored session cells' /\
    shown_cell_names view = map fst session /\
    shown_alerts view = alert_messages (flat_map status_alerts cells') /\
    (shown_alerts view = [(success, "✅ All systems operating normally")] <->
     Forall normal cells') /\
    List.length (store_snapshot historical_data
                   {| snap_timestamp := now; snap_data := cells' |})
      = Nat.min 100 (S (List.length historical_data)).
Proof.
  intros Hne Hc Hw. split.
  { destruct session; [contradiction|reflexivity]. }
  destruct (monitor_update_run session w Hc Hw) as (cells' & w1 & E & Hw1 & R).
  assert (Forall (fun entry => temp (snd entry) <= 45) cells') as Ht.
  { eapply Forall2_right; [|exact R].
    intros x y (_ & _ & _ & _ & _ & _ & _ & _ & H). exact H. }
  assert (map fst cells' = map fst session) as Hk.
  { clear - R. induction R as [|x y l l' ((K & _) & _) _ IH]; cbn [map]; [reflexivity|].
    now rewrite K, IH. }
  eexists cells', _, _, _. split.
  - destruct session as [|entry session]; [contradiction|].
    unfold monitor_page, Py.bind. rewrite E. cbn [Py.datetime_now Py.ret]. reflexivity.
  - cbn [shown_cell_names shown_alerts].
    rewrite (alerts_status float_str cells' Ht).
    split; [exact R|]. split; [exact Hk|]. split; [reflexivity|]. split.
    + rewrite alert_messages_success, flat_map_nil.
      split; apply Forall_impl; intros e; apply status_alerts_nil.
    + rewrite store_snapshot_length, Nat.add_1_r. reflexivity.
Qed.

Lemma monitor_page_alerts_witness :
  monitor_page Decimal.repr true example_registry [] (constant_world (1 # 2))
    = Some ((example_registry, [], Rerun), constant_world (1 # 2)) /\
  exists cells' now view w',
    monitor_page Decimal.repr false example_registry [] (constant_world (1 # 2))
      = Some ((cells',
               store_snapshot [] {| snap_timestamp := now; snap_data := cells' |},
               Rendered view), w') /\
    Forall2 monitored example_registry cells' /\
    shown_cell_names view = map fst example_registry /\
    shown_alerts view = alert_messages (flat_map status_alerts cells') /\
    (shown_alerts view = [(success, "✅ All systems operating normally")] <->
     Forall normal cells') /\
    List.length (store_snapshot [] {| snap_timestamp := now; snap_data := cells' |})
      = Nat.min 100 (S (List.length (@nil Snapshot))).
Proof.
  apply (monitor_page_alerts Decimal.repr example_registry [] (constant_world (1 # 2))).
  - discriminate.
  - exact example_registry_ok.
  - apply constant_world_ok; [discriminate|reflexivity].
Defined.

(** ** Run after run of the monitor *)

Section MonitorRuns.

Lemma Forall2_compose {A : Type} (R S T : A -> A -> Prop) (l1 l2 l3 : list A) :
  (forall x y z, R x y -> S y z -> T x z) ->
  Forall2 R l1 l2 -> Forall2 S l2 l3 -> Forall2 T l1 l3.
Proof.
  intros H HR. revert l3. induction HR as [|x y l1 l2 Hxy _ IH]; intros l3 HS.
  - inversion HS. constructor.
  - inversion HS as [|? z ? l3' Hyz HS']; subst. constructor; eauto.
Qed.

Lemma Forall2_same {A : Type} (R : A -> A -> Prop) (l : list A) :
  (forall x, R x x) -> Forall2 R l l.
Proof.
  intro H. induction l; constructor; auto.
Qed.

Lemma inject_succ (n : nat) :
  inject_Z (Z.of_nat (S n)) == inject_Z (Z.of_nat n) + 1.
Proof.
  rewrite Nat2Z.inj_succ. unfold Z.succ. rewrite inject_Z_plus. reflexivity.
Qed.

Lemma inject_nat_nonneg (n : nat) : 0 <= inject_Z (Z.of_nat n).
Proof.
  change 0 with (inject_Z 0). rewrite <- Zle_Qle. lia.
Qed.

Lemma drifted_zero (entry : string * CellRecord) : drifted 0 entry entry.
Proof.
  unfold drifted. cbn [Z.of_nat]. change (inject_Z 0) with 0.
  repeat split; intros; apply Qabs_Qle_condition; split; lra.
Qed.

Lemma drifted_step (n : nat) (a b c : string * CellRecord) :
  monitored a b -> drifted n b c -> drifted (S n) a c.
Proof.
  intros ((K1 & C1 & _ & _ & T1 & _) & V1 & I1 & V1' & I1' & Dv & Di & _)
         (K2 & C2 & T2 & _ & _ & V2 & I2).
  specialize (V2 Dv). specialize (I2 Di).
  pose proof (inject_succ n) as En.
  apply Qabs_Qle_condition in V1, I1, V2, I2.
  unfold drifted. rewrite K2, K1, C2, C1, T2, T1.
  split; [reflexivity|]. split; [reflexivity|]. split; [reflexivity|].
  split; [apply Qabs_Qle_condition; rewrite En; split; lra|].
  split; [apply Qabs_Qle_condition; rewrite En; split; lra|].
  split; intro D.
  - specialize (V1' D). apply Qabs_Qle_condition in V1'.
    apply Qabs_Qle_condition; rewrite En; split; lra.
  - specialize (I1' D). apply Qabs_Qle_condition in I1'.
    apply Qabs_Qle_condition; rewrite En; split; lra.
Qed.

Lemma monitored_chemistry (cells cells' : Registry) :
  Forall2 monitored cells cells' -> Forall chemistry_ok cells -> Forall chemistry_ok cells'.
Proof.
  induction 1 as [|e e' cells cells' ((_ & _ & _ & _ & E & _) & _) _ IH]; intro H.
  - constructor.
  - inversion H as [|? ? Hc Hrest]; subst. constructor; [|now apply IH].
    unfold chemistry_ok. now rewrite E.
Qed.

(** A draw in the top fiftieth moves a voltage of two decimals up by
    exactly 0.1: the jitter is at least 0.096 and the sum rounds up. *)
Lemma voltage_draw_high (bv r : Q) :
  two_decimals bv -> 0.98 <= r -> r < 1 ->
  Py.round (bv + (-0.1 + (0.1 - -0.1) * r)) 2 == bv + 0.1.
Proof.
  intros [k Hk] H0 H1.
  pose proof (round_scaled (bv + (-0.1 + (0.1 - -0.1) * r)) 2) as E.
  pose proof (round_half_even_near ((bv + (-0.1 + (0.1 - -0.1) * r)) * Py.pow10 2)) as [L U].
  change (Py.pow10 2) with 100 in *.
  set (z := Py.round_half_even ((bv + (-0.1 + (0.1 - -0.1) * r)) * 100)) in *.
  assert (z = (k + 10)%Z) as Ez.
  { assert (inject_Z (k + 9) < inject_Z z) as A.
    { rewrite inject_Z_plus. change (inject_Z 9) with 9. lra. }
    assert (inject_Z z < inject_Z (k + 11)) as B.
    { rewrite inject_Z_plus. change (inject_Z 11) with 11. lra. }
    rewrite <- Zlt_Qlt in A, B. lia. }
  rewrite Ez, inject_Z_plus in E. change (inject_Z 10) with 10 in E.
  set (x := Py.round (bv + (-0.1 + (0.1 - -0.1) * r)) 2) in *. lra.
Qed.

Lemma overcharged_above (ct : string) (v : Q) :
  cfg_max (config_for ct) < v -> get_cell_status v ct = status_overcharged.
Proof.
  intro H. pose proof (known_config_ordered _ (config_for_known ct)) as [O1 O2].
  destruct (get_cell_status_cases v ct) as [[A _]|[[_ E]|[[_ A] _]]]; [lra|exact E|lra].
Qed.

Lemma critical_below (ct : string) (v : Q) :
  v < cfg_min (config_for ct) -> get_cell_status v ct = status_critical.
Proof.
  intro H.
  destruct (get_cell_status_cases v ct) as [[_ E]|[[A _]|[[A _] _]]];
    [exact E| |lra].
  pose proof (known_config_ordered _ (config_for_known ct)) as [O1 O2]. lra.
Qed.

Lemma rng_high_next (w : Py.World) (n m : nat) :
  rng_high w -> rng_high (Py.mkWorld (Py.rng w) n (Py.clock w) m).
Proof.
  intros H k. exact (H k).
Qed.

Lemma raised_zero (entry : string * CellRecord) :
  two_decimals (voltage (snd entry)) -> raised 0 entry entry.
Proof.
  intro D. unfold raised. cbn [Z.of_nat]. change (inject_Z 0) with 0.
  split; [reflexivity|]. split; [reflexivity|]. split; [ring|]. split; [exact D|].
  intro H. apply overcharged_above. lra.
Qed.

Lemma monitor_cell_high (entry : string * CellRecord) (w : Py.World) :
  chemistry_ok entry /\ two_decimals (voltage (snd entry)) -> rng_high w ->
  exists new w',
    monitor_cell entry w = Some (new, w') /\ rng_high w' /\
    (raised 1 entry new /\ chemistry_ok new).
Proof.
  destruct entry as [name data]. intros [H D] Hw.
  destruct (dict_get_some _ _ H) as [config Hc]. cbn [snd] in Hc, D.
  unfold monitor_cell, Py.bind at 1. rewrite Hc. cbn [Py.lift Py.ret].
  unfold Py.bind. rewrite generate_mock_data_run.
  destruct (Hw (Py.rng_pos w)) as [A1 A2].
  pose proof (voltage_draw_high (voltage data) _ D A1 A2) as V.
  eexists. eexists. split; [reflexivity|]. split; [now apply rng_high_next|].
  unfold raised, chemistry_ok, update. change (inject_Z (Z.of_nat 1)) with 1.
  cbn [fst snd voltage cell_type mock_voltage].
  split; [|exact H].
  split; [reflexivity|]. split; [reflexivity|].
  split; [rewrite V; ring|].
  split; [apply two_decimals_round|].
  intro Hmax. apply overcharged_above. rewrite V. lra.
Qed.

Lemma raised_step (n : nat) (a b c : string * CellRecord) :
  raised 1 a b -> raised n b c -> raised (S n) a c.
Proof.
  intros (K1 & T1 & V1 & D1 & _) (K2 & T2 & V2 & D2 & _).
  pose proof (inject_succ n) as En. change (inject_Z (Z.of_nat 1)) with 1 in V1.
  unfold raised. rewrite K2, K1, T2, T1.
  split; [reflexivity|]. split; [reflexivity|].
  assert (voltage (snd c) == voltage (snd a) + inject_Z (Z.of_nat (S n)) * 0.1) as V.
  { rewrite V2, V1, En. ring. }
  split; [exact V|]. split; [exact D2|].
  intro H. apply overcharged_above. rewrite V. exact H.
Qed.

End MonitorRuns.

(** X12. What [n] runs of the monitor's update can do to a record.  The runs
    return; keys, chemistries and capacities stay; each voltage is within
    [n * 0.1 + 0.005] V and each current within [n * 0.5 + 0.005] A of where
    it started, the 0.005 being the rounding of the first run and absent
    when the starting value has at most two decimals. *)
Theorem monitor_runs_drift (n : nat) (cells : Registry) (w : Py.World) :
  Forall chemistry_ok cells ->
  Py.rng_ok w ->
  exists cells' w',
    monitor_runs n cells w = Some (cells', w') /\
    Forall2 (drifted n) cells cells'.
Proof.
  revert cells w. induction n as [|n IH]; intros cells w Hc Hw; cbn [monitor_runs].
  - exists cells, w. split; [reflexivity|]. apply Forall2_same, drifted_zero.
  - destruct (monitor_update_run cells w Hc Hw) as (c1 & w1 & E1 & Hw1 & R1).
    destruct (IH c1 w1 (monitored_chemistry _ _ R1 Hc) Hw1) as (c2 & w2 & E2 & R2).
    exists c2, w2. unfold Py.bind. rewrite E1. split; [exact E2|].
    eapply Forall2_compose; [|exact R1|exact R2]. intros x y z. apply drifted_step.
Qed.

Lemma monitor_runs_drift_witness :
  exists cells' w',
    monitor_runs 3 example_registry (constant_world (1 # 2)) = Some (cells', w') /\
    Forall2 (drifted 3) example_registry cells'.
Proof.
  apply (monitor_runs_drift 3 example_registry (constant_world (1 # 2))).
  - exact example_registry_ok.
  - apply constant_world_ok; [discriminate|reflexivity].
Defined.

(** X13. Nothing keeps the monitored voltage inside the bounds of the
    chemistry.  When every draw of the generator is at least 0.98, each run
    moves every voltage of two decimals up by exactly 0.1 V, so after [n] runs
    a cell that started less than [n * 0.1] V under its maximum is
    Overcharged. *)
Theorem monitor_runs_unclamped (n : nat) (cells : Registry) (w : Py.World) :
  Forall chemistry_ok cells ->
  Forall (fun entry => two_decimals (voltage (snd entry))) cells ->
  rng_high w ->
  exists cells' w',
    monitor_runs n cells w = Some (cells', w') /\
    Forall2 (raised n) cells cells'.
Proof.
  revert cells w. induction n as [|n IH]; intros cells w Hc Hd Hw; cbn [monitor_runs].
  - exists cells, w. split; [reflexivity|].
    induction Hd; constructor; [now apply raised_zero|].
    inversion Hc; subst. auto.
  - destruct (for_each_run monitor_cell
                (fun entry => chemistry_ok entry /\ two_decimals (voltage (snd entry)))
                rng_high (fun old new => raised 1 old new /\ chemistry_ok new))
      with (items := cells) (w := w) as (c1 & w1 & E1 & Hw1 & R1).
    + intros entry w0 He Hw0. now apply monitor_cell_high.
    + clear - Hc Hd. induction Hc; inversion Hd; subst; constructor; auto.
    + exact Hw.
    + assert (Forall chemistry_ok c1) as Hc1.
      { eapply Forall2_right; [|exact R1]. now intros x y [_ H]. }
      assert (Forall (fun entry => two_decimals (voltage (snd entry))) c1) as Hd1.
      { eapply Forall2_right; [|exact R1]. now intros x y [(_ & _ & _ & H & _) _]. }
      destruct (IH c1 w1 Hc1 Hd1 Hw1) as (c2 & w2 & E2 & R2).
      exists c2, w2. unfold Py.bind. fold (monitor_update cells). unfold monitor_update.
      rewrite E1. split; [exact E2|].
      eapply Forall2_compose; [|exact R1|exact R2].
      intros x y z [H _]. now apply raised_step.
Qed.

Lemma monitor_runs_unclamped_witness :
  exists cells' w',
    monitor_runs 5 example_registry (constant_world (99 # 100)) = Some (cells', w') /\
    Forall2 (raised 5) example_registry cells'.
Proof.
  apply (monitor_runs_unclamped 5 example_registry (constant_world (99 # 100))).
  - exact example_registry_ok.
  - repeat constructor; [exists 320%Z|exists 450%Z]; reflexivity.
  - intro k. cbn. split; [discriminate|reflexivity].
Defined.

(** ** The dashboard *)

Section DashboardPage.

Lemma sum_between (lo hi : Q) (xs : list Q) :
  Forall (fun x => lo <= x <= hi) xs ->
  lo * inject_Z (Z.of_nat (List.length xs)) <= fold_right Qplus 0 xs /\
  fold_right Qplus 0 xs <= hi * inject_Z (Z.of_nat (List.length xs)).
Proof.
  induction 1 as [|x xs [H1 H2] _ [IH1 IH2]]; cbn [fold_right List.length].
  - cbn [Z.of_nat]. change (inject_Z 0) with 0. split; lra.
  - rewrite inject_succ. split; lra.
Qed.

Lemma mean_run (xs : list Q) :
  xs <> [] ->
  exists m, mean xs = Some m /\
            m * inject_Z (Z.of_nat (List.length xs)) == fold_right Qplus 0 xs.
Proof.
  intro Hne. pose proof (length_pos_Q xs Hne) as Hpos.
  unfold mean, Py.div.
  destruct (Qeq_bool (inject_Z (Z.of_nat (List.length xs))) 0) eqn:E.
  { apply Qeq_bool_iff in E. lra. }
  eexists. split; [reflexivity|]. field. lra.
Qed.

Lemma mean_between (lo hi m : Q) (xs : list Q) :
  xs <> [] -> mean xs = Some m ->
  Forall (fun x => lo <= x <= hi) xs -> lo <= m <= hi.
Proof.
  intros Hne Hm Hxs. pose proof (length_pos_Q xs Hne) as Hpos.
  destruct (mean_run xs Hne) as (m' & E & Hsum). rewrite Hm in E. injection E as <-.
  destruct (sum_between lo hi xs Hxs) as [S1 S2]. rewrite <- Hsum in S1, S2.
  split.
  - now apply (Qmult_le_r _ _ _ Hpos).
  - now apply (Qmult_le_r _ _ _ Hpos).
Qed.

Lemma fold_left_sum (xs : list Q) (acc : Q) :
  fold_left Qplus xs acc == acc + fold_right Qplus 0 xs.
Proof.
  revert acc. induction xs as [|x xs IH]; intro acc; cbn [fold_left fold_right].
  - ring.
  - rewrite IH. ring.
Qed.

Lemma display_row_displayed (entry : string * CellRecord) :
  displayed entry (display_row entry).
Proof.
  destruct entry as [name data]. unfold displayed, display_row.
  destruct (get_cell_status (voltage data) (cell_type data)) as [status class] eqn:E.
  cbn [display_cell display_type display_voltage display_current display_temp
       display_capacity display_status fst snd].
  rewrite get_cell_status_upper, E. repeat split.
Qed.

End DashboardPage.

(** X14. The figures of the dashboard are computed on every non-empty registry,
    whatever the records hold: the cell count is the number of entries, the
    mean voltage and the mean temperature times that count are the sums, so
    each mean lies between any two bounds that hold for every cell, the total
    current is the sum of the currents, and the table has one row per cell, in
    registry order, whose status is also what the classifier gives for the
    upper-case type the row shows. *)
Theorem dashboard_view (cells : Registry) :
  cells <> [] ->
  exists view,
    dashboard cells = Some (Rendered view) /\
    shown_total_cells view = List.length cells /\
    shown_avg_voltage view * inject_Z (Z.of_nat (List.length cells))
      == fold_right Qplus 0 (map (fun entry => voltage (snd entry)) cells) /\
    shown_avg_temp view * inject_Z (Z.of_nat (List.length cells))
      == fold_right Qplus 0 (map (fun entry => temp (snd entry)) cells) /\
    (forall lo hi,
       Forall (fun entry => lo <= voltage (snd entry) <= hi) cells ->
       lo <= shown_avg_voltage view <= hi) /\
    (forall lo hi,
       Forall (fun entry => lo <= temp (snd entry) <= hi) cells ->
       lo <= shown_avg_temp view <= hi) /\
    shown_total_current view
      == fold_right Qplus 0 (map (fun entry => current (snd entry)) cells) /\
    Forall2 displayed cells (shown_table view).
Proof.
  intro Hne.
  assert (forall f : string * CellRecord -> Q, map f cells <> []) as Hmap.
  { intro f. destruct cells; [contradiction|discriminate]. }
  destruct (mean_run _ (Hmap (fun entry => voltage (snd entry)))) as (v & Ev & Hv).
  destruct (mean_run _ (Hmap (fun entry => temp (snd entry)))) as (t & Et & Ht).
  rewrite length_map in Hv, Ht.
  exists {| shown_total_cells := List.length cells;
            shown_avg_voltage := v;
            shown_total_current := total_current cells;
            shown_avg_temp := t;
            shown_table := display_data cells |}.
  cbn [shown_total_cells shown_avg_voltage shown_total_current shown_avg_temp shown_table].
  split.
  { destruct cells as [|entry cells]; [contradiction|].
    unfold dashboard, avg_voltage, avg_temp. now rewrite Ev, Et. }
  split; [reflexivity|]. split; [exact Hv|]. split; [exact Ht|]. split; [|split; [|split]].
  - intros lo hi H. apply (mean_between lo hi v _ (Hmap _) Ev).
    apply Forall_map. exact H.
  - intros lo hi H. apply (mean_between lo hi t _ (Hmap _) Et).
    apply Forall_map. exact H.
  - unfold total_current. rewrite fold_left_sum. ring.
  - unfold display_data. clear. induction cells as [|entry cells IH]; cbn [map]; constructor.
    + apply display_row_displayed.
    + exact IH.
Qed.

Lemma dashboard_view_witness :
  exists view,
    dashboard example_registry = Some (Rendered view) /\
    shown_total_cells view = List.length example_registry /\
    shown_avg_voltage view * inject_Z (Z.of_nat (List.length example_registry))
      == fold_right Qplus 0 (map (fun entry => voltage (snd entry)) example_registry) /\
    shown_avg_temp view * inject_Z (Z.of_nat (List.length example_registry))
      == fold_right Qplus 0 (map (fun entry => temp (snd entry)) example_registry) /\
    (forall lo hi,
       Forall (fun entry => lo <= voltage (snd entry) <= hi) example_registry ->
       lo <= shown_avg_voltage view <= hi) /\
    (forall lo hi,
       Forall (fun entry => lo <= temp (snd entry) <= hi) example_registry ->
       lo <= shown_avg_temp view <= hi) /\
    shown_total_current view
      == fold_right Qplus 0 (map (fun entry => current (snd entry)) example_registry) /\
    Forall2 displayed example_registry (shown_table view).
Proof.
  apply (dashboard_view example_registry). discriminate.
Defined.

(** ** The analysis page *)

Section AnalysisRows.

Lemma round_tenth (x : Q) : Qabs (Py.round x 1 - x) <= 0.05.
Proof.
  pose proof (round_near x 1) as [H1 H2]. change (Py.pow10 1) with 10 in H1, H2.
  apply Qabs_Qle_condition. split; lra.
Qed.

Lemma round_thousandth (x : Q) : Qabs (Py.round x 3 - x) <= 0.0005.
Proof.
  pose proof (round_near x 3) as [H1 H2]. change (Py.pow10 3) with 1000 in H1, H2.
  apply Qabs_Qle_condition. split; lra.
Qed.

Lemma round_zero (n : nat) : Py.round 0 n == 0.
Proof.
  apply (round_fixed 0). ring.
Qed.

Lemma efficiency_run (data : CellRecord) (config : CellConfig) :
  Py.dict_get CELL_CONFIGS (cell_type data) = Some config ->
  exists e, efficiency data = Some e /\ e * cfg_max config == voltage data * 100.
Proof.
  intro Hc. pose proof (known_config_max _ (dict_get_known _ _ Hc)) as Hmax.
  unfold efficiency, Py.div. rewrite Hc.
  destruct (Qeq_bool (cfg_max config) 0) eqn:E.
  { apply Qeq_bool_iff in E. lra. }
  eexists. split; [reflexivity|]. field. lra.
Qed.

Lemma efficiency_raises (data : CellRecord) :
  Py.dict_get CELL_CONFIGS (cell_type data) = None -> efficiency data = None.
Proof.
  intro H. unfold efficiency. now rewrite H.
Qed.

Lemma power_density_run (data : CellRecord) :
  exists p, power_density data = Some p /\
            (temp data <= 0 -> p = 0) /\
            (0 < temp data -> p * temp data == capacity data).
Proof.
  unfold power_density, Py.div.
  destruct (Py.Qlt_bool 0 (temp data)) eqn:E; reflect_cmp.
  - destruct (Qeq_bool (temp data) 0) eqn:E0.
    { apply Qeq_bool_iff in E0. lra. }
    eexists. split; [reflexivity|]. split; [intro; lra|]. intros _. field. lra.
  - exists 0. split; [reflexivity|]. split; [reflexivity|]. intro. lra.
Qed.

Lemma perf_row_run (entry : string * CellRecord) :
  chemistry_ok entry -> exists row, perf_row entry = Some row /\ performance entry row.
Proof.
  destruct entry as [name data]. intro H.
  destruct (dict_get_some _ _ H) as [config Hc]. cbn [snd] in Hc.
  pose proof (dict_get_known _ _ Hc) as Hk.
  pose proof (known_config_max _ Hk) as Hmax.
  pose proof (known_config_ordered _ Hk) as [O1 O2].
  destruct (efficiency_run data config Hc) as (e & Ee & He).
  destruct (power_density_run data) as (p & Ep & Hp0 & Hp).
  unfold perf_row. rewrite Ee, Ep. eexists. split; [reflexivity|].
  unfold performance.
  cbn [perf_cell perf_efficiency perf_power_density perf_energy_output
       perf_temperature_factor fst snd].
  split; [reflexivity|]. split; [reflexivity|]. split; [reflexivity|]. split; [|split].
  - exists config, e. split; [exact Hc|]. split; [exact He|].
    split; [apply round_tenth|]. split.
    + intro Hv. assert (e * 10 <= inject_Z 1000) as Hu.
      { change (inject_Z 1000) with 1000.
        assert (e * cfg_max config <= 100 * cfg_max config) as Hle by (rewrite He; lra).
        assert (e <= 100) by (apply (Qmult_le_r _ _ _ Hmax); exact Hle). lra. }
      destruct (Qlt_le_dec e 0) as [Hneg|Hpos].
      * pose proof (round_tenth e) as Hr. apply Qabs_Qle_condition in Hr. lra.
      * assert (inject_Z 0 <= e * 10) as Hl by (change (inject_Z 0) with 0; lra).
        destruct (round_between 0 1000 e 1) as [_ R]; try assumption.
        change (Py.pow10 1) with 10 in R. change (inject_Z 1000) with 1000 in R. lra.
    + intro Hv.
      assert (cfg_min config * 100 <= e * cfg_max config) as Hle by (rewrite He; lra).
      assert (1 <= e) as H1.
      { destruct Hk; cbn [cfg_min cfg_max lfp_config nmc_config lto_config lco_config] in *;
          lra. }
      pose proof (round_tenth e) as Hr. apply Qabs_Qle_condition in Hr. lra.
  - intro Ht. rewrite (Hp0 Ht). apply round_zero.
  - intro Ht. exists p. split; [now apply Hp|apply round_thousandth].
Qed.

Lemma perf_row_raises (entry : string * CellRecord) :
  ~ chemistry_ok entry -> perf_row entry = None.
Proof.
  destruct entry as [name data]. intro H.
  pose proof (dict_get_none CELL_CONFIGS _ H) as E. cbn [snd] in E.
  unfold perf_row. now rewrite (efficiency_raises data E).
Qed.

Lemma perf_data_run (cells : Registry) :
  Forall chemistry_ok cells ->
  exists rows, perf_data cells = Some rows /\ Forall2 performance cells rows.
Proof.
  induction 1 as [|entry cells He _ (rows & E & R)]; cbn [perf_data].
  - exists []. split; [reflexivity|constructor].
  - destruct (perf_row_run entry He) as (row & Er & Hr).
    exists (row :: rows). rewrite Er, E. split; [reflexivity|constructor; assumption].
Qed.

Lemma perf_data_raises (cells : Registry) :
  Exists (fun entry => ~ chemistry_ok entry) cells -> perf_data cells = None.
Proof.
  induction 1 as [entry cells He|entry cells _ IH]; cbn [perf_data].
  - now rewrite (perf_row_raises entry He).
  - rewrite IH. now destruct (perf_row entry).
Qed.

End AnalysisRows.

(** X15. The performance table has one row per cell, in registry order, for
    every registry whose chemistries are keys of the table: the efficiency
    shown is within 0.05 of the voltage as a percentage of the maximum
    voltage, at most 100 for a voltage that is not above the maximum and
    positive for one that is not below the minimum; the power density shown is
    within 0.0005 of capacity over temperature, and 0 when the temperature is
    not positive. *)
Theorem perf_data_rows (cells : Registry) :
  Forall chemistry_ok cells ->
  exists rows,
    perf_data cells = Some rows /\
    Forall2 performance cells rows /\
    map perf_cell rows = map fst cells.
Proof.
  intro H. destruct (perf_data_run cells H) as (rows & E & R).
  exists rows. split; [exact E|]. split; [exact R|].
  clear - R. induction R as [|entry row cells rows (K & _) _ IH]; cbn [map]; [reflexivity|].
  now rewrite K, IH.
Qed.

Lemma perf_data_rows_witness :
  exists rows,
    perf_data example_registry = Some rows /\
    Forall2 performance example_registry rows /\
    map perf_cell rows = map fst example_registry.
Proof.
  apply (perf_data_rows example_registry). exact example_registry_ok.
Defined.

Section RadarChart.

Lemma min_scaled (y : Q) :
  Py.min ((y + 10) / 20 * 100) 100 <= 100 /\
  (0 <= Py.min ((y + 10) / 20 * 100) 100 <-> -10 <= y) /\
  (Py.min ((y + 10) / 20 * 100) 100 == 100 <-> 10 <= y).
Proof.
  assert ((y + 10) / 20 * 100 == (y + 10) * 5) as E by field.
  unfold Py.min.
  destruct (Py.Qlt_bool 100 ((y + 10) / 20 * 100)) eqn:C; reflect_cmp; rewrite E in *.
  - split; [lra|]. split; split; intro; lra.
  - split; [lra|]. split; split; intro; lra.
Qed.

Lemma radar_values_run (data : CellRecord) (config : CellConfig) :
  Py.dict_get CELL_CONFIGS (cell_type data) = Some config ->
  exists v,
    radar_values data =
      Some [ v;
             Py.min ((current data + 10) / 20 * 100) 100;
             temp data / 60 * 100;
             Py.min ((capacity data + 10) / 20 * 100) 100 ] /\
    v * cfg_max config == voltage data * 100.
Proof.
  intro Hc. pose proof (known_config_max _ (dict_get_known _ _ Hc)) as Hmax.
  unfold radar_values, Py.div. rewrite Hc.
  destruct (Qeq_bool (cfg_max config) 0) eqn:E.
  { apply Qeq_bool_iff in E. lra. }
  eexists. split; [reflexivity|]. field. lra.
Qed.

End RadarChart.

(** X16. The radar chart, drawn on an axis from 0 to 100.  For a chemistry of
    the table the four values are computed; the current and capacity values
    are cut at 100 but not at 0.  The voltage value is on the axis exactly
    for a voltage between 0 and the maximum of the chemistry, the current
    value for a current of at least -10, the temperature value for a
    temperature between 0 and 60, the capacity value for a capacity of at
    least -10. *)
Theorem radar_values_axis (data : CellRecord) (config : CellConfig) :
  Py.dict_get CELL_CONFIGS (cell_type data) = Some config ->
  exists v c t p,
    radar_values data = Some [v; c; t; p] /\
    c <= 100 /\ p <= 100 /\
    (on_axis v <-> 0 <= voltage data <= cfg_max config) /\
    (on_axis c <-> -10 <= current data) /\
    (on_axis t <-> 0 <= temp data <= 60) /\
    (on_axis p <-> -10 <= capacity data) /\
    (c == 100 <-> 10 <= current data) /\
    (p == 100 <-> 10 <= capacity data).
Proof.
  intro Hc. destruct (radar_values_run data config Hc) as (v & E & Hv).
  pose proof (dict_get_known _ _ Hc) as Hk.
  destruct (min_scaled (current data)) as (C1 & C2 & C3).
  destruct (min_scaled (capacity data)) as (P1 & P2 & P3).
  eexists v, _, _, _. split; [exact E|].
  split; [exact C1|]. split; [exact P1|]. unfold on_axis.
  split; [|split; [|split; [|split; [|split]]]].
  - destruct Hk; cbn [cfg_max lfp_config nmc_config lto_config lco_config] in *;
      split; intros [A B]; split; lra.
  - rewrite <- C2. tauto.
  - assert (temp data / 60 * 100 == temp data * (5 # 3)) as -> by field.
    split; intros [A B]; split; lra.
  - rewrite <- P2. tauto.
  - exact C3.
  - exact P3.
Qed.

Lemma radar_values_axis_witness :
  exists v c t p,
    radar_values (mkCellRecord 3.2 2.0 30.0 6.4 2.8 3.6 "lfp" None) = Some [v; c; t; p] /\
    c <= 100 /\ p <= 100 /\
    (on_axis v <-> 0 <= 3.2 <= cfg_max lfp_config) /\
    (on_axis c <-> -10 <= 2.0) /\
    (on_axis t <-> 0 <= 30.0 <= 60) /\
    (on_axis p <-> -10 <= 6.4) /\
    (c == 100 <-> 10 <= 2.0) /\
    (p == 100 <-> 10 <= 6.4).
Proof.
  apply (radar_values_axis (mkCellRecord 3.2 2.0 30.0 6.4 2.8 3.6 "lfp" None) lfp_config).
  reflexivity.
Defined.

(** ** A chemistry that is not a key of the table *)

Section UnknownChemistry.

Lemma dashboard_run (cells : Registry) : exists outcome, dashboard cells = Some outcome.
Proof.
  destruct cells as [|entry cells]; [now exists Stopped|].
  destruct (mean_run (map (fun e => voltage (snd e)) (entry :: cells))) as (v & Ev & _);
    [discriminate|].
  destruct (mean_run (map (fun e => temp (snd e)) (entry :: cells))) as (t & Et & _);
    [discriminate|].
  unfold dashboard, avg_voltage, avg_temp. rewrite Ev, Et. eexists. reflexivity.
Qed.

Lemma control_panel_run (sliders : string -> SliderInput)
  (apply_changes emergency_stop_pressed : bool) (session : Registry) (w : Py.World) :
  exists outcome,
    control_panel sliders apply_changes false emergency_stop_pressed session w =
    Some ((if emergency_stop_pressed
           then emergency_stop (control_update sliders session)
           else control_update sliders session, outcome), w).
Proof.
  destruct session as [|entry session].
  - exists Stopped. now destruct emergency_stop_pressed.
  - set (cells := if emergency_stop_pressed
                  then emergency_stop (control_update sliders (entry :: session))
                  else control_update sliders (entry :: session)).
    destruct (health_percentage_run cells) as (h & Eh & _).
    { subst cells. destruct emergency_stop_pressed; discriminate. }
    eexists. apply control_panel_rendered; [discriminate|exact Eh].
Qed.

Lemma control_update_unknown (sliders : string -> SliderInput) (cells : Registry) :
  Exists (fun entry => ~ chemistry_ok entry) cells ->
  Exists (fun entry => ~ chemistry_ok entry) (control_update sliders cells).
Proof.
  unfold control_update.
  induction 1 as [[name data] cells He|entry cells _ IH]; cbn [map].
  - now left.
  - now right.
Qed.

End UnknownChemistry.

(** X17. The pages do not look a chemistry up the same way.  The classifier
    lowers the identifier and falls back on the LFP profile, so the dashboard
    and the control panel compute their figures on any registry; the
    performance table, "Randomize Values" and the monitor's update index the
    table with the identifier as stored and raise [KeyError] on a registry
    that holds a chemistry which is not literally a key, ["LFP"] in capitals
    included. *)
Theorem unknown_chemistry_raises (float_str float_repr : Q -> string) (time_repr : Z -> string)
  (sliders : string -> SliderInput) (selected_cells : list string)
  (apply_changes emergency_stop_pressed export_report generate_csv_pressed : bool)
  (cells : Registry) (historical_data : list Snapshot) (w : Py.World) :
  Exists (fun entry => ~ chemistry_ok entry) cells ->
  (exists view, dashboard cells = Some (Rendered view)) /\
  (exists result,
     control_panel sliders apply_changes false emergency_stop_pressed cells w
       = Some result) /\
  control_panel sliders apply_changes true emergency_stop_pressed cells w = None /\
  analysis float_repr time_repr selected_cells export_report generate_csv_pressed cells w
    = None /\
  monitor_page float_str false cells historical_data w = None.
Proof.
  intro H.
  assert (cells <> []) as Hne by (destruct H; discriminate).
  repeat apply conj.
  - destruct cells as [|entry cells]; [contradiction|].
    destruct (dashboard_run (entry :: cells)) as (outcome & E).
    unfold dashboard in *.
    destruct (avg_voltage (entry :: cells)), (avg_temp (entry :: cells));
      try discriminate. eexists. reflexivity.
  - destruct (control_panel_run sliders apply_changes emergency_stop_pressed cells w)
      as (outcome & E). eexists. exact E.
  - destruct cells as [|entry cells]; [contradiction|].
    unfold control_panel, Py.bind, randomize_values.
    rewrite (for_each_raises randomize_cell (fun e => ~ chemistry_ok e)).
    + reflexivity.
    + intros x w0. apply randomize_cell_raises.
    + now apply control_update_unknown.
  - destruct cells as [|entry cells]; [contradiction|].
    unfold analysis, Py.bind. now rewrite (perf_data_raises _ H).
  - destruct cells as [|entry cells]; [contradiction|].
    unfold monitor_page, Py.bind, monitor_update.
    rewrite (for_each_raises monitor_cell (fun e => ~ chemistry_ok e)).
    + reflexivity.
    + intros x w0. apply monitor_cell_raises.
    + exact H.
Qed.

Lemma unknown_chemistry_raises_witness :
  (exists view, dashboard capital_registry = Some (Rendered view)) /\
  (exists result,
     control_panel example_sliders false false false capital_registry
       (constant_world (1 # 2)) = Some result) /\
  control_panel example_sliders false true false capital_registry (constant_world (1 # 2))
    = None /\
  analysis Decimal.repr Decimal.time_repr [] false false capital_registry
    (constant_world (1 # 2)) = None /\
  monitor_page Decimal.repr false capital_registry [] (constant_world (1 # 2)) = None.
Proof.
  apply (unknown_chemistry_raises Decimal.repr Decimal.repr Decimal.time_repr example_sliders
           [] false false false false capital_registry [] (constant_world (1 # 2))).
  left. unfold chemistry_ok. cbn. intros [H|[H|[H|[H|[]]]]]; discriminate.
Defined.

(** ** The session, run after run *)

Section SessionRuns.

Variable float_str : Q -> string.
Variable float_repr : Q -> string.
Variable time_repr : Z -> string.

Lemma dict_get_entry {V : Type} (d : list (string * V)) (key : string) :
  In key (map fst d) -> exists v, Py.dict_get d key = Some v /\ In (key, v) d.
Proof.
  induction d as [|[k v] d IH]; cbn [map fst In Py.dict_get]; intro H; [contradiction|].
  destruct (String.eqb_spec k key) as [->|Hne].
  - exists v. split; [reflexivity|now left].
  - destruct H as [H|H]; [contradiction|].
    destruct (IH H) as (u & E & Hin). exists u. split; [exact E|now right].
Qed.

Lemma radar_traces_run (cells : Registry) (selected_cells : list string) :
  Forall chemistry_ok cells ->
  incl selected_cells (map fst cells) ->
  exists traces,
    radar_traces cells selected_cells = Some traces /\
    map fst traces = selected_cells /\
    Forall (fun trace => exists v c t p, snd trace = [v; c; t; p; v]) traces.
Proof.
  intros Hc. induction selected_cells as [|name rest IH]; intro Hs; cbn [radar_traces].
  - exists []. repeat split. constructor.
  - destruct (dict_get_entry cells name) as (data & E & Hin); [apply Hs; now left|].
    pose proof (proj1 (Forall_forall _ _) Hc _ Hin) as Hok.
    destruct (dict_get_some _ _ Hok) as [config Hcfg]. cbn [snd] in Hcfg.
    destruct (radar_values_run data config Hcfg) as (v & Ev & _).
    destruct IH as (traces & Et & Ht & Hp); [intros x Hx; apply Hs; now right|].
    rewrite E, Ev, Et. eexists. split; [reflexivity|]. cbn [map fst]. rewrite Ht.
    split; [reflexivity|]. constructor; [|exact Hp].
    cbn [snd closed_polygon app]. eexists _, _, _, _. reflexivity.
Qed.

Lemma analysis_run (selected_cells : list string) (export_report generate_csv_pressed : bool)
  (cells : Registry) (w : Py.World) :
  Forall chemistry_ok cells ->
  incl selected_cells (map fst cells) ->
  cells <> [] ->
  exists view w',
    analysis float_repr time_repr selected_cells export_report generate_csv_pressed cells w
      = Some (Rendered view, w') /\
    Forall2 performance cells (shown_perf view) /\
    map fst (shown_radar view) = selected_cells /\
    Forall (fun trace => exists v c t p, snd trace = [v; c; t; p; v]) (shown_radar view) /\
    report_total_cells (shown_report view) = List.length cells /\
    (shown_json_download view <> None <-> export_report = true) /\
    (if generate_csv_pressed
     then exists now,
            shown_csv_download view = Some (generate_csv float_repr time_repr cells, now)
     else shown_csv_download view = None) /\
    Py.rng w' = Py.rng w /\ Py.rng_pos w' = Py.rng_pos w /\ Py.clock w' = Py.clock w /\
    Py.clock_pos w' =
      (Py.clock_pos w + 1 + (if export_report then 1 else 0)
       + (if generate_csv_pressed then 1 else 0))%nat.
Proof.
  intros Hc Hs Hne. destruct cells as [|entry cells]; [contradiction|].
  destruct (perf_data_run _ Hc) as (rows & E1 & R1).
  destruct (radar_traces_run _ _ Hc Hs) as (traces & E2 & R2 & R3).
  destruct (mean_run (map (fun e => voltage (snd e)) (entry :: cells))) as (v & Ev & _);
    [discriminate|].
  destruct (mean_run (map (fun e => temp (snd e)) (entry :: cells))) as (t & Et & _);
    [discriminate|].
  unfold analysis, Py.bind, avg_voltage, avg_temp. rewrite E1. cbn [Py.lift Py.ret].
  rewrite E2. cbn [Py.lift Py.ret Py.datetime_now]. rewrite Ev. cbn [Py.lift Py.ret].
  rewrite Et. cbn [Py.lift Py.ret].
  destruct export_report, generate_csv_pressed; cbn [Py.ret Py.datetime_now];
    eexists; eexists; (split; [reflexivity|]);
    cbn [shown_perf shown_radar shown_report shown_json_download shown_csv_download
         report_total_cells Py.rng Py.rng_pos Py.clock Py.clock_pos];
    (split; [exact R1|]); (split; [exact R2|]); (split; [exact R3|]);
    (split; [reflexivity|]);
    (split; [split; intro; congruence|]);
    (split; [try (eexists; reflexivity); reflexivity|]);
    repeat split; lia.
Qed.

Lemma kept_registry (cells cells' : Registry) :
  Forall2 kept cells cells' ->
  (Forall bounds_match cells -> Forall bounds_match cells') /\
  (Forall entry_ok cells -> Forall entry_ok cells') /\
  map fst cells' = map fst cells.
Proof.
  induction 1 as [|e e' cells cells' (K & T & Lo & Hi) _ (IH1 & IH2 & IH3)].
  - repeat split; constructor.
  - split; [|split].
    + intro H. inversion H as [|? ? (config & Hc & Hmin & Hmax) Hrest]; subst.
      constructor; [|now apply IH1].
      exists config. now rewrite T, Lo, Hi.
    + intro H. inversion H as [|? ? [Hk Hc] Hrest]; subst.
      constructor; [|now apply IH2].
      unfold entry_ok, chemistry_ok. now rewrite K, T.
    + cbn [map]. now rewrite K, IH3.
Qed.

Lemma kept_session (cells cells' : Registry) (history history' : list Snapshot) :
  Forall2 kept cells cells' ->
  (List.length history' <= 100)%nat ->
  session_ok {| session_cells := cells; session_history := history |} ->
  session_ok {| session_cells := cells'; session_history := history' |}.
Proof.
  intros K Hh (B & E & N & _). destruct (kept_registry _ _ K) as (K1 & K2 & K3).
  unfold session_ok. cbn [session_cells session_history]. rewrite K3. auto.
Qed.

Lemma map_kept (f : string * CellRecord -> string * CellRecord) (cells : Registry) :
  (forall e, kept e (f e)) -> Forall2 kept cells (map f cells).
Proof.
  intro H. induction cells; cbn [map]; constructor; auto.
Qed.

Lemma control_update_kept (sliders : string -> SliderInput) (cells : Registry) :
  Forall2 kept cells (control_update sliders cells).
Proof.
  apply map_kept. intros [name data]. repeat split.
Qed.

Lemma emergency_stop_kept (cells : Registry) : Forall2 kept cells (emergency_stop cells).
Proof.
  apply map_kept. intros [name data]. repeat split.
Qed.

Lemma refreshed_kept (cells cells' : Registry) :
  Forall2 refreshed cells cells' -> Forall2 kept cells cells'.
Proof.
  apply Forall2_weaken. intros x y (K & _ & Lo & Hi & T & _). repeat split; assumption.
Qed.

Lemma kept_trans (a b c : string * CellRecord) : kept a b -> kept b c -> kept a c.
Proof.
  intros (K1 & T1 & L1 & H1) (K2 & T2 & L2 & H2).
  unfold kept. rewrite K2, T2, L2, H2. repeat split; assumption.
Qed.

Lemma configure_session (slots : list SlotInput) (w : Py.World) :
  Forall slot_ok slots ->
  exists reg w',
    configure slots w = Some (reg, w') /\
    Forall bounds_match reg /\ Forall entry_ok reg /\ NoDup (map fst reg).
Proof.
  intro Hs.
  destruct (configure_from_Forall (fun e => bounds_match e /\ entry_ok e))
    with (slots := slots) (cells := @nil (string * CellRecord)) (i := 0%nat) (w := w)
    as (reg & w' & E & Hf).
  - intros i slot config t Hc. pose proof (dict_get_in _ _ _ Hc) as Hin. split.
    + exists config. repeat split. exact Hc.
    + split; [now apply cell_key_plain|exact Hin].
  - assumption.
  - constructor.
  - destruct (configure_from_keys slots Hs [] 0%nat w) as (reg' & w'' & E' & K).
    { intros k []. }
    rewrite E in E'. injection E' as <- <-. cbn [map app] in K.
    exists reg, w'. split; [exact E|].
    split; [eapply Forall_impl; [|exact Hf]; now intros e [H _]|].
    split; [eapply Forall_impl; [|exact Hf]; now intros e [_ H]|].
    rewrite K. apply slot_keys_NoDup.
Qed.

Lemma control_panel_session (sliders : string -> SliderInput)
  (apply_changes randomize emergency_stop_pressed : bool) (cells : Registry) (w : Py.World) :
  Forall chemistry_ok cells ->
  exists cells' outcome w',
    control_panel sliders apply_changes randomize emergency_stop_pressed cells w
      = Some ((cells', outcome), w') /\
    Forall2 kept cells cells'.
Proof.
  intro Hc. destruct randomize.
  - destruct cells as [|entry cells].
    { exists [], Stopped, w. split; [reflexivity|constructor]. }
    pose proof (control_update_chemistry sliders _ Hc) as Hc'.
    destruct (for_each_refreshed randomize_cell) with (cells := control_update sliders (entry :: cells))
      (w := w) as (cells' & w' & E & R); [|assumption|].
    { intros e w0 He. now apply randomize_cell_refreshed. }
    exists cells', Rerun, w'. split.
    + unfold control_panel, Py.bind, randomize_values. now rewrite E.
    + eapply Forall2_compose; [exact kept_trans|apply (control_update_kept sliders)|].
      now apply refreshed_kept.
  - destruct (control_panel_run sliders apply_changes emergency_stop_pressed cells w)
      as (outcome & E).
    eexists _, outcome, w. split; [exact E|].
    destruct emergency_stop_pressed; [|apply control_update_kept].
    eapply Forall2_compose; [exact kept_trans|apply (control_update_kept sliders)|].
    apply emergency_stop_kept.
Qed.

Lemma monitor_page_session (auto_refresh : bool) (cells : Registry)
  (history : list Snapshot) (w : Py.World) :
  Forall chemistry_ok cells ->
  (List.length history <= 100)%nat ->
  exists cells' history' outcome w',
    monitor_page float_str auto_refresh cells history w
      = Some ((cells', history', outcome), w') /\
    Forall2 kept cells cells' /\
    (List.length history' <= 100)%nat.
Proof.
  intros Hc Hh.
  assert (Forall2 kept cells cells) as Kid.
  { apply Forall2_same. intro e. repeat split. }
  destruct cells as [|entry cells].
  { exists [], history, Stopped, w. repeat split; [constructor|assumption]. }
  destruct auto_refresh.
  { exists (entry :: cells), history, Rerun, w. repeat split; assumption. }
  destruct (for_each_refreshed monitor_cell) with (cells := entry :: cells) (w := w)
    as (cells' & w' & E & R); [|assumption|].
  { intros e w0 He. now apply monitor_cell_refreshed. }
  eexists cells', _, _, _. split; [|split].
  - unfold monitor_page, Py.bind, monitor_update. rewrite E.
    cbn [Py.datetime_now Py.ret]. reflexivity.
  - now apply refreshed_kept.
  - rewrite store_snapshot_length. lia.
Qed.

(** One run of the script on a session as the runs leave it. *)
Lemma run_page_session (page : Page) (session : Session) (w : Py.World) :
  session_ok session ->
  page_ok session page ->
  exists session' w',
    run_page float_str float_repr time_repr page session w = Some (session', w') /\
    session_ok session'.
Proof.
  intros Hs Hp. pose proof Hs as (B & E & N & H).
  pose proof (entries_chemistry _ E) as Hc.
  destruct session as [cells history]. cbn [session_cells session_history] in *.
  destruct page as [slots save| |selected_cells export_report generate_csv_pressed
                    |sliders apply_changes randomize emergency_stop_pressed|auto_refresh];
    cbn [run_page page_ok session_cells session_history] in *.
  - destruct (configure_session slots w Hp) as (reg & w' & Er & B' & E' & N').
    unfold Py.bind. rewrite Er. destruct save; eexists; eexists; (split; [reflexivity|]).
    + repeat split; assumption.
    + exact Hs.
  - destruct (dashboard_run cells) as (outcome & Eo).
    unfold Py.bind. rewrite Eo. eexists; eexists; split; [reflexivity|exact Hs].
  - destruct cells as [|entry cells].
    { eexists; eexists; split; [reflexivity|exact Hs]. }
    destruct (analysis_run selected_cells export_report generate_csv_pressed
                (entry :: cells) w Hc Hp) as (view & w' & Eo & _); [discriminate|].
    unfold Py.bind. rewrite Eo. eexists; eexists; split; [reflexivity|exact Hs].
  - destruct (control_panel_session sliders apply_changes randomize emergency_stop_pressed
                cells w Hc) as (cells' & outcome & w' & Eo & K).
    unfold Py.bind. rewrite Eo. eexists; eexists; split; [reflexivity|].
    cbn [fst]. exact (kept_session _ _ history history K H Hs).
  - destruct (monitor_page_session auto_refresh cells history w Hc H)
      as (cells' & history' & outcome & w' & Eo & K & H').
    unfold Py.bind. rewrite Eo. eexists; eexists; split; [reflexivity|].
    cbn [fst snd]. exact (kept_session _ _ history history' K H' Hs).
Qed.

Lemma initial_session_ok : session_ok initial_session.
Proof.
  repeat split; cbn; try constructor. lia.
Qed.

Lemma reachable_session (session : Session) (w : Py.World) :
  reachable float_str float_repr time_repr session w -> session_ok session.
Proof.
  induction 1 as [w|page session session' w w' _ IH Hp E].
  - exact initial_session_ok.
  - destruct (run_page_session page session w IH Hp) as (s & w1 & E1 & Hs).
    rewrite E in E1. injection E1 as <- <-. exact Hs.
Qed.

End SessionRuns.

(** X18. No run of the script ends in a [KeyError] or a division by zero.  In
    every session a user can reach from the start, whatever the draws of the
    generator and the readings of the sliders, the records carry a chemistry
    of the table with its two bounds, under distinct keys, and the history
    holds at most 100 snapshots; and the next run, of any page, returns. *)
Theorem session_safe (float_str float_repr : Q -> string) (time_repr : Z -> string)
  (session : Session) (w : Py.World) :
  reachable float_str float_repr time_repr session w ->
  session_ok session /\
  forall page, page_ok session page ->
    exists session' w',
      run_page float_str float_repr time_repr page session w = Some (session', w') /\
      session_ok session'.
Proof.
  intro H. pose proof (reachable_session _ _ _ _ _ H) as Hs.
  split; [exact Hs|]. intros page Hp. now apply run_page_session.
Qed.

Lemma session_safe_witness :
  session_ok configured_session /\
  forall page, page_ok configured_session page ->
    exists session' w',
      run_page Decimal.repr Decimal.repr Decimal.time_repr page configured_session
        configured_world = Some (session', w') /\
      session_ok session'.
Proof.
  apply (session_safe Decimal.repr Decimal.repr Decimal.time_repr configured_session
           configured_world).
  apply (reachable_run Decimal.repr Decimal.repr Decimal.time_repr
           (Configuration example_slots true) initial_session configured_session
           (constant_world (1 # 2)) configured_world).
  - apply reachable_start.
  - exact example_slots_ok.
  - vm_compute. reflexivity.
Defined.

(** The scatter chart accepts the capacities exactly when none is
    negative. *)
Lemma energy_scatter_run (cells : Registry) :
  (Forall (fun entry => 0 <= capacity (snd entry)) cells ->
   energy_scatter (map (fun entry => capacity (snd entry)) cells) = Some tt) /\
  (~ Forall (fun entry => 0 <= capacity (snd entry)) cells ->
   energy_scatter (map (fun entry => capacity (snd entry)) cells) = None).
Proof.
  unfold energy_scatter.
  destruct (forallb (Qle_bool 0) (map (fun entry => capacity (snd entry)) cells)) eqn:E.
  - split; [reflexivity|]. intro H. contradiction H.
    apply Forall_forall. intros entry Hin. apply Qle_bool_iff.
    apply (proj1 (forallb_forall _ _) E). now apply (in_map (fun entry => capacity (snd entry))).
  - split; [|reflexivity]. intro H.
    assert (forallb (Qle_bool 0) (map (fun entry => capacity (snd entry)) cells) = true) as E'.
    { apply forallb_forall. intros x Hx. apply in_map_iff in Hx.
      destruct Hx as (entry & <- & Hin). apply Qle_bool_iff.
      exact (proj1 (Forall_forall _ _) H entry Hin). }
    congruence.
Qed.

(** X19. The Analysis page, with the scatter chart of its first tab, on a
    non-empty registry whose chemistries are keys of the table, with cells
    selected among its keys.  When no capacity is negative the three tabs are
    computed: the performance table has one row per cell, the radar chart
    one closed trace of five values per selected cell, in the order
    selected; the CSV download is there exactly when its button is pressed
    and holds the export of the registry; the page draws no random number
    and reads the clock once for the report and once more for each
    download.  When a capacity is negative the run raises at the scatter
    chart, which takes the capacities as marker sizes, and shows no second
    or third tab and no download. *)
Theorem analysis_view (float_repr : Q -> string) (time_repr : Z -> string)
  (selected_cells : list string) (export_report generate_csv_pressed : bool)
  (cells : Registry) (w : Py.World) :
  Forall chemistry_ok cells ->
  incl selected_cells (map fst cells) ->
  cells <> [] ->
  (Forall (fun entry => 0 <= capacity (snd entry)) cells ->
   exists view w',
     analysis_charted float_repr time_repr selected_cells export_report generate_csv_pressed
       cells w = Some (Rendered view, w') /\
     Forall2 performance cells (shown_perf view) /\
     map fst (shown_radar view) = selected_cells /\
     Forall (fun trace => exists v c t p, snd trace = [v; c; t; p; v]) (shown_radar view) /\
     report_total_cells (shown_report view) = List.length cells /\
     (shown_json_download view <> None <-> export_report = true) /\
     (if generate_csv_pressed
      then exists now,
             shown_csv_download view = Some (generate_csv float_repr time_repr cells, now)
      else shown_csv_download view = None) /\
     Py.rng w' = Py.rng w /\ Py.rng_pos w' = Py.rng_pos w /\ Py.clock w' = Py.clock w /\
     Py.clock_pos w' =
       (Py.clock_pos w + 1 + (if export_report then 1 else 0)
        + (if generate_csv_pressed then 1 else 0))%nat) /\
  (~ Forall (fun entry => 0 <= capacity (snd entry)) cells ->
   analysis_charted float_repr time_repr selected_cells export_report generate_csv_pressed
     cells w = None).
Proof.
  intros Hc Hs Hne.
  destruct (perf_data_run _ Hc) as (rows & E1 & _).
  destruct (energy_scatter_run cells) as [Hyes Hno].
  split; intro H.
  - destruct (analysis_run float_repr time_repr selected_cells export_report
                generate_csv_pressed cells w Hc Hs Hne) as (view & w' & E & Hview).
    exists view, w'. split; [|exact Hview].
    destruct cells as [|entry cells]; [contradiction|].
    unfold analysis_charted, Py.bind. rewrite E1. cbn [Py.lift Py.ret].
    rewrite (Hyes H). exact E.
  - destruct cells as [|entry cells]; [contradiction|].
    unfold analysis_charted, Py.bind. rewrite E1. cbn [Py.lift Py.ret].
    now rewrite (Hno H).
Qed.

Lemma charged_registry_ok : Forall chemistry_ok charged_registry.
Proof.
  repeat constructor; unfold chemistry_ok; cbn; tauto.
Qed.

Lemma analysis_view_witness :
  (exists view w',
     analysis_charted Decimal.repr Decimal.time_repr ["B"; "A"] false true charged_registry
       (constant_world (1 # 2)) = Some (Rendered view, w') /\
     Forall2 performance charged_registry (shown_perf view) /\
     map fst (shown_radar view) = ["B"; "A"] /\
     Forall (fun trace => exists v c t p, snd trace = [v; c; t; p; v]) (shown_radar view) /\
     report_total_cells (shown_report view) = List.length charged_registry /\
     (shown_json_download view <> None <-> false = true) /\
     (exists now,
        shown_csv_download view
          = Some (generate_csv Decimal.repr Decimal.time_repr charged_registry, now)) /\
     Py.rng w' = Py.rng (constant_world (1 # 2)) /\
     Py.rng_pos w' = Py.rng_pos (constant_world (1 # 2)) /\
     Py.clock w' = Py.clock (constant_world (1 # 2)) /\
     Py.clock_pos w' = (Py.clock_pos (constant_world (1 # 2)) + 1 + 0 + 1)%nat) /\
  analysis_charted Decimal.repr Decimal.time_repr ["B"; "A"] false true example_registry
    (constant_world (1 # 2)) = None.
Proof.
  split.
  - apply (analysis_view Decimal.repr Decimal.time_repr ["B"; "A"] false true charged_registry
             (constant_world (1 # 2))).
    + exact charged_registry_ok.
    + intros x [<-|[<-|[]]]; cbn; tauto.
    + discriminate.
    + repeat constructor; cbn; discriminate.
  - apply (analysis_view Decimal.repr Decimal.time_repr ["B"; "A"] false true example_registry
             (constant_world (1 # 2))).
    + exact example_registry_ok.
    + intros x [<-|[<-|[]]]; cbn; tauto.
    + discriminate.
    + intro H. inversion H as [|? ? _ H']; subst. inversion H' as [|? ? Hb _]; subst.
      cbn in Hb. now apply Hb.
Defined.

(** ** From configuration to the pages *)

Section Configured.

Lemma configure_from_temps (slots : list SlotInput) :
  Forall slot_ok slots ->
  forall (cells : Registry) (i : nat) (w : Py.World),
    Py.rng_ok w ->
    Forall (fun entry => 25 <= temp (snd entry) <= 40) cells ->
    exists reg w',
      configure_from cells i slots w = Some (reg, w') /\
      Forall (fun entry => 25 <= temp (snd entry) <= 40) reg.
Proof.
  induction 1 as [|slot slots Hs _ IH]; intros cells i w Hw Hc; cbn [configure_from].
  - exists cells, w. split; [reflexivity|assumption].
  - destruct (dict_get_some _ _ Hs) as [config Hcfg].
    unfold Py.bind at 1. rewrite (configure_cell_run _ _ _ _ _ Hcfg).
    apply IH; [now apply rng_ok_next|].
    apply dict_set_entries; [assumption|]. cbn [snd temp].
    destruct (Hw (Py.rng_pos w)) as [R0 R1].
    assert (inject_Z 250 <= Py.round (25 + (40 - 25) * Py.rng w (Py.rng_pos w)) 1 * 10
            <= inject_Z 400) as [T1 T2].
    { apply (round_between 250 400 _ 1); change (Py.pow10 1) with 10.
      - change (inject_Z 250) with 250. lra.
      - change (inject_Z 400) with 400. lra. }
    change (inject_Z 250) with 250 in T1. change (inject_Z 400) with 400 in T2.
    split; lra.
Qed.

Lemma dashboard_rendered (cells : Registry) :
  cells <> [] ->
  exists v t,
    avg_voltage cells = Some v /\ avg_temp cells = Some t /\
    dashboard cells =
      Some (Rendered {| shown_total_cells := List.length cells;
                        shown_avg_voltage := v;
                        shown_total_current := total_current cells;
                        shown_avg_temp := t;
                        shown_table := display_data cells |}).
Proof.
  intro Hne. destruct cells as [|entry cells]; [contradiction|].
  destruct (mean_run (map (fun e => voltage (snd e)) (entry :: cells))) as (v & Ev & _);
    [discriminate|].
  destruct (mean_run (map (fun e => temp (snd e)) (entry :: cells))) as (t & Et & _);
    [discriminate|].
  exists v, t. unfold dashboard, avg_voltage, avg_temp. rewrite Ev, Et. repeat split.
Qed.

Lemma fresh_nominal (entry : string * CellRecord) :
  fresh entry -> 2.4 <= voltage (snd entry) <= 3.7.
Proof.
  intros (config & Hc & Hv & _). rewrite Hv.
  destruct (dict_get_known _ _ Hc); cbn; split; discriminate.
Qed.

End Configured.

(** X20. From "Save Configuration" to the dashboard and the monitor's alert
    system.  A registry saved from at least one slot is shown by the dashboard
    with one row per slot, every status Normal, a mean voltage between the
    lowest and the highest nominal voltage of the table and a mean temperature
    in [25, 40]; and it holds nothing the alert system reports. *)
Theorem configured_dashboard (float_str : Q -> string) (slots : list SlotInput)
  (w : Py.World) :
  slots <> [] ->
  Forall slot_ok slots ->
  Py.rng_ok w ->
  exists reg w' view,
    configure slots w = Some (reg, w') /\
    dashboard reg = Some (Rendered view) /\
    shown_total_cells view = List.length slots /\
    map display_cell (shown_table view) = slot_keys 0 slots /\
    Forall (fun row => display_status row = "✅ Normal") (shown_table view) /\
    2.4 <= shown_avg_voltage view <= 3.7 /\
    25 <= shown_avg_temp view <= 40 /\
    alerts float_str reg = [].
Proof.
  intros Hne Hs Hw.
  destruct (configure_from_Forall fresh) with (slots := slots)
    (cells := @nil (string * CellRecord)) (i := 0%nat) (w := w) as (reg & w' & E & Hf).
  { intros i slot config t Hc. now apply fresh_new. }
  { assumption. }
  { constructor. }
  destruct (configure_from_temps slots Hs [] 0%nat w Hw) as (reg1 & w1 & E1 & Ht);
    [constructor|].
  destruct (configure_from_keys slots Hs [] 0%nat w) as (reg2 & w2 & E2 & K);
    [intros k []|].
  rewrite E in E1, E2. injection E1 as <- <-. injection E2 as <- <-. cbn [map app] in K.
  assert (List.length reg = List.length slots) as Hlen.
  { rewrite <- (length_map fst reg), K. apply slot_keys_length. }
  assert (reg <> []) as Hreg.
  { destruct reg; [|discriminate]. destruct slots; [contradiction|discriminate]. }
  destruct (dashboard_rendered reg Hreg) as (v & t & Ev & Et & Ed).
  assert (Forall normal reg) as Hn.
  { eapply Forall_impl; [|exact Hf]. intros e He. apply is_normal_iff.
    now apply fresh_normal. }
  eexists reg, w', _. split; [exact E|]. split; [exact Ed|].
  cbn [shown_total_cells shown_table shown_avg_voltage shown_avg_temp].
  split; [exact Hlen|]. split; [|split; [|split; [|split]]].
  - rewrite <- K. unfold display_data. rewrite map_map. apply map_ext.
    intros [name data]. unfold display_row.
    now destruct (get_cell_status (voltage data) (cell_type data)).
  - unfold display_data. apply Forall_map. eapply Forall_impl; [|exact Hn].
    intros [name data] He. unfold normal in He. cbn [snd] in He.
    unfold display_row. rewrite He. reflexivity.
  - apply (mean_between 2.4 3.7 v (map (fun e => voltage (snd e)) reg)).
    + destruct reg; [contradiction|discriminate].
    + exact Ev.
    + apply Forall_map. eapply Forall_impl; [|exact Hf]. intros e. apply fresh_nominal.
  - apply (mean_between 25 40 t (map (fun e => temp (snd e)) reg)).
    + destruct reg; [contradiction|discriminate].
    + exact Et.
    + apply Forall_map. exact Ht.
  - rewrite alerts_status.
    + apply flat_map_nil. eapply Forall_impl; [|exact Hn].
      intros e. apply status_alerts_nil.
    + eapply Forall_impl; [|exact Ht]. intros e [_ H]. lra.
Qed.

Lemma configured_dashboard_witness :
  exists reg w' view,
    configure example_slots (constant_world (1 # 2)) = Some (reg, w') /\
    dashboard reg = Some (Rendered view) /\
    shown_total_cells view = List.length example_slots /\
    map display_cell (shown_table view) = slot_keys 0 example_slots /\
    Forall (fun row => display_status row = "✅ Normal") (shown_table view) /\
    2.4 <= shown_avg_voltage view <= 3.7 /\
    25 <= shown_avg_temp view <= 40 /\
    alerts Decimal.repr reg = [].
Proof.
  apply (configured_dashboard Decimal.repr example_slots (constant_world (1 # 2))).
  - discriminate.
  - exact example_slots_ok.
  - apply constant_world_ok; [discriminate|reflexivity].
Defined.

(** ** Mutation in place *)

Section InPlace.

Lemma deref_assign_same (heap : Shared.Heap) (ref : Shared.Ref) (old data : CellRecord) :
  Shared.deref heap ref = Some old ->
  Shared.deref (Shared.assign heap ref data) ref = Some data.
Proof.
  unfold Shared.deref. revert ref.
  induction heap as [|x heap IH]; intros [|ref]; cbn; try discriminate; auto.
Qed.

Lemma deref_assign_other (heap : Shared.Heap) (ref ref' : Shared.Ref) (data : CellRecord) :
  ref <> ref' ->
  Shared.deref (Shared.assign heap ref data) ref' = Shared.deref heap ref'.
Proof.
  unfold Shared.deref. revert ref ref'.
  induction heap as [|x heap IH]; intros [|ref] [|ref'] H; cbn; try reflexivity.
  - contradiction.
  - apply IH. congruence.
Qed.

Lemma items_frame (heap heap' : Shared.Heap) (d : Shared.Dict) :
  (forall ref, In ref (map snd d) -> Shared.deref heap' ref = Shared.deref heap ref) ->
  Shared.items heap' d = Shared.items heap d.
Proof.
  induction d as [|[name ref] d IH]; intro H; cbn [Shared.items]; [reflexivity|].
  rewrite H by (now left). rewrite IH; [reflexivity|].
  intros r Hr. apply H. now right.
Qed.

Variable body : string * CellRecord -> Py.M (string * CellRecord).

Hypothesis body_key :
  forall entry w new w', body entry w = Some (new, w') -> fst new = fst entry.

(** A loop that mutates the records of a dictionary in place does what the
    loop over the values does, when no two keys hold the same object; the
    objects the dictionary does not hold are left alone. *)
Lemma for_each_object_run (d : Shared.Dict) :
  NoDup (map snd d) ->
  forall (heap : Shared.Heap) (cells : Registry) (w : Py.World),
    Shared.items heap d = Some cells ->
    match Py.for_each body cells w with
    | Some (cells', w') =>
        exists heap',
          Shared.for_each_object body d heap w = Some (heap', w') /\
          Shared.items heap' d = Some cells' /\
          (forall ref, ~ In ref (map snd d) ->
                       Shared.deref heap' ref = Shared.deref heap ref)
    | None => Shared.for_each_object body d heap w = None
    end.
Proof.
  induction d as [|[name ref] d IH]; intros Hd heap cells w Hi.
  - cbn in Hi. injection Hi as <-. cbn. exists heap. repeat split.
  - cbn [map snd] in Hd. inversion Hd as [|? ? Hnew Hrest]; subst.
    cbn [Shared.items] in Hi.
    destruct (Shared.deref heap ref) as [data|] eqn:Er; [|discriminate].
    destruct (Shared.items heap d) as [entries|] eqn:Ei; [|discriminate].
    injection Hi as <-.
    cbn [Py.for_each Shared.for_each_object]. unfold Py.bind.
    rewrite Er. cbn [Py.lift Py.ret].
    destruct (body (name, data) w) as [[new w1]|] eqn:Eb; [|reflexivity].
    pose proof (body_key _ _ _ _ Eb) as Hk. cbn [fst] in Hk.
    assert (Shared.items (Shared.assign heap ref (snd new)) d = Some entries) as Ei'.
    { rewrite <- Ei. apply items_frame. intros r Hr. apply deref_assign_other.
      intro E. subst r. contradiction. }
    specialize (IH Hrest _ _ w1 Ei').
    destruct (Py.for_each body entries w1) as [[entries' w2]|].
    + destruct IH as (heap' & E' & I' & F'). exists heap'.
      split; [exact E'|]. split.
      * cbn [Shared.items]. rewrite (F' ref Hnew), (deref_assign_same _ _ _ _ Er), I'.
        destruct new as [k r]. cbn [fst snd] in *. now subst k.
      * intros r Hr. cbn [map snd In] in Hr.
        rewrite F' by tauto. apply deref_assign_other. tauto.
    + exact IH.
Qed.

End InPlace.

Section SharedPages.


Lemma monitor_cell_key (entry : string * CellRecord) (w : Py.World)
  (new : string * CellRecord) (w' : Py.World) :
  monitor_cell entry w = Some (new, w') -> fst new = fst entry.
Proof.
  destruct entry as [name data]. unfold monitor_cell, Py.bind.
  destruct (Py.dict_get CELL_CONFIGS (cell_type data)); cbn [Py.lift Py.ret Py.raise];
    [|discriminate].
  rewrite generate_mock_data_run. intro H. injection H as <- _. reflexivity.
Qed.





(** Storing a snapshot keeps it, as the last of the history. *)
Lemma shared_store_last (history : list Shared.Snapshot) (s : Shared.Snapshot) :
  exists older, Shared.store_snapshot history s = (older ++ [s])%list.
Proof.
  unfold Shared.store_snapshot.
  destruct (100 <? List.length (history ++ [s]))%nat.
  - unfold Py.last_n. rewrite length_app. cbn [List.length]. rewrite skipn_app.
    replace (List.length history + 1 - 100 - List.length history)%nat with 0%nat by lia.
    cbn [skipn]. eexists. reflexivity.
  - now exists history.
Qed.

Lemma items_nonempty (heap : Shared.Heap) (d : Shared.Dict) (cells : Registry) :
  Shared.items heap d = Some cells -> cells <> [] -> d <> [].
Proof.
  intros H Hne ->. cbn in H. injection H as <-. contradiction.
Qed.


End SharedPages.

(** X21. The monitor's update goes through the record objects.  On a session
    whose records are distinct objects, a run of the Real-time Monitor,
    which never stores its copy of the dictionary back, leaves the session
    registry as the update of its values, and raises when that update does.
    The snapshot it stores, the last of the history, holds the dictionary of
    the session.  After the run, any snapshot that holds that dictionary, as
    do all those stored since the last "Save Configuration", shows the
    registry as this run left it: such a snapshot keeps the time it was taken
    at and nothing of the telemetry of its run.  A snapshot that holds other
    record objects only, as one stored before the registry was configured
    anew, shows what it showed before the run. *)
Theorem history_shows_present (session : Shared.Session) (cells : Registry)
  (w : Py.World) :
  NoDup (map snd (Shared.cells_data session)) ->
  Shared.items (Shared.objects session) (Shared.cells_data session) = Some cells ->
  cells <> [] ->
  match monitor_update cells w with
  | Some (cells', w1) =>
      exists session' w' newest older,
        Shared.monitor_page false session w = Some (session', w') /\
        Shared.cells_data session' = Shared.cells_data session /\
        Shared.items (Shared.objects session') (Shared.cells_data session') = Some cells' /\
        Shared.historical_data session'
          = Shared.store_snapshot (Shared.historical_data session) newest /\
        Shared.historical_data session' = (older ++ [newest])%list /\
        Shared.snap_data newest = Shared.cells_data session /\
        (forall snapshot,
           Shared.snap_data snapshot = Shared.cells_data session ->
           Shared.shown session' snapshot = Some cells') /\
        (forall snapshot,
           (forall ref, In ref (map snd (Shared.snap_data snapshot)) ->
                        ~ In ref (map snd (Shared.cells_data session))) ->
           Shared.shown session' snapshot = Shared.shown session snapshot)
  | None => Shared.monitor_page false session w = None
  end.
Proof.
  intros Hd Hi Hne.
  pose proof (items_nonempty _ _ _ Hi Hne) as Hdict.
  pose proof (for_each_object_run monitor_cell monitor_cell_key _ Hd _ _ w Hi) as H.
  unfold monitor_update.
  destruct session as [heap dict history]. cbn [Shared.objects Shared.cells_data
    Shared.historical_data] in *.
  destruct dict as [|entry dict]; [contradiction|].
  destruct (Py.for_each monitor_cell cells w) as [[cells' w1]|].
  - destruct H as (heap' & E & I & F).
    unfold Shared.monitor_page, Py.bind.
    cbn [Shared.objects Shared.cells_data Shared.historical_data]. rewrite E.
    cbn [Py.datetime_now Py.ret].
    match goal with
    | |- context [Shared.store_snapshot history ?s] =>
        destruct (shared_store_last history s) as [older Eo];
        exists (Shared.mkSession heap' (entry :: dict) (Shared.store_snapshot history s)),
               (Py.mkWorld (Py.rng w1) (Py.rng_pos w1) (Py.clock w1) (S (Py.clock_pos w1))),
               s, older
    end.
    cbn [Shared.objects Shared.cells_data Shared.historical_data Shared.snap_data].
    split; [reflexivity|]. split; [reflexivity|]. split; [exact I|].
    split; [reflexivity|]. split; [exact Eo|]. split; [reflexivity|]. split.
    + intros snapshot Es. unfold Shared.shown. cbn [Shared.objects]. now rewrite Es.
    + intros snapshot Hs. unfold Shared.shown. cbn [Shared.objects].
      apply items_frame. intros ref Hr. apply F. now apply Hs.
  - unfold Shared.monitor_page, Py.bind.
    cbn [Shared.objects Shared.cells_data]. now rewrite H.
Qed.

Lemma history_shows_present_witness :
  match monitor_update example_registry (constant_world (1 # 2)) with
  | Some (cells', w1) =>
      exists session' w' newest older,
        Shared.monitor_page false recorded_session (constant_world (1 # 2))
          = Some (session', w') /\
        Shared.cells_data session' = Shared.cells_data recorded_session /\
        Shared.items (Shared.objects session') (Shared.cells_data session') = Some cells' /\
        Shared.historical_data session'
          = Shared.store_snapshot (Shared.historical_data recorded_session) newest /\
        Shared.historical_data session' = (older ++ [newest])%list /\
        Shared.snap_data newest = Shared.cells_data recorded_session /\
        (forall snapshot,
           Shared.snap_data snapshot = Shared.cells_data recorded_session ->
           Shared.shown session' snapshot = Some cells') /\
        (forall snapshot,
           (forall ref, In ref (map snd (Shared.snap_data snapshot)) ->
                        ~ In ref (map snd (Shared.cells_data recorded_session))) ->
           Shared.shown session' snapshot = Shared.shown recorded_session snapshot)
  | None => Shared.monitor_page false recorded_session (constant_world (1 # 2)) = None
  end.
Proof.
  apply (history_shows_present recorded_session example_registry (constant_world (1 # 2))).
  - cbn. repeat constructor; cbn; intuition discriminate.
  - reflexivity.
  - discriminate.
Defined.




(** ** What a refresh takes from the world *)

Section Accounting.

Variable refresh_cell : string * CellRecord -> Py.M (string * CellRecord).

Hypothesis refresh_cell_takes :
  forall entry w, chemistry_ok entry ->
    exists new,
      refresh_cell entry w = Some (new, refreshed_world w 1) /\
      timestamp (snd new) = Some (Py.clock w (Py.clock_pos w)).

Lemma for_each_takes (cells : Registry) :
  Forall chemistry_ok cells ->
  forall w, exists cells',
    Py.for_each refresh_cell cells w = Some (cells', refreshed_world w (List.length cells)) /\
    stamped w cells'.
Proof.
  induction 1 as [|entry cells He _ IH]; intro w; cbn [Py.for_each List.length].
  - exists []. split.
    + unfold Py.ret, refreshed_world. rewrite !Nat.add_0_r. now destruct w.
    + intros [|i] e; discriminate.
  - destruct (refresh_cell_takes entry w He) as (new & E1 & T1).
    destruct (IH (refreshed_world w 1)) as (cells' & E2 & T2).
    exists (new :: cells'). unfold Py.bind. rewrite E1, E2. split.
    + unfold Py.ret, refreshed_world. cbn [Py.rng Py.rng_pos Py.clock Py.clock_pos].
      do 3 f_equal; lia.
    + intros [|i] e Hi; cbn [nth_error] in Hi.
      * injection Hi as <-. now rewrite Nat.add_0_r.
      * rewrite (T2 i e Hi). cbn [refreshed_world Py.clock Py.clock_pos].
        do 2 f_equal. lia.
Qed.

End Accounting.

Lemma monitor_cell_takes (entry : string * CellRecord) (w : Py.World) :
  chemistry_ok entry ->
  exists new,
    monitor_cell entry w = Some (new, refreshed_world w 1) /\
    timestamp (snd new) = Some (Py.clock w (Py.clock_pos w)).
Proof.
  destruct entry as [name data]. intro H.
  destruct (dict_get_some _ _ H) as [config Hc]. cbn [snd] in Hc.
  unfold monitor_cell, Py.bind at 1. rewrite Hc. cbn [Py.lift Py.ret].
  unfold Py.bind. rewrite generate_mock_data_run.
  eexists. split.
  - unfold Py.ret, refreshed_world. apply f_equal, f_equal2; [reflexivity|].
    f_equal; lia.
  - reflexivity.
Qed.

Lemma randomize_cell_takes (entry : string * CellRecord) (w : Py.World) :
  chemistry_ok entry ->
  exists new,
    randomize_cell entry w = Some (new, refreshed_world w 1) /\
    timestamp (snd new) = Some (Py.clock w (Py.clock_pos w)).
Proof.
  destruct entry as [name data]. intro H.
  destruct (dict_get_some _ _ H) as [config Hc]. cbn [snd] in Hc.
  unfold randomize_cell, Py.bind at 1. rewrite Hc. cbn [Py.lift Py.ret].
  unfold Py.bind. rewrite generate_mock_data_run.
  eexists. split.
  - unfold Py.ret, refreshed_world. apply f_equal, f_equal2; [reflexivity|].
    f_equal; lia.
  - reflexivity.
Qed.

(** X23. What a refresh takes from the world.  "Randomize Values" and the
    monitor's update on [n] cells take three draws of the generator and one
    reading of the clock per cell, in registry order, and leave both streams
    as they were: the record at position [i] is stamped with the [i]-th
    reading from where the loop started, and the snapshot the monitor then
    stores with the reading after the last record's. *)
Theorem refresh_takes (float_str : Q -> string) (cells : Registry)
  (historical_data : list Snapshot) (w : Py.World) :
  Forall chemistry_ok cells ->
  cells <> [] ->
  (exists cells',
     randomize_values cells w = Some (cells', refreshed_world w (List.length cells)) /\
     stamped w cells') /\
  (exists cells',
     monitor_update cells w = Some (cells', refreshed_world w (List.length cells)) /\
     stamped w cells') /\
  (exists cells' view,
     monitor_page float_str false cells historical_data w
       = Some ((cells',
                store_snapshot historical_data
                  {| snap_timestamp := Py.clock w (Py.clock_pos w + List.length cells);
                     snap_data := cells' |},
                Rendered view),
               Py.mkWorld (Py.rng w) (Py.rng_pos w + 3 * List.length cells)
                 (Py.clock w) (Py.clock_pos w + List.length cells + 1)) /\
     stamped w cells').
Proof.
  intros Hc Hne.
  destruct (for_each_takes randomize_cell randomize_cell_takes cells Hc w) as (c1 & E1 & T1).
  destruct (for_each_takes monitor_cell monitor_cell_takes cells Hc w) as (c2 & E2 & T2).
  split; [exists c1; split; assumption|]. split; [exists c2; split; assumption|].
  exists c2. eexists. split; [|exact T2].
  destruct cells as [|entry cells]; [contradiction|].
  unfold monitor_page, Py.bind, monitor_update. rewrite E2.
  cbn [Py.datetime_now Py.ret refreshed_world Py.rng Py.rng_pos Py.clock Py.clock_pos].
  rewrite Nat.add_1_r. reflexivity.
Qed.

Lemma refresh_takes_witness :
  (exists cells',
     randomize_values example_registry (constant_world (1 # 2))
       = Some (cells', refreshed_world (constant_world (1 # 2)) (List.length example_registry)) /\
     stamped (constant_world (1 # 2)) cells') /\
  (exists cells',
     monitor_update example_registry (constant_world (1 # 2))
       = Some (cells', refreshed_world (constant_world (1 # 2)) (List.length example_registry)) /\
     stamped (constant_world (1 # 2)) cells') /\
  (exists cells' view,
     monitor_page Decimal.repr false example_registry [] (constant_world (1 # 2))
       = Some ((cells',
                store_snapshot []
                  {| snap_timestamp :=
                       Py.clock (constant_world (1 # 2))
                         (Py.clock_pos (constant_world (1 # 2))
                          + List.length example_registry);
                     snap_data := cells' |},
                Rendered view),
               Py.mkWorld (Py.rng (constant_world (1 # 2)))
                 (Py.rng_pos (constant_world (1 # 2)) + 3 * List.length example_registry)
                 (Py.clock (constant_world (1 # 2)))
                 (Py.clock_pos (constant_world (1 # 2)) + List.length example_registry + 1)) /\
     stamped (constant_world (1 # 2)) cells').
Proof.
  apply (refresh_takes Decimal.repr example_registry [] (constant_world (1 # 2))).
  - exact example_registry_ok.
  - discriminate.
Defined.
